(** * The user-listing query of the main data store

    A shallow embedding of [get_users_paginate] (with its transaction body
    [get_users_paginate_txn]) and of [check_database_before_upgrade] from
    [synapse/storage/databases/main/__init__.py], together with the part of
    the SQL engines the two functions rely on: the three-table left join,
    three-valued evaluation of the WHERE clause, LIKE patterns, ORDER BY and
    LIMIT/OFFSET.

    Conventions of the model:
    - Python [str] is [string], the text in UTF-8; Python [int] is [Z];
      [Optional[T]] is [option T]; a [JsonDict] is an association list in
      column order.
    - [str.lower()] follows Unicode and is a parameter of the model
      ([str_lower]); SQL's [LOWER] and SQLite's [LIKE] fold the ASCII letters
      only ([ascii_lower]), as SQLite does and as Postgres does under the
      [C] locale that the server asks of its database.
    - SQL integers are signed 64-bit integers: a bound integer parameter
      outside that range is rejected by [execute], and a product that
      leaves it is a floating-point number on SQLite and an error on
      Postgres.
    - A table is the list of its rows in the order the engine scans them. *)

From Stdlib Require Import ZArith List String Ascii Bool Lia Sorted Permutation.
Import ListNotations.
Open Scope string_scope.
Open Scope Z_scope.

(** ** Python values and strings *)

Module Py.

(** The only floats of the model are whole numbers (SQLite's products too
    large for 64 bits): [PyFloat x] is the float whose value is [x]. *)
Inductive pyval : Type :=
| PyNone
| PyBool (b : bool)
| PyInt (z : Z)
| PyFloat (x : Z)
| PyStr (s : string).

(** Python's [bool(x)]. *)
Definition truthy (v : pyval) : bool :=
  match v with
  | PyNone => false
  | PyBool b => b
  | PyInt z => negb (z =? 0)
  | PyFloat x => negb (x =? 0)
  | PyStr s => negb (s =? "")%string
  end.

(** [if s:] for an [Optional[str]]. *)
Definition str_given (s : option string) : bool :=
  match s with
  | Some (String _ _) => true
  | _ => false
  end.

Definition is_some {A : Type} (o : option A) : bool :=
  match o with
  | Some _ => true
  | None => false
  end.

Definition str_of (s : option string) : string :=
  match s with
  | Some t => t
  | None => EmptyString
  end.

Definition list_of {A : Type} (l : option (list A)) : list A :=
  match l with
  | Some t => t
  | None => []
  end.

(** [if l:] for an [Optional[List[str]]]. *)
Definition list_given {A : Type} (l : option (list A)) : bool :=
  match l with
  | Some (_ :: _) => true
  | _ => false
  end.

Definition lower_ascii (c : ascii) : ascii :=
  let n := N_of_ascii c in
  if ((65 <=? n) && (n <=? 90))%N then ascii_of_N (n + 32) else c.

(** The case fold of the ASCII letters, byte by byte.  It is what SQL's
    [LOWER] and SQLite's [LIKE] apply to text (what lies outside ASCII is
    left as it is), and what [str.lower()] gives for ASCII text.
    [str.lower()] itself follows Unicode: it is a parameter of the model,
    [str_lower] of the store below. *)
Fixpoint ascii_lower (s : string) : string :=
  match s with
  | EmptyString => EmptyString
  | String c s' => String (lower_ascii c) (ascii_lower s')
  end.

Inductive exn : Type :=
| ValueError (msg : string)
| KeyError (msg : string)
| DatabaseError (msg : string)
| Exception (msg : string).

Definition result (A : Type) : Type := (exn + A)%type.

(** A [JsonDict] with its keys in insertion order. *)
Definition JsonDict : Type := list (string * pyval).

Fixpoint dict_get (d : JsonDict) (k : string) : option pyval :=
  match d with
  | [] => None
  | (k', v) :: d' => if (k' =? k)%string then Some v else dict_get d' k
  end.

(** [d[k] = f(d[k])]; reading a missing key raises [KeyError]. *)
Fixpoint dict_update (d : JsonDict) (k : string) (f : pyval -> pyval)
  : result JsonDict :=
  match d with
  | [] => inl (KeyError k)
  | (k', v) :: d' =>
      if (k' =? k)%string then inr ((k', f v) :: d')
      else match dict_update d' k f with
           | inl e => inl e
           | inr d'' => inr ((k', v) :: d'')
           end
  end.

End Py.


(** ** The SQL engines, as far as the two queries use them *)

Module Sql.

(** The two engines the store runs on.  They differ in how booleans are
    stored and handed back, in LIKE (case folding, escape character), in
    where NULLs sort, in what a negative LIMIT or OFFSET means, and in what
    becomes of an integer product that does not fit into 64 bits. *)
Inductive engine : Type :=
| Sqlite3Engine
| PostgresEngine.

(** [VInt] is a signed 64-bit integer.  [VReal x] is the floating-point
    number whose value is the whole number [x]: the only ones that arise are
    SQLite's products too large for 64 bits, and those are whole. *)
Inductive sqlval : Type :=
| VNull
| VInt (z : Z)
| VReal (x : Z)
| VBool (b : bool)
| VText (s : string).

Definition int64 (z : Z) : bool := (- 2 ^ 63 <=? z) && (z <? 2 ^ 63).

(** Modelled from the spec: the schema of the three tables (the schema files
    are not among the sources).  Section 3 of the specification lists the
    fields and marks the user-type tag and the approval status as nullable;
    the guest and deactivated flags are integers, as the source compares them
    with [0].  Of [profiles] the statements read [full_user_id],
    [displayname] and [avatar_url]; the table also has the local part of
    the handle as [user_id], which matters only where a statement names a
    column [user_id] without its table (see [resolve_order]). *)
Record users_row : Type := {
  u_name : string;
  u_user_type : option string;
  u_is_guest : Z;
  u_admin : Z;
  u_deactivated : Z;
  u_shadow_banned : bool;
  u_approved : option bool;
  u_creation_ts : Z
}.

Record profiles_row : Type := {
  p_full_user_id : string;
  p_displayname : option string;
  p_avatar_url : option string
}.

Record erased_users_row : Type := {
  eu_user_id : string
}.

Record database : Type := {
  users : list users_row;
  profiles : list profiles_row;
  erased_users : list erased_users_row
}.

(** A row of [users AS u LEFT JOIN profiles AS p LEFT JOIN erased_users AS eu]. *)
Record joined : Type := {
  row_u : users_row;
  row_p : option profiles_row;
  row_eu : option erased_users_row
}.

Definition left_join {A B : Type} (on : A -> B -> bool)
  (l : list A) (r : list B) : list (A * option B) :=
  flat_map
    (fun a =>
       match filter (on a) r with
       | [] => [(a, None)]
       | ms => map (fun b => (a, Some b)) ms
       end) l.

(** [FROM users as u
     LEFT JOIN profiles AS p ON u.name = p.full_user_id
     LEFT JOIN erased_users AS eu ON u.name = eu.user_id] *)
Definition from_clause (db : database) : list joined :=
  map (fun x => {| row_u := fst (fst x); row_p := snd (fst x); row_eu := snd x |})
    (left_join (fun up e => (u_name (fst up) =? eu_user_id e)%string)
       (left_join (fun a b => (u_name a =? p_full_user_id b)%string)
          (users db) (profiles db))
       (erased_users db)).

(** A boolean as the engine stores and returns it: SQLite has no boolean
    type and uses the integers 0 and 1. *)
Definition bool_cell (eng : engine) (b : bool) : sqlval :=
  match eng with
  | Sqlite3Engine => VInt (if b then 1 else 0)
  | PostgresEngine => VBool b
  end.

Definition text_cell (s : option string) : sqlval :=
  match s with
  | Some t => VText t
  | None => VNull
  end.

Inductive column : Type :=
| Col_name
| Col_user_type
| Col_is_guest
| Col_admin
| Col_deactivated
| Col_shadow_banned
| Col_displayname
| Col_avatar_url
| Col_creation_ts
| Col_approved
| Col_full_user_id
| Col_eu_user_id.

Definition column_value (eng : engine) (r : joined) (c : column) : sqlval :=
  match c with
  | Col_name => VText (u_name (row_u r))
  | Col_user_type => text_cell (u_user_type (row_u r))
  | Col_is_guest => VInt (u_is_guest (row_u r))
  | Col_admin => VInt (u_admin (row_u r))
  | Col_deactivated => VInt (u_deactivated (row_u r))
  | Col_shadow_banned => bool_cell eng (u_shadow_banned (row_u r))
  | Col_displayname =>
      match row_p r with
      | Some q => text_cell (p_displayname q)
      | None => VNull
      end
  | Col_avatar_url =>
      match row_p r with
      | Some q => text_cell (p_avatar_url q)
      | None => VNull
      end
  | Col_creation_ts => VInt (u_creation_ts (row_u r))
  | Col_approved =>
      match u_approved (row_u r) with
      | Some b => bool_cell eng b
      | None => VNull
      end
  | Col_full_user_id =>
      match row_p r with
      | Some q => VText (p_full_user_id q)
      | None => VNull
      end
  | Col_eu_user_id =>
      match row_eu r with
      | Some e => VText (eu_user_id e)
      | None => VNull
      end
  end.

(** *** LIKE *)

Inductive like_tok : Type :=
| AnySeq
| AnyChar
| Lit_ (c : ascii).

(** Postgres takes the backslash as escape character when no ESCAPE is
    given; SQLite has no default escape character. *)
Definition like_escape (eng : engine) : bool :=
  match eng with
  | Sqlite3Engine => false
  | PostgresEngine => true
  end.

(** SQLite's LIKE ignores the case of ASCII letters; Postgres' does not. *)
Definition like_fold (eng : engine) (s : string) : string :=
  match eng with
  | Sqlite3Engine => Py.ascii_lower s
  | PostgresEngine => s
  end.

(** A pattern that ends in a lone escape character (an error in Postgres)
    loses it; no pattern of this module ends so. *)
Fixpoint like_parse (esc : bool) (pat : string) : list like_tok :=
  match pat with
  | EmptyString => []
  | String c rest =>
      if (c =? "%")%char then AnySeq :: like_parse esc rest
      else if (c =? "_")%char then AnyChar :: like_parse esc rest
      else if esc && (c =? "\")%char then
        match rest with
        | EmptyString => []
        | String d rest' => Lit_ d :: like_parse esc rest'
        end
      else Lit_ c :: like_parse esc rest
  end.

(** The rest of a character in UTF-8: the bytes [10xxxxxx] that follow its
    first byte. *)
Fixpoint skip_continuation (s : string) : string :=
  match s with
  | EmptyString => EmptyString
  | String c s' =>
      let n := N_of_ascii c in
      if ((128 <=? n) && (n <? 192))%N then skip_continuation s' else s
  end.

(** [_] stands for one character, which in UTF-8 is one byte and the
    continuation bytes after it; [%] stands for any text; every other
    token for its byte. *)
Fixpoint like_match (ts : list like_tok) (s : string) : bool :=
  match ts with
  | [] => match s with EmptyString => true | _ => false end
  | AnySeq :: ts' =>
      (fix star (s : string) : bool :=
         like_match ts' s
         || match s with
            | EmptyString => false
            | String _ s' => star s'
            end) s
  | AnyChar :: ts' =>
      match s with
      | EmptyString => false
      | String _ s' => like_match ts' (skip_continuation s')
      end
  | Lit_ c :: ts' =>
      match s with
      | EmptyString => false
      | String d s' => (c =? d)%char && like_match ts' s'
      end
  end.



(** [s LIKE pat] *)
Definition like (eng : engine) (s pat : string) : bool :=
  like_match (like_parse (like_escape eng) (like_fold eng pat))
    (like_fold eng s).

(** *** Expressions, with [?] placeholders *)

Inductive vexpr : Type :=
| Col (c : column)
| Hole
| Lit (v : sqlval)
| Lower (e : vexpr).

Inductive bexpr : Type :=
| Like (e pat : vexpr)
| EqInt (e : vexpr) (k : Z)
| IsFalse (e : vexpr)
| IsNull (e : vexpr)
| IsNotNull (e : vexpr)
| InList (e : vexpr) (items : list vexpr)
| Not (b : bexpr)
| Or (a b : bexpr)
| And (a b : bexpr).

(** A bound parameter: the source's [List[Union[str, int]]]. *)
Inductive arg : Type :=
| AStr (s : string)
| AInt (z : Z).

Definition sql_of_arg (a : arg) : sqlval :=
  match a with
  | AStr s => VText s
  | AInt z => VInt z
  end.

(** Placeholders are bound in the order they occur in the statement; the
    unused parameters are handed on. *)
Fixpoint bind_v (e : vexpr) (args : list arg) : option (vexpr * list arg) :=
  match e with
  | Col c => Some (Col c, args)
  | Hole =>
      match args with
      | [] => None
      | a :: rest => Some (Lit (sql_of_arg a), rest)
      end
  | Lit v => Some (Lit v, args)
  | Lower e' =>
      match bind_v e' args with
      | Some (e'', rest) => Some (Lower e'', rest)
      | None => None
      end
  end.

Fixpoint bind_vs (es : list vexpr) (args : list arg)
  : option (list vexpr * list arg) :=
  match es with
  | [] => Some ([], args)
  | e :: es' =>
      match bind_v e args with
      | Some (e', rest) =>
          match bind_vs es' rest with
          | Some (es'', rest') => Some (e' :: es'', rest')
          | None => None
          end
      | None => None
      end
  end.

Definition bind1 (mk : vexpr -> bexpr) (e : vexpr) (args : list arg)
  : option (bexpr * list arg) :=
  match bind_v e args with
  | Some (e', rest) => Some (mk e', rest)
  | None => None
  end.

Fixpoint bind_b (b : bexpr) (args : list arg) : option (bexpr * list arg) :=
  match b with
  | Like e pat =>
      match bind_v e args with
      | Some (e', rest) => bind1 (Like e') pat rest
      | None => None
      end
  | EqInt e k => bind1 (fun e' => EqInt e' k) e args
  | IsFalse e => bind1 IsFalse e args
  | IsNull e => bind1 IsNull e args
  | IsNotNull e => bind1 IsNotNull e args
  | InList e items =>
      match bind_v e args with
      | Some (e', rest) =>
          match bind_vs items rest with
          | Some (items', rest') => Some (InList e' items', rest')
          | None => None
          end
      | None => None
      end
  | Not b' =>
      match bind_b b' args with
      | Some (b'', rest) => Some (Not b'', rest)
      | None => None
      end
  | Or a b' =>
      match bind_b a args with
      | Some (a', rest) =>
          match bind_b b' rest with
          | Some (b'', rest') => Some (Or a' b'', rest')
          | None => None
          end
      | None => None
      end
  | And a b' =>
      match bind_b a args with
      | Some (a', rest) =>
          match bind_b b' rest with
          | Some (b'', rest') => Some (And a' b'', rest')
          | None => None
          end
      | None => None
      end
  end.

Definition bind_where (w : option bexpr) (args : list arg)
  : option (option bexpr * list arg) :=
  match w with
  | None => Some (None, args)
  | Some b =>
      match bind_b b args with
      | Some (b', rest) => Some (Some b', rest)
      | None => None
      end
  end.

(** *** Three-valued evaluation; [None] is SQL's NULL / unknown *)

Definition sqlval_eqb (a b : sqlval) : bool :=
  match a, b with
  | VNull, VNull => true
  | (VInt x | VReal x), (VInt y | VReal y) => (x =? y)
  | VBool x, VBool y => Bool.eqb x y
  | VText x, VText y => (x =? y)%string
  | _, _ => false
  end.

Definition is_null (v : sqlval) : bool :=
  match v with
  | VNull => true
  | _ => false
  end.

(** An unbound placeholder and [LOWER] of a non-text value do not occur in a
    statement that [execute] accepts; they evaluate to NULL here. *)
Fixpoint eval_v (eng : engine) (r : joined) (e : vexpr) : sqlval :=
  match e with
  | Col c => column_value eng r c
  | Hole => VNull
  | Lit v => v
  | Lower e' =>
      match eval_v eng r e' with
      | VText s => VText (Py.ascii_lower s)
      | _ => VNull
      end
  end.

Definition sql_not (a : option bool) : option bool := option_map negb a.

Definition sql_or (a b : option bool) : option bool :=
  match a, b with
  | Some true, _ => Some true
  | _, Some true => Some true
  | Some false, Some false => Some false
  | _, _ => None
  end.

Definition sql_and (a b : option bool) : option bool :=
  match a, b with
  | Some false, _ => Some false
  | _, Some false => Some false
  | Some true, Some true => Some true
  | _, _ => None
  end.

(** [x IN (v1, ..., vn)]: false for the empty list whatever [x] is; unknown
    for a NULL [x] otherwise, or when no item equals [x] and one is NULL. *)
Definition sql_in (x : sqlval) (items : list sqlval) : option bool :=
  match items with
  | [] => Some false
  | _ =>
      if is_null x then None
      else if existsb (sqlval_eqb x) items then Some true
      else if existsb is_null items then None
      else Some false
  end.

Fixpoint eval_b (eng : engine) (r : joined) (b : bexpr) : option bool :=
  match b with
  | Like e pat =>
      match eval_v eng r e, eval_v eng r pat with
      | VText s, VText q => Some (like eng s q)
      | _, _ => None
      end
  | EqInt e k =>
      match eval_v eng r e with
      | VInt z | VReal z => Some (z =? k)
      | _ => None
      end
  | IsFalse e =>
      match eval_v eng r e with
      | VBool x => Some (negb x)
      | VInt z | VReal z => Some (z =? 0)
      | _ => Some false
      end
  | IsNull e => Some (is_null (eval_v eng r e))
  | IsNotNull e => Some (negb (is_null (eval_v eng r e)))
  | InList e items => sql_in (eval_v eng r e) (map (eval_v eng r) items)
  | Not b' => sql_not (eval_b eng r b')
  | Or a b' => sql_or (eval_b eng r a) (eval_b eng r b')
  | And a b' => sql_and (eval_b eng r a) (eval_b eng r b')
  end.

(** A row passes WHERE when the condition is true (not false, not unknown). *)
Definition where_holds (eng : engine) (w : option bexpr) (r : joined) : bool :=
  match w with
  | None => true
  | Some b =>
      match eval_b eng r b with
      | Some true => true
      | _ => false
      end
  end.

(** *** The select list of the page query *)

Inductive select_item : Type :=
| SelCol (c : column)
| SelTimes (c : column) (k : Z)
| SelIsNotNull (c : column).

(** [SELECT name, user_type, is_guest, admin, deactivated, shadow_banned,
     displayname, avatar_url, creation_ts * 1000 as creation_ts, approved,
     eu.user_id is not null as erased] *)
Definition select_list : list (string * select_item) :=
  [ ("name", SelCol Col_name);
    ("user_type", SelCol Col_user_type);
    ("is_guest", SelCol Col_is_guest);
    ("admin", SelCol Col_admin);
    ("deactivated", SelCol Col_deactivated);
    ("shadow_banned", SelCol Col_shadow_banned);
    ("displayname", SelCol Col_displayname);
    ("avatar_url", SelCol Col_avatar_url);
    ("creation_ts", SelTimes Col_creation_ts 1000);
    ("approved", SelCol Col_approved);
    ("erased", SelIsNotNull Col_eu_user_id) ].

(** The double-precision number nearest to the whole number [z], ties to
    the even mantissa: [z] itself when it has at most 53 significant bits. *)
Definition round53 (z : Z) : Z :=
  let a := Z.abs z in
  let e := Z.log2 a - 52 in
  if e <=? 0 then z
  else
    let q := Z.shiftr a e in
    let rest := a - Z.shiftl q e in
    let half := Z.shiftl 1 (e - 1) in
    let q' :=
      if rest <? half then q
      else if half <? rest then q + 1
      else if Z.even q then q else q + 1 in
    Z.sgn z * Z.shiftl q' e.

(** The product of two integers as SQLite computes it once it does not fit
    into 64 bits: both factors are converted to double precision and
    multiplied there. *)
Definition real_times (x y : Z) : Z := round53 (round53 x * round53 y).

(** [x * y] on integers: the product, as long as it is a signed 64-bit
    integer.  Beyond that SQLite gives the floating-point product; Postgres
    raises [bigint out of range] (see [times_overflows] and
    [select_raises]), so that the value is not used there. *)
Definition times (x y : Z) : sqlval :=
  if int64 (x * y) then VInt (x * y) else VReal (real_times x y).

Definition eval_item (eng : engine) (r : joined) (it : select_item) : sqlval :=
  match it with
  | SelCol c => column_value eng r c
  | SelTimes c k =>
      match column_value eng r c with
      | VInt z => times z k
      | _ => VNull
      end
  | SelIsNotNull c => bool_cell eng (negb (is_null (column_value eng r c)))
  end.

(** The item is a product that does not fit into 64 bits. *)
Definition times_overflows (eng : engine) (r : joined) (it : select_item) : bool :=
  match it with
  | SelTimes c k =>
      match column_value eng r c with
      | VInt z => negb (int64 (z * k))
      | _ => false
      end
  | _ => false
  end.

(** Whether computing the select list raises.  SQLite does not raise.
    Postgres raises on a product that overflows, for the rows it computes
    the select list for: not any for [LIMIT 0]; else the rows of the page
    at least, and with the plan that sorts (the one the model takes) every
    row that passes WHERE, as the list is computed before the rows are
    sorted and the window is cut. *)
Definition select_raises (eng : engine) (limit : Z) (rows : list joined) : bool :=
  match eng with
  | Sqlite3Engine => false
  | PostgresEngine =>
      (0 <? limit)
      && existsb (fun r => existsb (times_overflows eng r) (map snd select_list))
           rows
  end.

(** *** ORDER BY *)

Inductive sort_order : Type :=
| ASC
| DESC.

Fixpoint assoc {A : Type} (k : string) (l : list (string * A)) : option A :=
  match l with
  | [] => None
  | (k', v) :: l' => if (k' =? k)%string then Some v else assoc k l'
  end.

(** An ORDER BY name is an output column of the select list if there is one
    of that name, else a column of the joined tables, provided exactly one
    of them has a column of that name.  Of the columns modelled only
    [full_user_id] is resolved in this second way: [user_id] is a column of
    both [profiles] and [erased_users], and so ambiguous.  [None] is for a
    name that the engine rejects, as unknown or as ambiguous. *)
Definition resolve_order (column_name : string) : option select_item :=
  match assoc column_name select_list with
  | Some it => Some it
  | None =>
      if (column_name =? "full_user_id")%string then Some (SelCol Col_full_user_id)
      else None
  end.

(** In ascending order SQLite puts NULLs first and Postgres puts them last. *)
Definition nulls_first (eng : engine) : bool :=
  match eng with
  | Sqlite3Engine => true
  | PostgresEngine => false
  end.

Definition bool_compare (x y : bool) : comparison :=
  match x, y with
  | false, true => Lt
  | true, false => Gt
  | _, _ => Eq
  end.

(** Integers and floating-point numbers are compared by value; text is
    compared byte by byte. *)
Definition sql_compare (eng : engine) (a b : sqlval) : comparison :=
  match a, b with
  | VNull, VNull => Eq
  | VNull, _ => if nulls_first eng then Lt else Gt
  | _, VNull => if nulls_first eng then Gt else Lt
  | (VInt x | VReal x), (VInt y | VReal y) => Z.compare x y
  | (VInt _ | VReal _), _ => Lt
  | _, (VInt _ | VReal _) => Gt
  | VBool x, VBool y => bool_compare x y
  | VBool _, _ => Lt
  | _, VBool _ => Gt
  | VText x, VText y => String.compare x y
  end.

Definition directed (o : sort_order) (c : comparison) : comparison :=
  match o with
  | ASC => c
  | DESC => CompOpp c
  end.

(** [ORDER BY <it> <o>, u.name ASC] *)
Definition row_compare (eng : engine) (it : select_item) (o : sort_order)
  (r1 r2 : joined) : comparison :=
  match directed o (sql_compare eng (eval_item eng r1 it) (eval_item eng r2 it)) with
  | Eq => sql_compare eng (column_value eng r1 Col_name) (column_value eng r2 Col_name)
  | c => c
  end.

Definition row_leb (eng : engine) (it : select_item) (o : sort_order)
  (r1 r2 : joined) : bool :=
  match row_compare eng it o r1 r2 with
  | Gt => false
  | _ => true
  end.

Fixpoint insert_by {A : Type} (leb : A -> A -> bool) (x : A) (l : list A)
  : list A :=
  match l with
  | [] => [x]
  | y :: l' => if leb x y then x :: l else y :: insert_by leb x l'
  end.

Fixpoint sort_by {A : Type} (leb : A -> A -> bool) (l : list A) : list A :=
  match l with
  | [] => []
  | x :: l' => insert_by leb x (sort_by leb l')
  end.

(** *** LIMIT and OFFSET *)

(** SQLite reads a negative LIMIT as no limit and a negative OFFSET as 0;
    Postgres rejects both. *)
Definition limit_offset {A : Type} (eng : engine) (limit offset : Z)
  (l : list A) : Py.result (list A) :=
  match eng with
  | Sqlite3Engine =>
      let l1 := if offset <? 0 then l else skipn (Z.to_nat offset) l in
      inr (if limit <? 0 then l1 else firstn (Z.to_nat limit) l1)
  | PostgresEngine =>
      if limit <? 0 then inl (Py.DatabaseError "LIMIT must not be negative")
      else if offset <? 0 then inl (Py.DatabaseError "OFFSET must not be negative")
      else inr (firstn (Z.to_nat limit) (skipn (Z.to_nat offset) l))
  end.

(** *** Statements and their execution *)

Inductive query : Type :=
| SelectCount (where_clause : option bexpr)
| SelectUsers (where_clause : option bexpr) (order_by_column : string)
    (order : sort_order)
| SelectOneName.

Record cursor : Type := {
  description : list string;
  fetchall : list (list sqlval)
}.

Definition arg_ok (a : arg) : bool :=
  match a with
  | AStr _ => true
  | AInt z => int64 z
  end.

Definition matching (eng : engine) (db : database) (w : option bexpr)
  : list joined :=
  filter (where_holds eng w) (from_clause db).

(** [ORDER BY <it> <o>, u.name ASC LIMIT <limit> OFFSET <offset>] over the
    rows that passed WHERE.  A LIMIT or OFFSET that the engine rejects is
    reported before any row is read. *)
Definition ordered_page (eng : engine) (it : select_item) (o : sort_order)
  (limit offset : Z) (rows : list joined) : Py.result (list joined) :=
  match limit_offset eng limit offset (sort_by (row_leb eng it o) rows) with
  | inl e => inl e
  | inr rs =>
      if select_raises eng limit rows then
        inl (Py.DatabaseError "bigint out of range")
      else inr rs
  end.

Definition page (eng : engine) (db : database) (w : option bexpr)
  (it : select_item) (o : sort_order) (limit offset : Z)
  : Py.result (list joined) :=
  ordered_page eng it o limit offset (matching eng db w).

Definition project (eng : engine) (r : joined) : list sqlval :=
  map (fun c => eval_item eng r (snd c)) select_list.

Definition execute (eng : engine) (db : database) (sql : query)
  (args : list arg) : Py.result cursor :=
  if negb (forallb arg_ok args) then
    inl (Py.DatabaseError "integer out of range")
  else
    match sql with
    | SelectCount w =>
        match bind_where w args with
        | Some (w', []) =>
            inr {| description := ["total_users"];
                   fetchall := [[VInt (Z.of_nat (List.length (matching eng db w')))]] |}
        | _ => inl (Py.DatabaseError "wrong number of parameters")
        end
    | SelectUsers w column_name o =>
        match bind_where w args with
        | Some (w', [AInt limit; AInt offset]) =>
            match resolve_order column_name with
            | Some it =>
                match page eng db w' it o limit offset with
                | inr rs =>
                    inr {| description := map fst select_list;
                           fetchall := map (project eng) rs |}
                | inl e => inl e
                end
            | None => inl (Py.DatabaseError "no such column, or ambiguous")
            end
        | _ => inl (Py.DatabaseError "wrong number or type of parameters")
        end
    | SelectOneName =>
        match args with
        | [] =>
            inr {| description := ["name"];
                   fetchall := map (fun x => [VText (u_name x)])
                                 (firstn 1 (users db)) |}
        | _ => inl (Py.DatabaseError "wrong number of parameters")
        end
    end.

Definition py_of_sqlval (v : sqlval) : Py.pyval :=
  match v with
  | VNull => Py.PyNone
  | VInt z => Py.PyInt z
  | VReal x => Py.PyFloat x
  | VBool b => Py.PyBool b
  | VText s => Py.PyStr s
  end.

(** [cursor_to_dict]: one dictionary per row, keyed by the column names. *)
Definition cursor_to_dict (c : cursor) : list Py.JsonDict :=
  map (fun row => combine (description c) (map py_of_sqlval row)) (fetchall c).

End Sql.

(** ** The data store *)

Module DataStore.
Import Sql.

(** [Direction] of [synapse.api.constants]. *)
Inductive Direction : Type :=
| FORWARDS
| BACKWARDS.

(** What the methods read of [self], the engine and the database behind the
    pool, together with the two parameters of the model.
    [UserSortOrder_values] are the values of the members of the enum
    [UserSortOrder], which [synapse.storage.databases.main.stats] declares
    (not among the sources).  [str_lower] is Python's [str.lower()], which
    follows the Unicode case mapping; nothing is assumed of it. *)
Record store : Type := {
  database_engine : engine;
  db_pool : database;
  UserSortOrder_values : list string;
  str_lower : string -> string
}.

(** [UserSortOrder(value).value]: the lookup of an enum member by value. *)
Definition UserSortOrder (self : store) (value : string) : Py.result string :=
  if existsb (String.eqb value) (UserSortOrder_values self) then inr value
  else inl (Py.ValueError ("'" ++ value ++ "' is not a valid UserSortOrder")).

(** Modelled from the spec: [make_in_list_sql_clause] of
    [synapse.storage._base] (not among the sources), "an IN-list exclusion
    over the literal tags": [column IN (?, ..., ?)] with one placeholder and
    one parameter per item. *)
Definition make_in_list_sql_clause (eng : engine) (c : column)
  (iterable : list string) : bexpr * list arg :=
  (InList (Col c) (map (fun _ => Hole) iterable), map AStr iterable).

(** *** The transaction: local variables and the statements run so far *)

Record txn_state : Type := {
  filters : list bexpr;
  args : list arg;
  executed : list (query * list arg)
}.

Definition Txn (A : Type) : Type := txn_state -> Py.result A * txn_state.

Definition ret {A : Type} (a : A) : Txn A := fun st => (inr a, st).

Definition bind {A B : Type} (m : Txn A) (k : A -> Txn B) : Txn B :=
  fun st =>
    match m st with
    | (inr a, st') => k a st'
    | (inl e, st') => (inl e, st')
    end.

Definition lift {A : Type} (r : Py.result A) : Txn A := fun st => (r, st).

Notation "x <- m ;; k" := (bind m (fun x => k))
  (at level 61, m at next level, right associativity).
Notation "m ;; k" := (bind m (fun _ => k))
  (at level 61, right associativity).

Definition set_filters (fs : list bexpr) : Txn unit :=
  fun st => (inr tt, {| filters := fs; args := args st; executed := executed st |}).

Definition set_args (a : list arg) : Txn unit :=
  fun st => (inr tt, {| filters := filters st; args := a; executed := executed st |}).

Definition get_filters : Txn (list bexpr) := fun st => (inr (filters st), st).

Definition get_args : Txn (list arg) := fun st => (inr (args st), st).

(** [filters.append(f)] *)
Definition filters_append (f : bexpr) : Txn unit :=
  fs <- get_filters ;; set_filters (fs ++ [f])%list.

(** [args.extend(l)], [args += l] *)
Definition args_extend (l : list arg) : Txn unit :=
  a <- get_args ;; set_args (a ++ l)%list.

(** [txn.execute(sql, args)] *)
Definition txn_execute (self : store) (sql : query) (a : list arg) : Txn cursor :=
  fun st =>
    (execute (database_engine self) (db_pool self) sql a,
     {| filters := filters st; args := args st;
        executed := (executed st ++ [(sql, a)])%list |}).

(** [txn.fetchone()[0]] *)
Definition fetchone_0 (c : cursor) : Py.result Z :=
  match fetchall c with
  | (VInt n :: _) :: _ => inr n
  | _ => inl (Py.Exception "no count")
  end.

(** [" AND ".join(filters)], or no WHERE at all *)
Definition where_of (fs : list bexpr) : option bexpr :=
  match fs with
  | [] => None
  | f :: fs' => Some (fold_left And fs' f)
  end.

Definition columns_to_boolify : list string := ["erased"].

(** [for column in columns_to_boolify: user[column] = bool(user[column])] *)
Definition boolify (user : Py.JsonDict) : Py.result Py.JsonDict :=
  fold_left
    (fun acc column =>
       match acc with
       | inr d => Py.dict_update d column (fun v => Py.PyBool (Py.truthy v))
       | inl e => inl e
       end)
    columns_to_boolify (inr user).

Fixpoint for_each {A B : Type} (f : A -> Py.result B) (l : list A)
  : Py.result (list B) :=
  match l with
  | [] => inr []
  | x :: l' =>
      match f x with
      | inr y =>
          match for_each f l' with
          | inr ys => inr (y :: ys)
          | inl e => inl e
          end
      | inl e => inl e
      end
  end.

(** The loop over [not_user_types] that splits off the empty string. *)
Definition split_empty (not_user_types : list string) : bool * list string :=
  fold_left
    (fun acc not_user_type =>
       if (not_user_type =? "")%string then (true, snd acc)
       else (fst acc, (snd acc ++ [not_user_type])%list))
    not_user_types (false, []).

(** Lines 210-215: [if name: ... elif user_id: ...], with the clauses
    [(name LIKE ? OR LOWER(displayname) LIKE ?)] and [name LIKE ?]. *)
Definition name_filter (self : store) (user_id name : option string)
  : Txn unit :=
  if Py.str_given name then
    filters_append
      (Or (Like (Col Col_name) Hole) (Like (Lower (Col Col_displayname)) Hole)) ;;
    args_extend
      [AStr ("@%" ++ str_lower self (Py.str_of name) ++ "%:%");
       AStr ("%" ++ str_lower self (Py.str_of name) ++ "%")]
  else if Py.str_given user_id then
    filters_append (Like (Col Col_name) Hole) ;;
    args_extend [AStr ("%" ++ str_lower self (Py.str_of user_id) ++ "%")]
  else ret tt.

(** Lines 217-226: the clauses [is_guest = 0], [deactivated = 0] and
    [approved IS FALSE]. *)
Definition flag_filters (guests deactivated approved : bool) : Txn unit :=
  (if negb guests then filters_append (EqInt (Col Col_is_guest) 0) else ret tt) ;;
  (if negb deactivated then filters_append (EqInt (Col Col_deactivated) 0)
   else ret tt) ;;
  (if negb approved then filters_append (IsFalse (Col Col_approved)) else ret tt).

(** Lines 228-260: the clauses [user_type IS NOT NULL], [NOT <in-list>] and
    [(NOT <in-list> OR u.user_type IS NULL)].  ([nth 0 l] is [l[0]]; its
    default is not used, as [l] has one element there.) *)
Definition user_type_filter (self : store) (not_user_types : option (list string))
  : Txn unit :=
  if Py.list_given not_user_types then
    let l := Py.list_of not_user_types in
    if (List.length l =? 1)%nat && (nth 0 l "x" =? "")%string then
      filters_append (IsNotNull (Col Col_user_type))
    else
      let not_user_types_has_empty := fst (split_empty l) in
      let not_user_types_without_empty := snd (split_empty l) in
      let clause :=
        make_in_list_sql_clause (database_engine self) Col_user_type
          not_user_types_without_empty in
      (if not_user_types_has_empty then filters_append (Not (fst clause))
       else filters_append (Or (Not (fst clause)) (IsNull (Col Col_user_type)))) ;;
      args_extend (snd clause)
  else ret tt.

(** Lines 195-292.  The two statements are [SelectCount] and [SelectUsers]
    over the same FROM and WHERE; the second takes [limit] and [start] as
    its last two parameters, for [LIMIT ? OFFSET ?]. *)
Definition get_users_paginate_txn (self : store) (start limit : Z)
  (user_id name : option string) (guests deactivated : bool)
  (order_by : string) (direction : Direction) (approved : bool)
  (not_user_types : option (list string))
  : Txn (list Py.JsonDict * Z) :=
  set_filters [] ;;
  set_args [] ;;
  order_by_column <- lift (UserSortOrder self order_by) ;;
  let order := match direction with BACKWARDS => DESC | FORWARDS => ASC end in
  name_filter self user_id name ;;
  flag_filters guests deactivated approved ;;
  user_type_filter self not_user_types ;;
  fs <- get_filters ;;
  let where_clause := where_of fs in
  a <- get_args ;;
  c <- txn_execute self (SelectCount where_clause) a ;;
  count <- lift (fetchone_0 c) ;;
  args_extend [AInt limit; AInt start] ;;
  a' <- get_args ;;
  c' <- txn_execute self (SelectUsers where_clause order_by_column order) a' ;;
  users <- lift (for_each boolify (cursor_to_dict c')) ;;
  ret (users, count).

Definition fresh : txn_state := {| filters := []; args := []; executed := [] |}.

(** [runInteraction] runs the function in a transaction of its own and hands
    its result, or its exception, to the caller. *)
Definition get_users_paginate (self : store) (start limit : Z)
  (user_id name : option string) (guests deactivated : bool)
  (order_by : string) (direction : Direction) (approved : bool)
  (not_user_types : option (list string))
  : Py.result (list Py.JsonDict * Z) :=
  fst (get_users_paginate_txn self start limit user_id name guests deactivated
         order_by direction approved not_user_types fresh).

(** *** The check before an upgrade *)

Definition newline : string := String "010"%char EmptyString.

Definition not_native (server_name : string) : string :=
  "Found users in database not native to " ++ server_name ++ "!" ++ newline
  ++ "You cannot change a synapse server_name after it's been configured".

(** Lines 317-341.  [get_domain_from_id] of [synapse.types] is not among
    the sources: a parameter, which may raise.  The cursor is the database
    it reads, [server_name] is [config.server.server_name], and the statement
    is [SELECT name FROM users LIMIT 1]. *)
Definition check_database_before_upgrade
  (get_domain_from_id : string -> Py.result string)
  (cur : database) (database_engine : engine) (server_name : string)
  : Py.result unit :=
  match execute database_engine cur SelectOneName [] with
  | inl e => inl e
  | inr c =>
      match fetchall c with
      | [] => inr tt
      | row :: _ =>
          match row with
          | VText name :: _ =>
              match get_domain_from_id name with
              | inl e => inl e
              | inr user_domain =>
                  if (user_domain =? server_name)%string then inr tt
                  else inl (Py.Exception (not_native server_name))
              end
          | _ => inl (Py.Exception "not a name")
          end
      end
  end.

(** *** Reading the model

    Auxiliary definitions for the statements below, all derived from the
    definitions above. *)

(** What a block of the transaction appends to [filters] and [args]. *)
Definition added_filters (block : Txn unit) : list bexpr :=
  filters (snd (block fresh)).

Definition added_args (block : Txn unit) : list arg :=
  args (snd (block fresh)).

(** A row passes a block when it satisfies the conjunction of the clauses
    the block appends, bound to the parameters the block appends. *)
Definition passes (eng : engine) (block : Txn unit) (r : joined) : bool :=
  match bind_where (where_of (added_filters block)) (added_args block) with
  | Some (w, []) => where_holds eng w r
  | _ => false
  end.

(** The clause [f] takes exactly the parameters [a] and binds to [f']. *)
Definition closed (f : bexpr) (a : list arg) (f' : bexpr) : Prop :=
  forall rest, bind_b f (a ++ rest)%list = Some (f', rest).

Inductive closed_list : list bexpr -> list arg -> list bexpr -> Prop :=
| closed_nil : closed_list [] [] []
| closed_cons f a f' fs al fs' :
    closed f a f' -> closed_list fs al fs' ->
    closed_list (f :: fs) (a ++ al)%list (f' :: fs').

(** The block only appends to [filters] and [args], and does not raise. *)
Definition appends (block : Txn unit) : Prop :=
  forall st,
    block st =
    (inr tt,
     {| filters := (filters st ++ added_filters block)%list;
        args := (args st ++ added_args block)%list;
        executed := executed st |}).

(** A block that appends clauses together with exactly the parameters they
    take, all of them strings. *)
Definition pure_block (block : Txn unit) : Prop :=
  appends block
  /\ (exists fs', closed_list (added_filters block) (added_args block) fs')
  /\ forallb arg_ok (added_args block) = true.

Definition holds (eng : engine) (r : joined) (f : bexpr) : bool :=
  match eval_b eng r f with
  | Some true => true
  | _ => false
  end.

(** The row passes every filter of the call. *)
Definition row_passes (self : store) (user_id name : option string)
  (guests deactivated approved : bool) (not_user_types : option (list string))
  (r : joined) : bool :=
  passes (database_engine self) (name_filter self user_id name) r
  && passes (database_engine self) (flag_filters guests deactivated approved) r
  && passes (database_engine self) (user_type_filter self not_user_types) r.

Definition order_of (direction : Direction) : sort_order :=
  match direction with
  | BACKWARDS => DESC
  | FORWARDS => ASC
  end.

(** The dictionary the caller gets for a joined row. *)
Definition user_dict (eng : engine) (r : joined) : Py.JsonDict :=
  match boolify (combine (map fst select_list) (map py_of_sqlval (project eng r))) with
  | inr d => d
  | inl _ => []
  end.

(** The joined rows of the page, before they are turned into dictionaries. *)
Definition page_rows (self : store) (start limit : Z)
  (user_id name : option string) (guests deactivated : bool)
  (order_by : string) (direction : Direction) (approved : bool)
  (not_user_types : option (list string)) : Py.result (list joined) :=
  match resolve_order order_by with
  | None => inl (Py.DatabaseError "no such column, or ambiguous")
  | Some it =>
      ordered_page (database_engine self) it (order_of direction) limit start
        (filter (row_passes self user_id name guests deactivated approved
                   not_user_types)
           (from_clause (db_pool self)))
  end.

(** The store with its [users] table cut down to the rows that satisfy [q]. *)
Definition restrict_users (q : users_row -> bool) (self : store) : store :=
  {| database_engine := database_engine self;
     db_pool := {| users := filter q (users (db_pool self));
                   profiles := profiles (db_pool self);
                   erased_users := erased_users (db_pool self) |};
     UserSortOrder_values := UserSortOrder_values self;
     str_lower := str_lower self |}.

(** The display name of the profile the row is joined with. *)
Definition displayname_of (r : joined) : option string :=
  match row_p r with
  | Some q => p_displayname q
  | None => None
  end.

(** The approval status is an explicit false. *)
Definition unapproved (x : users_row) : bool :=
  match u_approved x with
  | Some false => true
  | _ => false
  end.

(** The tags of the list other than the empty string. *)
Definition literal_tags (l : list string) : list string :=
  filter (fun t => negb (t =? "")%string) l.

Definition has_user_type (x : users_row) : bool := Py.is_some (u_user_type x).

Definition type_not_in (tags : list string) (x : users_row) : bool :=
  match u_user_type x with
  | Some ty => negb (existsb (String.eqb ty) tags)
  | None => false
  end.

Definition null_or_type_not_in (tags : list string) (x : users_row) : bool :=
  match u_user_type x with
  | Some ty => negb (existsb (String.eqb ty) tags)
  | None => true
  end.



(** The name clause as the code binds it, for the lower-cased term [t]:
    [name LIKE '@%<t>%:%' OR LOWER(displayname) LIKE '%<t>%']. *)
Definition name_clause (eng : engine) (t : string) (r : joined) : bool :=
  like eng (u_name (row_u r)) ("@%" ++ t ++ "%:%")
  || match displayname_of r with
     | Some dn => like eng (Py.ascii_lower dn) ("%" ++ t ++ "%")
     | None => false
     end.

(** The product [creation_ts * 1000] of the row is a 64-bit integer. *)
Definition in_milliseconds (x : users_row) : bool :=
  int64 (u_creation_ts x * 1000).

(** No statement over these users can raise [bigint out of range]: the
    engine is SQLite, or every product [creation_ts * 1000] fits. *)
Definition products_fit (self : store) : Prop :=
  database_engine self = PostgresEngine ->
  forall x, In x (users (db_pool self)) -> in_milliseconds x = true.

End DataStore.
(** ** A small store for the examples *)

Module Sample.
Import Sql DataStore.

Definition user (name : string) (user_type : option string)
  (is_guest deactivated : Z) (approved : option bool) (creation_ts : Z)
  : users_row :=
  {| u_name := name; u_user_type := user_type; u_is_guest := is_guest;
     u_admin := 0; u_deactivated := deactivated; u_shadow_banned := false;
     u_approved := approved; u_creation_ts := creation_ts |}.

(** A guest without a user type, whose approval was never recorded. *)
Definition bob : users_row := user "@bob:x" None 1 0 None 1700000000.

(** A bot that is explicitly not approved. *)
Definition alice : users_row :=
  user "@alice:x" (Some "bot") 0 0 (Some false) 1600000000.

(** A deactivated, approved and erased support user. *)
Definition carol : users_row :=
  user "@carol:x" (Some "support") 0 1 (Some true) 1500000000.

Definition db : database :=
  {| users := [bob; alice; carol];
     profiles := [ {| p_full_user_id := "@alice:x";
                      p_displayname := Some "Alice A";
                      p_avatar_url := None |} ];
     erased_users := [ {| eu_user_id := "@carol:x" |} ] |}.

(** Values of [UserSortOrder] for the examples: the output columns one can
    sort by, and three names that the page statement does not resolve.  The
    text of the examples is ASCII, on which [str.lower()] is
    [ascii_lower]. *)
Definition sort_orders : list string :=
  ["media_length"; "media_count"; "user_id"; "name"; "displayname";
   "is_guest"; "admin"; "deactivated"; "user_type"; "avatar_url";
   "shadow_banned"; "creation_ts"].

Definition store_of (eng : engine) (d : database) : store :=
  {| database_engine := eng;
     db_pool := d;
     UserSortOrder_values := sort_orders;
     str_lower := Py.ascii_lower |}.

Definition store (eng : engine) : store := store_of eng db.

(** A user whose [creation_ts], in seconds, is so large that a thousand
    times it is not a 64-bit integer. *)
Definition dave : users_row := user "@dave:x" None 0 0 None 9223372036854776.

Definition dave_row : joined :=
  {| row_u := dave; row_p := None; row_eu := None |}.

Definition far_future : database :=
  {| users := [dave]; profiles := []; erased_users := [] |}.

Definition bob_row : joined :=
  {| row_u := bob; row_p := None; row_eu := None |}.

Definition alice_row : joined :=
  {| row_u := alice;
     row_p := Some {| p_full_user_id := "@alice:x";
                      p_displayname := Some "Alice A";
                      p_avatar_url := None |};
     row_eu := None |}.

Definition carol_row : joined :=
  {| row_u := carol; row_p := None;
     row_eu := Some {| eu_user_id := "@carol:x" |} |}.

(** An instance of the parameter [get_domain_from_id] for the examples: the
    text after the first colon, an error when there is none. *)
Fixpoint domain_of (s : string) : Py.result string :=
  match s with
  | EmptyString => inl (Py.ValueError "Invalid ID")
  | String c s' => if (c =? ":")%char then inr s' else domain_of s'
  end.

Definition example_org : database :=
  {| users := [user "@alice:example.org" None 0 0 None 0];
     profiles := [];
     erased_users := [] |}.

Definition empty : database :=
  {| users := []; profiles := []; erased_users := [] |}.

End Sample.

(** ** More of the listing: predicates on the [users] row *)

Module Listing.
Import Sql DataStore.

Definition not_guest (x : users_row) : bool := (u_is_guest x =? 0).

Definition not_deactivated (x : users_row) : bool := (u_deactivated x =? 0).


(** The call that filters nothing, in the given order and window. *)
Definition list_all (self : store) (start limit : Z) (order_by : string)
  (direction : Direction) : Py.result (list Py.JsonDict * Z) :=
  get_users_paginate self start limit None None true true order_by direction
    true None.

Definition is_string_arg (a : arg) : bool :=
  match a with
  | AStr _ => true
  | AInt _ => false
  end.

End Listing.

(** ** The test utilities of [tests/utils.py] *)

Module TestUtils.

Inductive error : Type :=
| StoreError (code : Z) (msg : string)
| KeyError (msg : string)
| ValueError (msg : string)
| AssertionError (msg : string)
| AttributeError (msg : string)
| AlreadyCalledError
| CodeMessageException (code : Z) (msg : string)
| OtherError (msg : string).

Definition result (A : Type) : Type := (error + A)%type.

(** *** Python dictionaries, as association lists with one entry per key *)

Section Dict.
Context {K V : Type}.
Variable eqb : K -> K -> bool.

(** [d.get(k)] *)
Fixpoint get (d : list (K * V)) (k : K) : option V :=
  match d with
  | [] => None
  | (k', v) :: d' => if eqb k' k then Some v else get d' k
  end.

(** [d[k] = v]: the entry of [k] is replaced where it stands, a new key goes
    to the end. *)
Fixpoint set (d : list (K * V)) (k : K) (v : V) : list (K * V) :=
  match d with
  | [] => [(k, v)]
  | (k', v') :: d' =>
      if eqb k' k then (k', v) :: d' else (k', v') :: set d' k v
  end.

End Dict.

(** *** [MockClock] *)

Module MockClock.

(** The class attribute [now = 1000]. *)
Definition class_now : Z := 1000.

(** The instance: its own [now], once [advance_time] has set one. *)
Record t : Type := {
  now : option Z
}.

Definition new : t := {| now := None |}.

(** [self.now]: the instance attribute, else the class attribute. *)
Definition self_now (self : t) : Z :=
  match now self with
  | Some n => n
  | None => class_now
  end.

Definition time (self : t) : Z := self_now self.

Definition time_msec (self : t) : Z := time self * 1000.

(** [self.now += secs] *)
Definition advance_time (self : t) (secs : Z) : t :=
  {| now := Some (self_now self + secs) |}.

(** A run of [advance_time] calls. *)
Definition advance_all (self : t) (l : list Z) : t := fold_left advance_time l self.

End MockClock.

(** *** [MemoryDataStore] *)

Module MemoryDataStore.

Record Room : Type := {
  room_id : string;
  is_public : bool;
  creator : string
}.

(** An event, as far as the store reads it: [state_key] and [membership]
    are attributes an event may lack; [body] stands for the rest. *)
Record event : Type := {
  ev_type : string;
  ev_room_id : string;
  ev_state_key : option string;
  ev_membership : option string;
  ev_body : string
}.

Definition state_key_t : Type := (string * string * string)%type.

Definition key_eqb (a b : state_key_t) : bool :=
  (fst (fst a) =? fst (fst b))%string
  && (snd (fst a) =? snd (fst b))%string
  && (snd a =? snd b)%string.

Record t : Type := {
  tokens_to_users : list (string * string);
  paths_to_content : list (string * string);
  members : list (string * list (string * event));
  rooms : list (string * Room);
  current_state : list (state_key_t * event);
  events : list event
}.

(** [__init__] *)
Definition new : t :=
  {| tokens_to_users := []; paths_to_content := []; members := []; rooms := [];
     current_state := []; events := [] |}.

Definition with_tokens (self : t) (d : list (string * string)) : t :=
  {| tokens_to_users := d; paths_to_content := paths_to_content self;
     members := members self; rooms := rooms self;
     current_state := current_state self; events := events self |}.

Definition with_rooms (self : t) (d : list (string * Room)) : t :=
  {| tokens_to_users := tokens_to_users self;
     paths_to_content := paths_to_content self;
     members := members self; rooms := d;
     current_state := current_state self; events := events self |}.

(** [register]: the password hash is not stored. *)
Definition register (self : t) (user_id token password_hash : string)
  : result unit * t :=
  if existsb (String.eqb user_id) (map snd (tokens_to_users self)) then
    (inl (StoreError 400 "User in use."), self)
  else
    (inr tt, with_tokens self (set String.eqb (tokens_to_users self) token user_id)).

(** A run of registrations [(user_id, token, password_hash)], failed ones
    included. *)
Definition register_all (self : t) (l : list (string * string * string)) : t :=
  fold_left
    (fun s r => snd (register s (fst (fst r)) (snd (fst r)) (snd r))) l self.

Definition get_user_by_token (self : t) (token : string) : result string :=
  match get String.eqb (tokens_to_users self) token with
  | Some user_id => inr user_id
  | None => inl (StoreError 400 "User does not exist.")
  end.

Definition get_room (self : t) (room_id : string) : option Room :=
  get String.eqb (rooms self) room_id.

Definition store_room (self : t) (room_id room_creator_user_id : string)
  (is_public : bool) : result unit * t :=
  match get String.eqb (rooms self) room_id with
  | Some _ => (inl (StoreError 409 "Conflicting room!"), self)
  | None =>
      (inr tt,
       with_rooms self
         (set String.eqb (rooms self) room_id
            {| room_id := room_id; is_public := is_public;
               creator := room_creator_user_id |}))
  end.

(** [self.members.get(room_id, {})] *)
Definition room_members (self : t) (room_id : string) : list (string * event) :=
  match get String.eqb (members self) room_id with
  | Some m => m
  | None => []
  end.

Definition get_room_member (self : t) (user_id room_id : string) : option event :=
  get String.eqb (room_members self room_id) user_id.

(** [event.membership == membership]; an event without the attribute raises. *)
Fixpoint with_membership (vs : list event) (membership : string)
  : result (list event) :=
  match vs with
  | [] => inr []
  | v :: vs' =>
      match ev_membership v with
      | None => inl (AttributeError "membership")
      | Some m =>
          match with_membership vs' membership with
          | inl e => inl e
          | inr l => inr (if (m =? membership)%string then v :: l else l)
          end
      end
  end.

Definition get_room_members (self : t) (room_id : string)
  (membership : option string) : result (list event) :=
  if Py.str_given membership then
    with_membership (map snd (room_members self room_id)) (Py.str_of membership)
  else inr (map snd (room_members self room_id)).

(** [[r for r in self.members
      if self.members[r].get(user_id).membership in membership_list]] *)
Fixpoint rooms_where (ms : list (string * list (string * event)))
  (rs : list string) (user_id : string) (membership_list : list string)
  : result (list string) :=
  match rs with
  | [] => inr []
  | r :: rs' =>
      match get String.eqb ms r with
      | None => inl (KeyError r)
      | Some m =>
          match get String.eqb m user_id with
          | None => inl (AttributeError "'NoneType' object has no attribute 'membership'")
          | Some e =>
              match ev_membership e with
              | None => inl (AttributeError "membership")
              | Some mem =>
                  match rooms_where ms rs' user_id membership_list with
                  | inl err => inl err
                  | inr l =>
                      inr (if existsb (String.eqb mem) membership_list
                           then r :: l else l)
                  end
              end
          end
      end
  end.

Definition get_rooms_for_user_where_membership_is (self : t) (user_id : string)
  (membership_list : list string) : result (list string) :=
  rooms_where (members self) (map fst (members self)) user_id membership_list.

(** [persist_event]; [member_type] is [RoomMemberEvent.TYPE], a constant of
    [synapse.api.events.room] (not among the sources). *)
Definition persist_event (member_type : string) (self : t) (ev : event)
  : result unit * t :=
  let after_members : result (list (string * list (string * event))) :=
    if (ev_type ev =? member_type)%string then
      match ev_state_key ev with
      | None => inl (AttributeError "state_key")
      | Some user =>
          match ev_membership ev with
          | None => inl (AttributeError "membership")
          | Some _ =>
              inr (set String.eqb (members self) (ev_room_id ev)
                     (set String.eqb (room_members self (ev_room_id ev)) user ev))
          end
      end
    else inr (members self) in
  match after_members with
  | inl e => (inl e, self)
  | inr ms =>
      (inr tt,
       {| tokens_to_users := tokens_to_users self;
          paths_to_content := paths_to_content self;
          members := ms;
          rooms := rooms self;
          current_state :=
            match ev_state_key ev with
            | Some k =>
                set key_eqb (current_state self) (ev_room_id ev, ev_type ev, k) ev
            | None => current_state self
            end;
          events := (events self ++ [ev])%list |})
  end.

(** A run of [persist_event], failed ones included. *)
Definition persist_all (member_type : string) (self : t) (l : list event) : t :=
  fold_left (fun s ev => snd (persist_event member_type s ev)) l self.

(** What [get_current_state] returns: events, [None], or the keys of a room. *)
Inductive state_result : Type :=
| StateEvents (l : list event)
| StateNone
| StateKeys (l : list state_key_t).

(** An event object is true as a condition. *)
Definition get_current_state (self : t) (room_id : string)
  (event_type : option string) (state_key : string) : state_result :=
  if Py.str_given event_type then
    match get key_eqb (current_state self)
            (room_id, Py.str_of event_type, state_key) with
    | Some e => StateEvents [e]
    | None => StateNone
    end
  else
    StateKeys
      (filter (fun e => (fst (fst e) =? room_id)%string)
         (map fst (current_state self))).

End MemoryDataStore.

(** *** [DeferredMockCallable] *)

Module DeferredMockCallable.

(** A Twisted [Deferred], as far as the class uses it: it fires once, with
    [callback] or [errback], and firing it again raises
    [AlreadyCalledError]. *)
Inductive deferred : Type :=
| Pending
| Called
| Failed (failure : string).

Section Mock.
Context {V R : Type}.
Variable v_eqb : V -> V -> bool.
Variable repr : V -> string.
Variable self_repr : string.

Definition args_t : Type := list V.
Definition kwargs_t : Type := list (string * V).

Fixpoint args_eqb (a b : args_t) : bool :=
  match a, b with
  | [], [] => true
  | x :: a', y :: b' => v_eqb x y && args_eqb a' b'
  | _, _ => false
  end.

(** Equality of two dictionaries: the same keys with equal values. *)
Definition kwargs_eqb (a b : kwargs_t) : bool :=
  (List.length a =? List.length b)%nat
  && forallb
       (fun kv =>
          match get String.eqb b (fst kv) with
          | Some v => v_eqb (snd kv) v
          | None => false
          end) a.

Definition expectation : Type := ((args_t * kwargs_t) * R * deferred)%type.

Record t : Type := {
  expectations : list expectation;
  calls : list (args_t * kwargs_t)
}.

Definition new : t := {| expectations := []; calls := [] |}.

(** [", ".join(...)] *)
Fixpoint join (sep : string) (l : list string) : string :=
  match l with
  | [] => EmptyString
  | [s] => s
  | s :: l' => s ++ sep ++ join sep l'
  end.

Definition _format_call (args : args_t) (kwargs : kwargs_t) : string :=
  join ", "
    (List.app (map repr args)
       (map (fun kv => fst kv ++ "=" ++ repr (snd kv)) kwargs)).

Definition matches (e : expectation) (args : args_t) (kwargs : kwargs_t) : bool :=
  args_eqb args (fst (fst (fst e))) && kwargs_eqb kwargs (snd (fst (fst e))).

(** The loop over the expectations: the first that matches is fired and its
    result returned; [None] when none matches. *)
Fixpoint answer (es : list expectation) (args : args_t) (kwargs : kwargs_t)
  : option (result R * list expectation) :=
  match es with
  | [] => None
  | e :: es' =>
      if matches e args kwargs then
        match snd e with
        | Pending => Some (inr (snd (fst e)), (fst e, Called) :: es')
        | _ => Some (inl AlreadyCalledError, es)
        end
      else
        match answer es' args kwargs with
        | Some (r, es'') => Some (r, e :: es'')
        | None => None
        end
  end.

(** [try: d.errback(failure) except: pass] *)
Definition errback (failure : string) (e : expectation) : expectation :=
  match snd e with
  | Pending => (fst e, Failed failure)
  | _ => e
  end.

(** [__call__] *)
Definition call (self : t) (args : args_t) (kwargs : kwargs_t) : result R * t :=
  let calls' := (calls self ++ [(args, kwargs)])%list in
  match expectations self with
  | [] =>
      (inl (ValueError (self_repr ++ " has no pending calls to handle call("
                        ++ _format_call args kwargs ++ ")")),
       {| expectations := []; calls := calls' |})
  | _ =>
      match answer (expectations self) args kwargs with
      | Some (r, es) => (r, {| expectations := es; calls := calls' |})
      | None =>
          let failure :=
            "Was not expecting call(" ++ _format_call args kwargs ++ ")" in
          (inl (AssertionError failure),
           {| expectations := map (errback failure) (expectations self);
              calls := calls' |})
      end
  end.


Definition expect_call_and_return (self : t) (c : args_t * kwargs_t) (r : R) : t :=
  {| expectations := (expectations self ++ [(c, r, Pending)])%list;
     calls := calls self |}.



End Mock.

End DeferredMockCallable.

(** *** [MockHttpResource] *)

Module MockHttpResource.

(** [s.split(c)] for a separator of one character. *)
Fixpoint split (c : ascii) (s : string) : list string :=
  match s with
  | EmptyString => [EmptyString]
  | String x s' =>
      if (x =? c)%char then EmptyString :: split c s'
      else
        match split c s' with
        | h :: t => String x h :: t
        | [] => [String x EmptyString]
        end
  end.

(** The character occurs in the string. *)
Fixpoint has_char (c : ascii) (s : string) : bool :=
  match s with
  | EmptyString => false
  | String x s' => (x =? c)%char || has_char c s'
  end.

Section Resource.
Variables Content Query Response : Type.

(** [urlparse.parse_qs], which may raise, and [cs_error] of
    [synapse.api.errors] (not among the sources): parameters. *)
Variable parse_qs : string -> option Query.
Variable cs_error : string -> Response.

(** The mocked request, as far as [trigger] sets it. *)
Record request : Type := {
  content : Content;
  path : string;
  args : option Query
}.

(** A registered callback: the method, the compiled pattern (its [match],
    giving the groups) and the function. *)
Definition callback : Type :=
  (string * (string -> option (list string))
   * (request -> list string -> result (Z * Response)))%type.

Record t : Type := {
  callbacks : list callback;
  prefix : string
}.

Definition new (prefix : string) : t := {| callbacks := []; prefix := prefix |}.

Definition register_path (self : t) (method : string)
  (path_pattern : string -> option (list string))
  (f : request -> list string -> result (Z * Response)) : t :=
  {| callbacks := (callbacks self ++ [(method, path_pattern, f)])%list;
     prefix := prefix self |}.

(** The [try] block that moves the query string from the path to [args]. *)
Definition take_query (req : request) : request :=
  match nth_error (split "?" (path req)) 1 with
  | None => req
  | Some q =>
      match parse_qs q with
      | None => req
      | Some a =>
          {| content := content req;
             path := nth 0 (split "?" (path req)) EmptyString;
             args := Some a |}
      end
  end.

(** The loop over the callbacks. *)
Fixpoint dispatch (cbs : list callback) (http_method : string) (req : request)
  : result (Z * Response) :=
  match cbs with
  | [] => inl (KeyError ("No event can handle " ++ path req))
  | (method, pattern, f) :: cbs' =>
      if negb (http_method =? method)%string then dispatch cbs' http_method req
      else
        match pattern (path req) with
        | None => dispatch cbs' http_method req
        | Some groups =>
            match f req groups with
            | inr (code, response) => inr (code, response)
            | inl (CodeMessageException code msg) => inr (code, cs_error msg)
            | inl e => inl e
            end
        end
  end.

(** The callback takes requests of this method and path. *)
Definition handles (cb : callback) (http_method path : string) : bool :=
  (http_method =? fst (fst cb))%string
  && Py.is_some (snd (fst cb) path).

(** The request [trigger] hands to the callbacks. *)
Definition request_of (self : t) (path : string) (content : Content) : request :=
  take_query {| content := content; path := prefix self ++ path; args := None |}.

Definition trigger (self : t) (http_method path : string) (content : Content)
  : result (Z * Response) :=
  dispatch (callbacks self) http_method (request_of self path content).

(** [trigger_get] *)
Definition trigger_get (self : t) (path : string) (none : Content)
  : result (Z * Response) :=
  trigger self "GET" path none.

End Resource.

Arguments content {Content Query} _.
Arguments path {Content Query} _.
Arguments args {Content Query} _.
Arguments callbacks {Content Query Response} _.
Arguments prefix {Content Query Response} _.
Arguments register_path {Content Query Response} self method path_pattern f.
Arguments take_query {Content Query} parse_qs req.
Arguments dispatch {Content Query Response} cs_error cbs http_method req.
Arguments handles {Content Query Response} cb http_method path.
Arguments request_of {Content Query Response} parse_qs self path content.
Arguments trigger {Content Query Response} parse_qs cs_error self http_method
  path content.

End MockHttpResource.

(** *** Small instances for the examples *)

Module Examples.

(** A pattern that matches one path, without groups. *)
Definition exactly (p : string) (path : string) : option (list string) :=
  if (path =? p)%string then Some [] else None.

Definition ok_handler (body : string)
  (req : MockHttpResource.request string string) (groups : list string)
  : result (Z * string) :=
  inr (200, body).

Definition failing_handler
  (req : MockHttpResource.request string string) (groups : list string)
  : result (Z * string) :=
  inl (CodeMessageException 403 "Forbidden").

Definition parse_qs (q : string) : option string := Some q.

Definition cs_error (msg : string) : string := "error: " ++ msg.

Definition resource : MockHttpResource.t string string string :=
  MockHttpResource.register_path
    (MockHttpResource.register_path (MockHttpResource.new string string string "/api")
       "GET" (exactly "/api/users") (ok_handler "users"))
    "PUT" (exactly "/api/users") failing_handler.

(** A mock that expects the call [f(1)] twice. *)
Definition mock : DeferredMockCallable.t (V := Z) (R := string) :=
  DeferredMockCallable.expect_call_and_return
    (DeferredMockCallable.expect_call_and_return DeferredMockCallable.new
       ([1], []) "first")
    ([1], []) "second".

Definition repr (z : Z) : string := if z =? 1 then "1" else "?".

Definition member (user room membership : string) : MemoryDataStore.event :=
  {| MemoryDataStore.ev_type := "m.room.member";
     MemoryDataStore.ev_room_id := room;
     MemoryDataStore.ev_state_key := Some user;
     MemoryDataStore.ev_membership := Some membership;
     MemoryDataStore.ev_body := EmptyString |}.

End Examples.

End TestUtils.

(** ** Facts on strings *)

Section StringFacts.


Lemma append_assoc (a b c : string) : (a ++ b) ++ c = a ++ (b ++ c).
Proof. induction a as [|x a IH]; simpl; [reflexivity | now rewrite IH]. Qed.




End StringFacts.

(** ** Facts on LIKE *)

Section LikeFacts.
Import Sql.





Lemma like_match_nil (s : string) : like_match [] s = true <-> s = "".
Proof. destruct s; simpl; split; congruence. Qed.












End LikeFacts.

(** ** Binding parameters and evaluating the WHERE clause *)

Section BindFacts.
Import Sql DataStore.

Lemma closed_and f a f' g b g' :
  closed f a f' -> closed g b g' -> closed (And f g) (a ++ b) (And f' g').
Proof.
  intros Hf Hg rest. simpl. rewrite <- app_assoc, Hf, Hg. reflexivity.
Qed.

Lemma closed_fold_and fs al fs' :
  closed_list fs al fs' ->
  forall f a f', closed f a f' ->
  closed (fold_left And fs f) (a ++ al) (fold_left And fs' f').
Proof.
  induction 1 as [|g b g' gs bl gs' Hg _ IH]; intros f a f' Hf.
  - rewrite app_nil_r. exact Hf.
  - simpl. rewrite app_assoc. apply IH. now apply closed_and.
Qed.

Lemma bind_where_closed fs al fs' rest :
  closed_list fs al fs' ->
  bind_where (where_of fs) (al ++ rest) = Some (where_of fs', rest).
Proof.
  intros H. destruct H as [|f a f' fs al fs' Hf Hfs]; [reflexivity|].
  simpl. now rewrite (closed_fold_and _ _ _ Hfs _ _ _ Hf rest).
Qed.

Lemma closed_list_app fs1 a1 fs1' fs2 a2 fs2' :
  closed_list fs1 a1 fs1' -> closed_list fs2 a2 fs2' ->
  closed_list (fs1 ++ fs2) (a1 ++ a2) (fs1' ++ fs2').
Proof.
  induction 1 as [|f a f' fs al fs' Hf _ IH]; intros H2; [exact H2|].
  simpl. rewrite <- app_assoc. constructor; [exact Hf | now apply IH].
Qed.

Lemma closed_list_one f a f' : closed f a f' -> closed_list [f] a [f'].
Proof.
  intros H. rewrite <- (app_nil_r a). constructor; [exact H | constructor].
Qed.

Lemma holds_and eng r f g :
  holds eng r (And f g) = holds eng r f && holds eng r g.
Proof.
  unfold holds. simpl.
  destruct (eval_b eng r f) as [[]|], (eval_b eng r g) as [[]|]; reflexivity.
Qed.

Lemma holds_fold_and eng r fs f :
  holds eng r (fold_left And fs f) = holds eng r f && forallb (holds eng r) fs.
Proof.
  revert f. induction fs as [|g fs IH]; intros f; simpl.
  - now rewrite andb_true_r.
  - now rewrite IH, holds_and, andb_assoc.
Qed.

Lemma where_holds_where_of eng r fs :
  where_holds eng (where_of fs) r = forallb (holds eng r) fs.
Proof.
  destruct fs as [|f fs]; [reflexivity|].
  exact (holds_fold_and eng r fs f).
Qed.

Lemma passes_closed eng block fs' r :
  closed_list (added_filters block) (added_args block) fs' ->
  passes eng block r = forallb (holds eng r) fs'.
Proof.
  intros H. unfold passes.
  rewrite <- (app_nil_r (added_args block)), (bind_where_closed _ _ _ [] H).
  apply where_holds_where_of.
Qed.

(** The items of an IN list take one parameter each. *)
Lemma bind_vs_holes (l : list string) (rest : list arg) :
  bind_vs (map (fun _ => Hole) l) (map AStr l ++ rest) =
  Some (map (fun t => Lit (VText t)) l, rest).
Proof.
  induction l as [|t l IH]; simpl; [reflexivity | now rewrite IH].
Qed.

Lemma closed_in_list eng c l :
  closed (fst (make_in_list_sql_clause eng c l))
    (snd (make_in_list_sql_clause eng c l))
    (InList (Col c) (map (fun t => Lit (VText t)) l)).
Proof. intros rest. simpl. now rewrite bind_vs_holes. Qed.

End BindFacts.

(** ** The blocks of the transaction *)

Section BlockFacts.
Import Sql DataStore.

Lemma state_eta st :
  {| filters := filters st; args := args st; executed := executed st |} = st.
Proof. now destruct st. Qed.

Lemma appends_ret : appends (ret tt).
Proof.
  intros st. unfold ret, added_filters, added_args. simpl.
  now rewrite !app_nil_r, state_eta.
Qed.

Lemma appends_filters_append f : appends (filters_append f).
Proof.
  intros st. unfold added_filters, added_args. cbn. now rewrite app_nil_r.
Qed.

Lemma appends_args_extend l : appends (args_extend l).
Proof.
  intros st. unfold added_filters, added_args. cbn. now rewrite app_nil_r.
Qed.

Lemma seq_run (m1 m2 : Txn unit) st :
  appends m1 -> appends m2 ->
  bind m1 (fun _ => m2) st =
  (inr tt,
   {| filters := filters st ++ added_filters m1 ++ added_filters m2;
      args := args st ++ added_args m1 ++ added_args m2;
      executed := executed st |}).
Proof.
  intros H1 H2. unfold bind. rewrite H1, H2. cbn. now rewrite !app_assoc.
Qed.

Lemma added_filters_seq (m1 m2 : Txn unit) :
  appends m1 -> appends m2 ->
  added_filters (bind m1 (fun _ => m2)) = (added_filters m1 ++ added_filters m2)%list.
Proof.
  intros H1 H2. unfold added_filters at 1. now rewrite seq_run.
Qed.

Lemma added_args_seq (m1 m2 : Txn unit) :
  appends m1 -> appends m2 ->
  added_args (bind m1 (fun _ => m2)) = (added_args m1 ++ added_args m2)%list.
Proof.
  intros H1 H2. unfold added_args at 1. now rewrite seq_run.
Qed.

Lemma appends_seq (m1 m2 : Txn unit) :
  appends m1 -> appends m2 -> appends (bind m1 (fun _ => m2)).
Proof.
  intros H1 H2 st.
  now rewrite seq_run, added_filters_seq, added_args_seq.
Qed.

Lemma pure_ret : pure_block (ret tt).
Proof.
  split; [apply appends_ret|]. split; [|reflexivity].
  exists []. constructor.
Qed.

Lemma pure_clause f a f' :
  closed f a f' -> forallb arg_ok a = true ->
  pure_block (bind (filters_append f) (fun _ => args_extend a)).
Proof.
  intros Hc Ha. split; [|split].
  - apply appends_seq; [apply appends_filters_append | apply appends_args_extend].
  - exists [f']. now apply closed_list_one.
  - exact Ha.
Qed.

Lemma pure_clause0 f : closed f [] f -> pure_block (filters_append f).
Proof.
  intros Hc. split; [apply appends_filters_append|]. split; [|reflexivity].
  exists [f]. now apply closed_list_one.
Qed.

Lemma pure_seq (m1 m2 : Txn unit) :
  pure_block m1 -> pure_block m2 -> pure_block (bind m1 (fun _ => m2)).
Proof.
  intros (A1 & (f1 & C1) & S1) (A2 & (f2 & C2) & S2). split; [|split].
  - now apply appends_seq.
  - exists (f1 ++ f2)%list. rewrite added_filters_seq, added_args_seq by assumption.
    now apply closed_list_app.
  - rewrite added_args_seq by assumption. rewrite forallb_app.
    now rewrite S1, S2.
Qed.

Lemma pure_if (b : bool) (m1 m2 : Txn unit) :
  pure_block m1 -> pure_block m2 -> pure_block (if b then m1 else m2).
Proof. now destruct b. Qed.

Lemma name_filter_pure self user_id name :
  pure_block (name_filter self user_id name).
Proof.
  unfold name_filter.
  apply pure_if; [|apply pure_if; [|apply pure_ret]].
  - eapply pure_clause; [|reflexivity]. intros rest. reflexivity.
  - eapply pure_clause; [|reflexivity]. intros rest. reflexivity.
Qed.

Lemma flag_filters_pure guests deactivated approved :
  pure_block (flag_filters guests deactivated approved).
Proof.
  unfold flag_filters.
  repeat first
    [ apply pure_seq | apply pure_if | apply pure_ret
    | apply pure_clause0; intros rest; reflexivity ].
Qed.

Lemma forallb_arg_ok_strings (l : list string) :
  forallb arg_ok (map AStr l) = true.
Proof. induction l as [|t l IH]; [reflexivity | exact IH]. Qed.

Lemma in_list_args_pure eng l f f' :
  closed f (snd (make_in_list_sql_clause eng Col_user_type l)) f' ->
  pure_block
    (bind (filters_append f)
       (fun _ => args_extend (snd (make_in_list_sql_clause eng Col_user_type l)))).
Proof.
  intros H. eapply pure_clause; [exact H|]. apply forallb_arg_ok_strings.
Qed.

Lemma closed_not f a f' : closed f a f' -> closed (Not f) a (Not f').
Proof. intros H rest. simpl. now rewrite H. Qed.

Lemma closed_or_is_null f a f' c :
  closed f a f' -> closed (Or f (IsNull (Col c))) a (Or f' (IsNull (Col c))).
Proof. intros H rest. simpl. now rewrite H. Qed.

Lemma user_type_filter_pure self not_user_types :
  pure_block (user_type_filter self not_user_types).
Proof.
  unfold user_type_filter. cbv zeta.
  apply pure_if; [|apply pure_ret].
  apply pure_if; [apply pure_clause0; intros rest; reflexivity|].
  destruct (fst (split_empty (Py.list_of not_user_types))).
  - eapply in_list_args_pure. apply closed_not, closed_in_list.
  - eapply in_list_args_pure. apply closed_or_is_null, closed_not, closed_in_list.
Qed.

End BlockFacts.

(** ** The order of the rows *)

Section OrderFacts.
Import Sql.

Lemma ascii_compare_refl (a : ascii) : Ascii.compare a a = Eq.
Proof. unfold Ascii.compare. apply N.compare_refl. Qed.

Lemma ascii_compare_lt_trans (a b c : ascii) :
  Ascii.compare a b = Lt -> Ascii.compare b c = Lt -> Ascii.compare a c = Lt.
Proof.
  unfold Ascii.compare. rewrite !N.compare_lt_iff. apply N.lt_trans.
Qed.

Lemma string_compare_refl (s : string) : String.compare s s = Eq.
Proof.
  induction s as [|c s IH]; simpl; [reflexivity|].
  now rewrite ascii_compare_refl.
Qed.

Lemma string_compare_lt_trans (a b c : string) :
  String.compare a b = Lt -> String.compare b c = Lt -> String.compare a c = Lt.
Proof.
  revert b c. induction a as [|x a IH]; intros [|y b] [|z c]; simpl;
    try congruence.
  destruct (Ascii.compare x y) eqn:Exy; try discriminate;
    destruct (Ascii.compare y z) eqn:Eyz; try discriminate; intros H1 H2.
  - apply Ascii.compare_eq_iff in Exy, Eyz. subst.
    rewrite ascii_compare_refl. now apply (IH b).
  - apply Ascii.compare_eq_iff in Exy. subst. now rewrite Eyz.
  - apply Ascii.compare_eq_iff in Eyz. subst. now rewrite Exy.
  - now rewrite (ascii_compare_lt_trans _ _ _ Exy Eyz).
Qed.

Lemma bool_compare_eq (x y : bool) : bool_compare x y = Eq -> x = y.
Proof. now destruct x, y. Qed.

Lemma sql_compare_refl eng v : sql_compare eng v v = Eq.
Proof.
  destruct v as [|z|z|[]|s]; simpl; auto using Z.compare_refl, string_compare_refl.
Qed.

Ltac equal_keys H :=
  first [ apply Z.compare_eq in H | apply bool_compare_eq in H
        | apply String.compare_eq_iff in H ];
  subst; reflexivity.

(** Values that compare equal compare alike with every other value. *)
Lemma sql_compare_eq_l eng a b c :
  sql_compare eng a b = Eq -> sql_compare eng a c = sql_compare eng b c.
Proof.
  destruct eng, a, b, c; simpl; try congruence; intros H; equal_keys H.
Qed.

Lemma sql_compare_eq_r eng a b c :
  sql_compare eng a b = Eq -> sql_compare eng c a = sql_compare eng c b.
Proof.
  destruct eng, a, b, c; simpl; try congruence; intros H; equal_keys H.
Qed.

Lemma sql_compare_text_eq eng x y :
  sql_compare eng (VText x) (VText y) = Eq -> x = y.
Proof. simpl. apply String.compare_eq_iff. Qed.

Lemma sql_compare_antisym eng a b :
  sql_compare eng b a = CompOpp (sql_compare eng a b).
Proof.
  destruct eng, a as [|x|x|[]|x], b as [|y|y|[]|y]; simpl; try reflexivity.
  all: try apply Z.compare_antisym.
  all: apply String.compare_antisym.
Qed.

Lemma sql_compare_lt_trans eng a b c :
  sql_compare eng a b = Lt -> sql_compare eng b c = Lt -> sql_compare eng a c = Lt.
Proof.
  destruct eng, a as [|x|x|[]|x], b as [|y|y|[]|y], c as [|z|z|[]|z]; simpl;
    try congruence.
  all: try (rewrite !Z.compare_lt_iff; apply Z.lt_trans).
  all: apply string_compare_lt_trans.
Qed.

Lemma sql_compare_le_trans eng a b c :
  sql_compare eng a b <> Gt -> sql_compare eng b c <> Gt ->
  sql_compare eng a c <> Gt.
Proof.
  intros H1 H2.
  destruct (sql_compare eng a b) eqn:E1; [| |congruence].
  - now rewrite (sql_compare_eq_l _ _ _ c E1).
  - destruct (sql_compare eng b c) eqn:E2; [| |congruence].
    + rewrite <- (sql_compare_eq_r _ _ _ a E2). congruence.
    + rewrite (sql_compare_lt_trans _ _ _ _ E1 E2). discriminate.
Qed.

Lemma row_compare_antisym eng it o r1 r2 :
  row_compare eng it o r2 r1 = CompOpp (row_compare eng it o r1 r2).
Proof.
  unfold row_compare.
  rewrite (sql_compare_antisym eng (eval_item eng r1 it)).
  rewrite (sql_compare_antisym eng (column_value eng r1 Col_name)).
  destruct o; simpl; destruct (sql_compare eng (eval_item eng r1 it) _);
    reflexivity.
Qed.

Lemma row_leb_total eng it o r1 r2 :
  row_leb eng it o r1 r2 = true \/ row_leb eng it o r2 r1 = true.
Proof.
  unfold row_leb. rewrite (row_compare_antisym eng it o r1 r2).
  destruct (row_compare eng it o r1 r2); simpl; auto.
Qed.

Lemma directed_eq o c : directed o c = Eq -> c = Eq.
Proof. now destruct o, c. Qed.

Lemma directed_cases o eng a b :
  (directed o (sql_compare eng a b) = Eq ->
   forall c,
     directed o (sql_compare eng a c) = directed o (sql_compare eng b c)
     /\ directed o (sql_compare eng c a) = directed o (sql_compare eng c b))
  /\ (forall c, directed o (sql_compare eng a b) = Lt ->
                directed o (sql_compare eng b c) = Lt ->
                directed o (sql_compare eng a c) = Lt).
Proof.
  split.
  - intros H c. apply directed_eq in H.
    now rewrite (sql_compare_eq_l _ _ _ c H), (sql_compare_eq_r _ _ _ c H).
  - intros c. destruct o; simpl.
    + apply sql_compare_lt_trans.
    + rewrite <- !sql_compare_antisym. intros H1 H2.
      exact (sql_compare_lt_trans _ _ _ _ H2 H1).
Qed.

Lemma row_leb_trans eng it o r1 r2 r3 :
  row_leb eng it o r1 r2 = true -> row_leb eng it o r2 r3 = true ->
  row_leb eng it o r1 r3 = true.
Proof.
  unfold row_leb, row_compare.
  set (k1 := eval_item eng r1 it). set (k2 := eval_item eng r2 it).
  set (k3 := eval_item eng r3 it).
  set (n1 := column_value eng r1 Col_name).
  set (n2 := column_value eng r2 Col_name).
  set (n3 := column_value eng r3 Col_name).
  destruct (directed_cases o eng k1 k2) as (E12 & L12).
  destruct (directed_cases o eng k2 k3) as (E23 & _).
  specialize (L12 k3).
  destruct (directed o (sql_compare eng k1 k2)) eqn:D12; try discriminate.
  - destruct (E12 eq_refl k3) as (-> & _).
    destruct (directed o (sql_compare eng k2 k3)) eqn:D23; try discriminate;
      [|reflexivity].
    intros H1 H2.
    pose proof (sql_compare_le_trans eng n1 n2 n3) as T.
    destruct (sql_compare eng n1 n3); try reflexivity.
    exfalso. apply T; [| |reflexivity].
    + intros G. now rewrite G in H1.
    + intros G. now rewrite G in H2.
  - intros _.
    destruct (directed o (sql_compare eng k2 k3)) eqn:D23; try discriminate.
    + destruct (E23 eq_refl k1) as (_ & <-). now rewrite D12.
    + now rewrite (L12 eq_refl eq_refl).
Qed.

Lemma sql_compare_name eng r1 r2 :
  sql_compare eng (column_value eng r1 Col_name) (column_value eng r2 Col_name)
  = String.compare (u_name (row_u r1)) (u_name (row_u r2)).
Proof. reflexivity. Qed.

End OrderFacts.

(** ** Sorting, and the window LIMIT and OFFSET take *)

Section SortFacts.
Import Sql.
Context {A : Type} (leb : A -> A -> bool).
Hypothesis leb_total : forall a b, leb a b = true \/ leb b a = true.
Hypothesis leb_trans :
  forall a b c, leb a b = true -> leb b c = true -> leb a c = true.

Lemma insert_by_perm (x : A) (l : list A) :
  Permutation (insert_by leb x l) (x :: l).
Proof.
  induction l as [|y l IH]; simpl; [apply Permutation_refl|].
  destruct (leb x y); [apply Permutation_refl|].
  eapply perm_trans; [apply perm_skip, IH | apply perm_swap].
Qed.

Lemma sort_by_perm (l : list A) : Permutation (sort_by leb l) l.
Proof.
  induction l as [|x l IH]; simpl; [constructor|].
  eapply perm_trans; [apply insert_by_perm | now apply perm_skip].
Qed.

Lemma insert_by_sorted (x : A) (l : list A) :
  StronglySorted (fun a b => leb a b = true) l -> StronglySorted (fun a b => leb a b = true) (insert_by leb x l).
Proof.
  induction 1 as [|y l Hl IH Hy]; simpl.
  - repeat constructor.
  - destruct (leb x y) eqn:E.
    + constructor; [now constructor|]. constructor; [exact E|].
      eapply Forall_impl; [|exact Hy]. intros z Hz. exact (leb_trans _ _ _ E Hz).
    + constructor; [exact IH|].
      apply (Permutation_Forall (Permutation_sym (insert_by_perm x l))).
      constructor; [|exact Hy].
      destruct (leb_total x y) as [H|H]; [congruence | exact H].
Qed.

Lemma sort_by_sorted (l : list A) : StronglySorted (fun a b => leb a b = true) (sort_by leb l).
Proof.
  induction l as [|x l IH]; simpl; [constructor | now apply insert_by_sorted].
Qed.

End SortFacts.

Section WindowFacts.
Import Sql.
Context {A : Type} (R : A -> A -> Prop).

Lemma firstn_In (n : nat) (l : list A) (x : A) :
  In x (firstn n l) -> In x l.
Proof.
  intros H. rewrite <- (firstn_skipn n l). apply in_or_app. now left.
Qed.

Lemma skipn_In (n : nat) (l : list A) (x : A) :
  In x (skipn n l) -> In x l.
Proof.
  intros H. rewrite <- (firstn_skipn n l). apply in_or_app. now right.
Qed.

Lemma sorted_skipn (n : nat) (l : list A) :
  StronglySorted R l -> StronglySorted R (skipn n l).
Proof.
  revert l. induction n as [|n IH]; intros l H; [exact H|].
  destruct l as [|x l]; [constructor|]. simpl. apply IH.
  now inversion H.
Qed.

Lemma sorted_firstn (n : nat) (l : list A) :
  StronglySorted R l -> StronglySorted R (firstn n l).
Proof.
  revert l. induction n as [|n IH]; intros l H; [constructor|].
  destruct l as [|x l]; [constructor|]. simpl.
  inversion H as [|? ? Hl Hx]; subst. constructor; [now apply IH|].
  apply Forall_forall. intros y Hy. rewrite Forall_forall in Hx.
  apply Hx. revert Hy. apply firstn_In.
Qed.

Lemma sorted_nth (l : list A) (i j : nat) (a b : A) :
  StronglySorted R l -> (i < j)%nat ->
  nth_error l i = Some a -> nth_error l j = Some b -> R a b.
Proof.
  intros H. revert i j. induction H as [|x l Hl IH Hx]; intros i j Hij Hi Hj.
  - destruct i; discriminate.
  - destruct j as [|j]; [lia|]. simpl in Hj. destruct i as [|i]; simpl in Hi.
    + injection Hi as ->. rewrite Forall_forall in Hx. apply Hx.
      eapply nth_error_In, Hj.
    + apply (IH i j); [lia | assumption | assumption].
Qed.

Lemma limit_offset_sorted eng (limit offset : Z) (l rs : list A) :
  limit_offset eng limit offset l = inr rs ->
  StronglySorted R l -> StronglySorted R rs.
Proof.
  unfold limit_offset. destruct eng.
  - intros E H. injection E as <-.
    destruct (limit <? 0), (offset <? 0); auto using sorted_firstn, sorted_skipn.
  - destruct (limit <? 0); [discriminate|].
    destruct (offset <? 0); [discriminate|]. intros E H. injection E as <-.
    auto using sorted_firstn, sorted_skipn.
Qed.

Lemma limit_offset_incl eng (limit offset : Z) (l rs : list A) :
  limit_offset eng limit offset l = inr rs -> incl rs l.
Proof.
  assert (W : forall n m, incl (firstn n (skipn m l)) l).
  { intros n m x Hx. apply firstn_In in Hx.
    revert Hx. apply skipn_In. }
  unfold limit_offset. destruct eng.
  - intros E. injection E as <-.
    destruct (limit <? 0), (offset <? 0); intros x Hx; auto.
    + revert Hx. apply skipn_In.
    + revert Hx. apply firstn_In.
    + revert Hx. apply W.
  - destruct (limit <? 0); [discriminate|].
    destruct (offset <? 0); [discriminate|]. intros E. injection E as <-. apply W.
Qed.

Lemma limit_offset_length eng (limit offset : Z) (l rs : list A) :
  0 <= limit ->
  limit_offset eng limit offset l = inr rs ->
  Z.of_nat (List.length rs) <= limit.
Proof.
  intros Hl. unfold limit_offset.
  assert (L : (limit <? 0) = false) by lia. rewrite L.
  assert (W : forall l' : list A,
             Z.of_nat (List.length (firstn (Z.to_nat limit) l')) <= limit).
  { intros l'. rewrite length_firstn. lia. }
  destruct eng.
  - intros E. injection E as <-. apply W.
  - destruct (offset <? 0); [discriminate|]. intros E. injection E as <-. apply W.
Qed.

(** The window taken by a call that returns is the one the lists' own
    [firstn] and [skipn] take, where a negative bound counts as none. *)
Lemma limit_offset_window eng (limit offset : Z) (l rs : list A) :
  limit_offset eng limit offset l = inr rs ->
  rs = (if limit <? 0 then skipn (Z.to_nat offset) l
        else firstn (Z.to_nat limit) (skipn (Z.to_nat offset) l)).
Proof.
  unfold limit_offset. destruct eng.
  - intros E. injection E as <-.
    destruct (offset <? 0) eqn:O; [|reflexivity].
    replace (Z.to_nat offset) with 0%nat by lia. reflexivity.
  - destruct (limit <? 0); [discriminate|].
    destruct (offset <? 0); [discriminate|]. intros E. now injection E as <-.
Qed.

Lemma limit_offset_all eng (limit : Z) (l : list A) :
  Z.of_nat (List.length l) <= limit ->
  limit_offset eng limit 0 l = inr l.
Proof.
  intros H. unfold limit_offset.
  assert (L : (limit <? 0) = false) by lia. rewrite L.
  assert (F : firstn (Z.to_nat limit) l = l) by (apply firstn_all2; lia).
  destruct eng; simpl; now rewrite F.
Qed.

Lemma limit_offset_returns eng (limit offset : Z) (l : list A) :
  0 <= limit -> 0 <= offset ->
  limit_offset eng limit offset l
  = inr (firstn (Z.to_nat limit) (skipn (Z.to_nat offset) l)).
Proof.
  intros L O. unfold limit_offset.
  assert (E1 : (limit <? 0) = false) by lia.
  assert (E2 : (offset <? 0) = false) by lia.
  rewrite E1, E2. now destruct eng.
Qed.

End WindowFacts.

(** ** What the listing returns *)

Section Listing.
Import Sql DataStore.

(** A page that is returned is the window of the sorted rows. *)
Lemma ordered_page_window eng it o limit offset rows rs :
  ordered_page eng it o limit offset rows = inr rs ->
  limit_offset eng limit offset (sort_by (row_leb eng it o) rows) = inr rs
  /\ select_raises eng limit rows = false.
Proof.
  unfold ordered_page. destruct (limit_offset _ _ _ _) as [e|rs']; [discriminate|].
  destruct (select_raises eng limit rows); [discriminate|].
  intros E. now injection E as <-.
Qed.

Lemma ordered_page_returns eng it o limit offset rows :
  0 <= limit -> 0 <= offset -> select_raises eng limit rows = false ->
  ordered_page eng it o limit offset rows
  = inr (firstn (Z.to_nat limit)
           (skipn (Z.to_nat offset) (sort_by (row_leb eng it o) rows))).
Proof.
  intros L O N. unfold ordered_page.
  now rewrite limit_offset_returns, N by assumption.
Qed.

Lemma select_raises_sqlite limit rows :
  select_raises Sqlite3Engine limit rows = false.
Proof. reflexivity. Qed.

(** Only the product in the select list can overflow. *)
Lemma times_overflows_row eng r :
  existsb (times_overflows eng r) (map snd select_list)
  = negb (in_milliseconds (row_u r)).
Proof. cbn -[int64 Z.mul]. now rewrite orb_false_r. Qed.

Lemma select_fits eng limit rows :
  (eng = PostgresEngine ->
   forall r, In r rows -> in_milliseconds (row_u r) = true) ->
  select_raises eng limit rows = false.
Proof.
  intros H. destruct eng; [reflexivity|]. unfold select_raises.
  destruct (0 <? limit); [|reflexivity]. cbn [andb].
  destruct (existsb _ rows) eqn:X; [|reflexivity].
  apply existsb_exists in X. destruct X as (r & Hr & O).
  rewrite times_overflows_row, (H eq_refl r Hr) in O. discriminate O.
Qed.

(** What [select_raises] depends on: the engine, whether the limit is
    positive, and the rows. *)
Lemma select_raises_limit eng limit limit' rows :
  (0 <? limit) = (0 <? limit') ->
  select_raises eng limit rows = select_raises eng limit' rows.
Proof. intros H. unfold select_raises. now rewrite H. Qed.

Lemma bind_appends {B} (m : Txn unit) (k : unit -> Txn B) st :
  appends m ->
  bind m k st =
  k tt {| filters := (filters st ++ added_filters m)%list;
          args := (args st ++ added_args m)%list;
          executed := executed st |}.
Proof. intros H. unfold bind. now rewrite H. Qed.

Lemma boolify_row eng r :
  boolify (combine (map fst select_list) (map py_of_sqlval (project eng r))) =
  inr (user_dict eng r).
Proof.
  unfold user_dict.
  destruct (boolify _) eqn:E; [|reflexivity].
  exfalso. cbn -[eval_item] in E. discriminate.
Qed.

Lemma for_each_boolify eng rs :
  for_each boolify
    (cursor_to_dict {| description := map fst select_list;
                       fetchall := map (project eng) rs |}) =
  inr (map (user_dict eng) rs).
Proof.
  unfold cursor_to_dict. cbn [description fetchall].
  induction rs as [|r rs IH]; [reflexivity|].
  cbn [map for_each]. rewrite boolify_row.
  cbn [map] in IH. rewrite IH. reflexivity.
Qed.

Lemma get_users_paginate_eq self start limit user_id name guests deactivated
  order_by direction approved not_user_types :
  get_users_paginate self start limit user_id name guests deactivated order_by
    direction approved not_user_types =
  match UserSortOrder self order_by with
  | inl e => inl e
  | inr col =>
      if int64 limit && int64 start then
        match page_rows self start limit user_id name guests deactivated col
                direction approved not_user_types with
        | inl e => inl e
        | inr rs =>
            inr (map (user_dict (database_engine self)) rs,
                 Z.of_nat (List.length
                   (filter (row_passes self user_id name guests deactivated
                              approved not_user_types)
                      (from_clause (db_pool self)))))
        end
      else inl (Py.DatabaseError "integer out of range")
  end.
Proof.
  unfold get_users_paginate, get_users_paginate_txn.
  unfold bind at 1 2 3. cbn [set_filters set_args lift fresh filters args executed].
  destruct (UserSortOrder self order_by) as [e|col]; [reflexivity|].
  destruct (name_filter_pure self user_id name) as (N1 & (f1 & N2) & N3).
  destruct (flag_filters_pure guests deactivated approved) as (G1 & (f2 & G2) & G3).
  destruct (user_type_filter_pure self not_user_types) as (T1 & (f3 & T2) & T3).
  rewrite !bind_appends by assumption.
  cbn [filters args executed app].
  set (F := ((added_filters (name_filter self user_id name) ++
            added_filters (flag_filters guests deactivated approved)) ++
           added_filters (user_type_filter self not_user_types))%list).
  set (A := ((added_args (name_filter self user_id name) ++
            added_args (flag_filters guests deactivated approved)) ++
           added_args (user_type_filter self not_user_types))%list).
  assert (HC : closed_list F A ((f1 ++ f2) ++ f3)%list)
    by (repeat apply closed_list_app; assumption).
  assert (HS : forallb arg_ok A = true)
    by (unfold A; rewrite !forallb_app, N3, G3, T3; reflexivity).
  assert (HW : forall r, where_holds (database_engine self) (where_of ((f1 ++ f2) ++ f3)%list) r
             = row_passes self user_id name guests deactivated approved not_user_types r).
  { intros r. rewrite where_holds_where_of, !forallb_app. unfold row_passes.
    now rewrite (passes_closed _ _ _ r N2), (passes_closed _ _ _ r G2),
      (passes_closed _ _ _ r T2). }
  unfold bind, get_filters, get_args, txn_execute, lift, args_extend, set_args, ret.
  cbn [filters args executed fst snd].
  unfold execute at 1. rewrite HS. cbn [negb].
  rewrite <- (app_nil_r A) at 1. rewrite (bind_where_closed _ _ _ [] HC).
  cbn [fetchone_0 fetchall].
  unfold bind, get_args. cbn [filters args executed fst snd].
  unfold execute. rewrite forallb_app, HS. cbn [forallb arg_ok andb].
  rewrite andb_true_r.
  destruct (int64 limit && int64 start); [|reflexivity]. cbn [negb].
  rewrite (bind_where_closed _ _ _ _ HC).
  unfold page_rows.
  destruct (resolve_order col) as [it|]; [|reflexivity].
  unfold page, matching. fold (order_of direction).
  rewrite (filter_ext _ _ HW).
  destruct (ordered_page _ _ _ _ _ _) as [e|rs]; [reflexivity|].
  rewrite for_each_boolify. reflexivity.
Qed.


Lemma in_enum self order_by :
  In order_by (UserSortOrder_values self) ->
  UserSortOrder self order_by = inr order_by.
Proof.
  intros M. unfold UserSortOrder.
  assert (E : existsb (String.eqb order_by) (UserSortOrder_values self) = true).
  { apply existsb_exists. exists order_by. split; [exact M|].
    apply String.eqb_refl. }
  now rewrite E.
Qed.

(** The rows of a store whose products fit do not make the select list
    raise. *)
Lemma products_fit_rows self limit (f : joined -> bool) :
  products_fit self ->
  select_raises (database_engine self) limit (filter f (from_clause (db_pool self)))
  = false.
Proof.
  intros F. apply select_fits. intros E r Hr.
  apply filter_In in Hr. destruct Hr as (Hr & _).
  apply F; [exact E|].
  unfold from_clause in Hr. apply in_map_iff in Hr.
  destruct Hr as ([[x q] e] & <- & H). cbn [row_u fst].
  unfold left_join in H. apply in_flat_map in H. destruct H as ([x' q'] & H1 & H2).
  assert (X : x' = x).
  { destruct (filter _ (erased_users (db_pool self))); cbn in H2.
    - destruct H2 as [H2|[]]. congruence.
    - destruct H2 as [H2|H2]; [congruence|].
      apply in_map_iff in H2. destruct H2 as (? & H2 & _). congruence. }
  subst x'. apply in_flat_map in H1. destruct H1 as (y & Hy & H1).
  destruct (filter _ (profiles (db_pool self))); cbn in H1.
  - destruct H1 as [H1|[]]. congruence.
  - destruct H1 as [H1|H1]; [congruence|].
    apply in_map_iff in H1. destruct H1 as (? & H1 & _). congruence.
Qed.

(** The page of a call with a sort column that the statement resolves and a
    window within bounds, on a store whose products fit. *)
Lemma get_users_paginate_window self start limit user_id name guests
  deactivated order_by direction approved not_user_types it :
  In order_by (UserSortOrder_values self) ->
  resolve_order order_by = Some it ->
  0 <= limit < 2 ^ 63 -> 0 <= start < 2 ^ 63 ->
  products_fit self ->
  get_users_paginate self start limit user_id name guests deactivated order_by
    direction approved not_user_types
  = inr (map (user_dict (database_engine self))
           (firstn (Z.to_nat limit)
              (skipn (Z.to_nat start)
                 (sort_by (row_leb (database_engine self) it (order_of direction))
                    (filter (row_passes self user_id name guests deactivated
                               approved not_user_types)
                       (from_clause (db_pool self)))))),
         Z.of_nat (List.length
           (filter (row_passes self user_id name guests deactivated approved
                      not_user_types)
              (from_clause (db_pool self))))).
Proof.
  intros M R L S F. rewrite get_users_paginate_eq, (in_enum _ _ M).
  assert (I : int64 limit && int64 start = true) by (unfold int64; lia).
  rewrite I. unfold page_rows. rewrite R.
  now rewrite ordered_page_returns by (try lia; now apply products_fit_rows).
Qed.

(** Such a call returns. *)
Lemma get_users_paginate_returns self start limit user_id name guests
  deactivated order_by direction approved not_user_types :
  In order_by (UserSortOrder_values self) ->
  resolve_order order_by <> None ->
  0 <= limit < 2 ^ 63 -> 0 <= start < 2 ^ 63 ->
  products_fit self ->
  exists rows count,
    get_users_paginate self start limit user_id name guests deactivated
      order_by direction approved not_user_types = inr (rows, count).
Proof.
  intros M R L S F.
  destruct (resolve_order order_by) as [it|] eqn:E; [|contradiction].
  rewrite (get_users_paginate_window _ _ _ _ _ _ _ _ _ _ _ it M E L S F). eauto.
Qed.

End Listing.

(** ** The rows a call returns *)

Section Returned.
Import Sql DataStore.

Lemma returned self start limit user_id name guests deactivated order_by
  direction approved not_user_types rows count :
  get_users_paginate self start limit user_id name guests deactivated order_by
    direction approved not_user_types = inr (rows, count) ->
  exists rs,
    page_rows self start limit user_id name guests deactivated order_by
      direction approved not_user_types = inr rs
    /\ rows = map (user_dict (database_engine self)) rs
    /\ count =
       Z.of_nat (List.length
         (filter (row_passes self user_id name guests deactivated approved
                    not_user_types)
            (from_clause (db_pool self))))
    /\ int64 limit && int64 start = true.
Proof.
  rewrite get_users_paginate_eq. unfold UserSortOrder.
  destruct (existsb _ _); [|discriminate].
  destruct (int64 limit && int64 start); [|discriminate].
  destruct (page_rows _ _ _ _ _ _ _ _ _ _ _) as [e|rs]; [discriminate|].
  intros E. injection E as <- <-. now exists rs.
Qed.

Lemma page_rows_in self start limit user_id name guests deactivated order_by
  direction approved not_user_types rs r :
  page_rows self start limit user_id name guests deactivated order_by
    direction approved not_user_types = inr rs ->
  In r rs ->
  In r (from_clause (db_pool self))
  /\ row_passes self user_id name guests deactivated approved not_user_types r
     = true.
Proof.
  unfold page_rows. destruct (resolve_order order_by) as [it|]; [|discriminate].
  intros E Hr. apply ordered_page_window in E. destruct E as (E & _).
  apply (limit_offset_incl _ _ _ _ _ E) in Hr.
  apply (Permutation_in _ (sort_by_perm _ _)) in Hr.
  now apply filter_In in Hr.
Qed.

(** On Postgres the rows of a page that is returned have products that
    fit. *)
Lemma page_rows_fit self start limit user_id name guests deactivated order_by
  direction approved not_user_types rs r :
  page_rows self start limit user_id name guests deactivated order_by
    direction approved not_user_types = inr rs ->
  In r rs ->
  database_engine self = PostgresEngine ->
  in_milliseconds (row_u r) = true.
Proof.
  unfold page_rows. destruct (resolve_order order_by) as [it|]; [|discriminate].
  intros E Hr PG. apply ordered_page_window in E. destruct E as (E & N).
  rewrite PG in E, N.
  assert (I : In r (filter (row_passes self user_id name guests deactivated
                              approved not_user_types)
                      (from_clause (db_pool self)))).
  { apply (Permutation_in _ (sort_by_perm (row_leb PostgresEngine it
                                               (order_of direction)) _)).
    exact (limit_offset_incl _ _ _ _ _ E r Hr). }
  unfold limit_offset in E.
  destruct (limit <? 0) eqn:L; [discriminate|].
  destruct (start <? 0); [discriminate|].
  injection E as <-.
  assert (P : (0 <? limit) = true).
  { destruct (0 <? limit) eqn:Z0; [reflexivity|].
    replace limit with 0 in Hr by lia. destruct Hr. }
  unfold select_raises in N. rewrite P in N. cbn [andb] in N.
  destruct (in_milliseconds (row_u r)) eqn:F; [reflexivity|].
  assert (X : existsb
                (fun r0 => existsb (times_overflows PostgresEngine r0)
                             (map snd select_list))
                (filter (row_passes self user_id name guests deactivated
                           approved not_user_types)
                   (from_clause (db_pool self))) = true).
  { apply existsb_exists. exists r. split; [exact I|].
    now rewrite times_overflows_row, F. }
  congruence.
Qed.

Lemma in_left_join {A B : Type} (on : A -> B -> bool) (l : list A) (r : list B)
  (a : A) (b : option B) :
  In (a, b) (left_join on l r) ->
  In a l
  /\ match b with
     | Some y => In y r /\ on a y = true
     | None => forall y, In y r -> on a y = false
     end.
Proof.
  unfold left_join. rewrite in_flat_map. intros (x & Hx & H).
  destruct (filter (on x) r) as [|m ms] eqn:F.
  - destruct H as [H|[]]. injection H as <- <-. split; [exact Hx|].
    intros y Hy. destruct (on x y) eqn:O; [|reflexivity].
    assert (I : In y (filter (on x) r)) by (apply filter_In; auto).
    rewrite F in I. destruct I.
  - rewrite <- F in H. apply in_map_iff in H. destruct H as (y & E & Hy).
    injection E as <- <-. apply filter_In in Hy. now split.
Qed.

Lemma from_clause_in db r :
  In r (from_clause db) ->
  In (row_u r) (users db)
  /\ match row_eu r with
     | Some e => In e (erased_users db) /\ eu_user_id e = u_name (row_u r)
     | None => forall e, In e (erased_users db) -> eu_user_id e <> u_name (row_u r)
     end.
Proof.
  unfold from_clause. rewrite in_map_iff. intros ([[x q] e] & <- & H).
  apply in_left_join in H. destruct H as (H1 & H2). cbn [fst snd] in *.
  apply in_left_join in H1. destruct H1 as (H1 & _).
  cbn [row_u row_eu]. split; [exact H1|].
  destruct e as [e|].
  - destruct H2 as (H2 & H3). apply String.eqb_eq in H3. now split.
  - intros e He. specialize (H2 e He). apply String.eqb_neq in H2. congruence.
Qed.

Lemma user_dict_name eng r :
  Py.dict_get (user_dict eng r) "name" = Some (Py.PyStr (u_name (row_u r))).
Proof. destruct eng; reflexivity. Qed.

Lemma user_dict_creation_ts eng r :
  Py.dict_get (user_dict eng r) "creation_ts" =
  Some (py_of_sqlval (times (u_creation_ts (row_u r)) 1000)).
Proof. destruct eng; reflexivity. Qed.

Lemma times_cases (x y : Z) :
  (int64 (x * y) = true /\ times x y = VInt (x * y))
  \/ (int64 (x * y) = false /\ times x y = VReal (real_times x y)).
Proof. unfold times. destruct (int64 (x * y)); auto. Qed.

Lemma user_dict_erased eng r :
  Py.dict_get (user_dict eng r) "erased" = Some (Py.PyBool (Py.is_some (row_eu r))).
Proof. destruct eng, r as [x q [e|]]; reflexivity. Qed.

Lemma user_dict_flags eng r :
  Py.dict_get (user_dict eng r) "is_guest" = Some (Py.PyInt (u_is_guest (row_u r)))
  /\ Py.dict_get (user_dict eng r) "admin" = Some (Py.PyInt (u_admin (row_u r)))
  /\ Py.dict_get (user_dict eng r) "deactivated"
     = Some (Py.PyInt (u_deactivated (row_u r)))
  /\ Py.dict_get (user_dict eng r) "shadow_banned"
     = Some (py_of_sqlval (bool_cell eng (u_shadow_banned (row_u r))))
  /\ Py.dict_get (user_dict eng r) "approved"
     = Some (match u_approved (row_u r) with
             | Some b => py_of_sqlval (bool_cell eng b)
             | None => Py.PyNone
             end).
Proof.
  destruct eng; repeat split; try reflexivity.
  all: cbn; now destruct (u_approved (row_u r)).
Qed.

Lemma user_dict_keys eng r :
  map fst (user_dict eng r) = map fst select_list.
Proof. destruct eng; reflexivity. Qed.

Lemma count_nonneg_int64 (n : nat) (z : Z) :
  Z.of_nat n <= z < 2 ^ 63 -> int64 z && int64 0 = true.
Proof. intros H. unfold int64. lia. Qed.

Lemma returned_order self start limit user_id name guests deactivated order_by
  direction approved not_user_types rows count :
  get_users_paginate self start limit user_id name guests deactivated order_by
    direction approved not_user_types = inr (rows, count) ->
  UserSortOrder self order_by = inr order_by.
Proof.
  rewrite get_users_paginate_eq. unfold UserSortOrder.
  now destruct (existsb _ _).
Qed.

Lemma sorted_length {A : Type} (leb : A -> A -> bool) (l : list A) :
  List.length (sort_by leb l) = List.length l.
Proof. apply Permutation_length, sort_by_perm. Qed.

Lemma returned_row self start limit user_id name guests deactivated order_by
  direction approved not_user_types rows count d :
  get_users_paginate self start limit user_id name guests deactivated order_by
    direction approved not_user_types = inr (rows, count) ->
  In d rows ->
  exists r,
    d = user_dict (database_engine self) r
    /\ In r (from_clause (db_pool self))
    /\ row_passes self user_id name guests deactivated approved not_user_types r
       = true.
Proof.
  intros H Hd. apply returned in H. destruct H as (rs & P & -> & _ & _).
  apply in_map_iff in Hd. destruct Hd as (r & <- & Hr).
  exists r. split; [reflexivity|]. exact (page_rows_in _ _ _ _ _ _ _ _ _ _ _ _ _ P Hr).
Qed.

Lemma returned_row_fits self start limit user_id name guests deactivated
  order_by direction approved not_user_types rows count d :
  get_users_paginate self start limit user_id name guests deactivated order_by
    direction approved not_user_types = inr (rows, count) ->
  In d rows ->
  exists r,
    d = user_dict (database_engine self) r
    /\ In r (from_clause (db_pool self))
    /\ (database_engine self = PostgresEngine ->
        in_milliseconds (row_u r) = true).
Proof.
  intros H Hd. apply returned in H. destruct H as (rs & P & -> & _ & _).
  apply in_map_iff in Hd. destruct Hd as (r & <- & Hr).
  exists r. split; [reflexivity|].
  split; [exact (proj1 (page_rows_in _ _ _ _ _ _ _ _ _ _ _ _ _ P Hr))|].
  exact (page_rows_fit _ _ _ _ _ _ _ _ _ _ _ _ _ P Hr).
Qed.

End Returned.


(** ** Filters on the [users] row as restrictions of the table *)

Section Restrict.
Import Sql DataStore.

Lemma filter_filter {A : Type} (f g : A -> bool) (l : list A) :
  filter f (filter g l) = filter (fun x => f x && g x) l.
Proof.
  induction l as [|x l IH]; simpl; [reflexivity|].
  destruct (g x); simpl; [destruct (f x)|]; rewrite ?andb_false_r, ?IH;
    reflexivity.
Qed.

Lemma left_join_filter {A B : Type} (on : A -> B -> bool) (q : A -> bool)
  (l : list A) (r : list B) :
  left_join on (filter q l) r = filter (fun x => q (fst x)) (left_join on l r).
Proof.
  unfold left_join. induction l as [|a l IH]; [reflexivity|].
  assert (K : forall ms : list (A * option B),
             Forall (fun x => fst x = a) ms ->
             filter (fun x => q (fst x)) ms = if q a then ms else []).
  { induction 1 as [|x ms Hx _ IHms]; simpl; [now destruct (q a)|].
    rewrite Hx, IHms. now destruct (q a). }
  cbn [filter flat_map]. rewrite filter_app, <- IH, K.
  - now destruct (q a).
  - destruct (filter (on a) r) as [|m ms]; [now repeat constructor|].
    apply Forall_forall. intros x Hx. apply in_map_iff in Hx.
    now destruct Hx as (b & <- & _).
Qed.

Lemma from_clause_restrict q self :
  from_clause (db_pool (restrict_users q self))
  = filter (fun r => q (row_u r)) (from_clause (db_pool self)).
Proof.
  unfold from_clause. cbn [restrict_users db_pool users profiles erased_users].
  rewrite left_join_filter.
  rewrite (left_join_filter _ (fun x => q (fst x))).
  rewrite filter_map_swap. reflexivity.
Qed.

(** A filter that only looks at the [users] row can be applied to the table
    instead. *)
Lemma listing_restrict self q start limit user_id name guests deactivated
  order_by direction approved not_user_types
  user_id' name' guests' deactivated' approved' not_user_types' :
  (forall r,
      row_passes self user_id name guests deactivated approved not_user_types r
      = row_passes self user_id' name' guests' deactivated' approved'
          not_user_types' r
        && q (row_u r)) ->
  get_users_paginate self start limit user_id name guests deactivated order_by
    direction approved not_user_types
  = get_users_paginate (restrict_users q self) start limit user_id' name'
      guests' deactivated' order_by direction approved' not_user_types'.
Proof.
  intros H. rewrite !get_users_paginate_eq.
  change (UserSortOrder (restrict_users q self) order_by)
    with (UserSortOrder self order_by).
  destruct (UserSortOrder self order_by) as [e|col]; [reflexivity|].
  destruct (int64 limit && int64 start); [|reflexivity].
  unfold page_rows. rewrite from_clause_restrict, filter_filter.
  change (database_engine (restrict_users q self)) with (database_engine self).
  change (row_passes (restrict_users q self)) with (row_passes self).
  rewrite (filter_ext _ _ H). reflexivity.
Qed.

(** Calls whose filters pass the same rows give the same result. *)
Lemma listing_ext self start limit user_id name guests deactivated order_by
  direction approved not_user_types
  user_id' name' guests' deactivated' approved' not_user_types' :
  (forall r,
      row_passes self user_id name guests deactivated approved not_user_types r
      = row_passes self user_id' name' guests' deactivated' approved'
          not_user_types' r) ->
  get_users_paginate self start limit user_id name guests deactivated order_by
    direction approved not_user_types
  = get_users_paginate self start limit user_id' name' guests' deactivated'
      order_by direction approved' not_user_types'.
Proof.
  intros H. rewrite !get_users_paginate_eq. unfold page_rows.
  now rewrite (filter_ext _ _ H).
Qed.

Lemma restricted_row q self start limit user_id name guests deactivated
  order_by direction approved not_user_types rows count d :
  get_users_paginate (restrict_users q self) start limit user_id name guests
    deactivated order_by direction approved not_user_types = inr (rows, count) ->
  In d rows ->
  exists r,
    d = user_dict (database_engine self) r
    /\ In r (from_clause (db_pool self))
    /\ q (row_u r) = true.
Proof.
  intros H Hd. destruct (returned_row _ _ _ _ _ _ _ _ _ _ _ _ _ _ H Hd)
    as (r & -> & Hr & _).
  exists r. split; [reflexivity|].
  rewrite from_clause_restrict in Hr. now apply filter_In in Hr.
Qed.

End Restrict.

(** ** What the clauses mean *)

Section Clauses.
Import Sql DataStore.

Lemma passes_name eng self user_id name r :
  Py.str_given name = true ->
  passes eng (name_filter self user_id name) r =
  name_clause eng (str_lower self (Py.str_of name)) r.
Proof.
  intros H. unfold passes, added_filters, added_args, name_filter, name_clause.
  rewrite H.
  cbn -[like append Py.ascii_lower]. unfold displayname_of.
  destruct (row_p r) as [q|]; cbn -[like append Py.ascii_lower].
  - destruct (p_displayname q); cbn -[like append Py.ascii_lower];
      destruct (like eng (u_name (row_u r)) _); try reflexivity.
    now destruct (like eng _ _).
  - now destruct (like eng (u_name (row_u r)) _).
Qed.

Lemma passes_flags eng guests deactivated approved r :
  passes eng (flag_filters guests deactivated approved) r =
  (guests || (u_is_guest (row_u r) =? 0))
  && (deactivated || (u_deactivated (row_u r) =? 0))
  && (approved || unapproved (row_u r)).
Proof.
  unfold unapproved.
  destruct guests, deactivated, approved, eng; cbn;
    destruct (u_is_guest (row_u r) =? 0), (u_deactivated (row_u r) =? 0);
    try reflexivity;
    destruct (u_approved (row_u r)) as [[]|]; reflexivity.
Qed.

End Clauses.

Section UserTypes.
Import Sql DataStore.

Lemma split_empty_fold (l : list string) (b : bool) (acc : list string) :
  fold_left
    (fun acc not_user_type =>
       if (not_user_type =? "")%string then (true, snd acc)
       else (fst acc, (snd acc ++ [not_user_type])%list))
    l (b, acc)
  = (b || existsb (fun t => (t =? "")%string) l, (acc ++ literal_tags l)%list).
Proof.
  revert b acc. induction l as [|t l IH]; intros b acc; simpl.
  - now rewrite orb_false_r, app_nil_r.
  - unfold literal_tags. destruct (t =? "")%string; cbn [fst snd negb];
      rewrite IH; unfold literal_tags.
    + now rewrite orb_true_r.
    + now rewrite <- app_assoc.
Qed.

Lemma split_empty_eq (l : list string) :
  split_empty l = (existsb (fun t => (t =? "")%string) l, literal_tags l).
Proof. unfold split_empty. now rewrite split_empty_fold. Qed.

Lemma sql_in_texts (ty : string) (tags : list string) :
  sql_in (VText ty) (map VText tags) = Some (existsb (String.eqb ty) tags).
Proof.
  destruct tags as [|t tags]; [reflexivity|].
  unfold sql_in.
  assert (E : forall l, existsb (sqlval_eqb (VText ty)) (map VText l)
                        = existsb (String.eqb ty) l).
  { induction l as [|x l IH]; simpl; [reflexivity | now rewrite IH]. }
  assert (N : forall l, existsb is_null (map VText l) = false).
  { induction l as [|x l IH]; simpl; [reflexivity | exact IH]. }
  rewrite (E (t :: tags)), (N (t :: tags)). cbn [map is_null].
  now destruct (existsb (String.eqb ty) (t :: tags)).
Qed.

Lemma eval_in_list eng r (tags : list string) :
  eval_b eng r (InList (Col Col_user_type) (map (fun t => Lit (VText t)) tags))
  = match u_user_type (row_u r) with
    | Some ty => Some (existsb (String.eqb ty) tags)
    | None => match tags with [] => Some false | _ => None end
    end.
Proof.
  cbn [eval_b eval_v column_value]. rewrite map_map. cbn [eval_v].
  destruct (u_user_type (row_u r)) as [ty|]; cbn [text_cell].
  - apply sql_in_texts.
  - now destruct tags.
Qed.

Lemma eval_not eng r b : eval_b eng r (Not b) = sql_not (eval_b eng r b).
Proof. reflexivity. Qed.

Lemma eval_or eng r a b :
  eval_b eng r (Or a b) = sql_or (eval_b eng r a) (eval_b eng r b).
Proof. reflexivity. Qed.

Lemma passes_only_sentinel eng self r :
  passes eng (user_type_filter self (Some [""])) r = has_user_type (row_u r).
Proof.
  unfold has_user_type. cbn. now destruct (u_user_type (row_u r)).
Qed.

Lemma passes_with_sentinel eng self l r :
  (List.length l =? 1)%nat && (nth 0 l "x" =? "")%string = false ->
  l <> [] ->
  existsb (fun t => (t =? "")%string) l = true ->
  passes eng (user_type_filter self (Some l)) r =
  match u_user_type (row_u r) with
  | Some ty => negb (existsb (String.eqb ty) (literal_tags l))
  | None => match literal_tags l with [] => true | _ => false end
  end.
Proof.
  intros B N S.
  assert (G : Py.list_given (Some l) = true) by now destruct l.
  set (f' := Not (InList (Col Col_user_type)
                    (map (fun t => Lit (VText t)) (literal_tags l)))).
  rewrite (passes_closed eng _ [f'] r).
  - cbn [forallb]. rewrite andb_true_r. unfold holds, f'.
    rewrite eval_not, eval_in_list.
    destruct (u_user_type (row_u r)) as [ty|].
    + destruct (existsb (String.eqb ty) _); reflexivity.
    + destruct (literal_tags l); reflexivity.
  - unfold user_type_filter. rewrite G. cbv zeta. cbn [Py.list_of].
    rewrite B, split_empty_eq. cbn [fst snd]. rewrite S.
    apply closed_list_one. unfold f'.
    apply closed_not, (closed_in_list (database_engine self)).
Qed.

Lemma passes_without_sentinel eng self l r :
  l <> [] ->
  existsb (fun t => (t =? "")%string) l = false ->
  passes eng (user_type_filter self (Some l)) r =
  null_or_type_not_in l (row_u r).
Proof.
  intros N S.
  assert (G : Py.list_given (Some l) = true) by now destruct l.
  assert (B : (List.length l =? 1)%nat && (nth 0 l "x" =? "")%string = false).
  { destruct l as [|t l]; [contradiction|]. simpl in S.
    apply orb_false_iff in S. destruct S as (S & _). simpl.
    rewrite S. apply andb_false_r. }
  assert (L : literal_tags l = l).
  { unfold literal_tags. clear N G B. induction l as [|t l IH]; [reflexivity|].
    simpl in S |- *. apply orb_false_iff in S. destruct S as (S1 & S2).
    rewrite S1. simpl. now rewrite IH. }
  set (f' := Or (Not (InList (Col Col_user_type)
                        (map (fun t => Lit (VText t)) (literal_tags l))))
               (IsNull (Col Col_user_type))).
  rewrite (passes_closed eng _ [f'] r).
  - cbn [forallb]. rewrite andb_true_r. unfold holds, f', null_or_type_not_in.
    rewrite eval_or, eval_not, eval_in_list, L. cbn [eval_b eval_v column_value].
    destruct (u_user_type (row_u r)) as [ty|]; cbn [text_cell is_null].
    + destruct (existsb (String.eqb ty) _); reflexivity.
    + destruct l; reflexivity.
  - unfold user_type_filter. rewrite G. cbv zeta. cbn [Py.list_of].
    rewrite B, split_empty_eq. cbn [fst snd]. rewrite S.
    apply closed_list_one. unfold f'.
    apply closed_or_is_null, closed_not, (closed_in_list (database_engine self)).
Qed.

Lemma passes_no_types eng self r :
  passes eng (user_type_filter self None) r = true.
Proof. reflexivity. Qed.

End UserTypes.

(** ** The check before an upgrade *)

Section UpgradeFacts.
Import Sql DataStore.

Lemma check_empty get_domain_from_id cur eng server_name :
  users cur = [] ->
  check_database_before_upgrade get_domain_from_id cur eng server_name = inr tt.
Proof.
  intros E. unfold check_database_before_upgrade, execute. cbn. now rewrite E.
Qed.

Lemma check_first get_domain_from_id cur eng server_name x rest :
  users cur = x :: rest ->
  check_database_before_upgrade get_domain_from_id cur eng server_name =
  match get_domain_from_id (u_name x) with
  | inl e => inl e
  | inr user_domain =>
      if (user_domain =? server_name)%string then inr tt
      else inl (Py.Exception (not_native server_name))
  end.
Proof.
  intros E. unfold check_database_before_upgrade, execute. cbn. now rewrite E.
Qed.

End UpgradeFacts.

(** ** Properties of the listing and of the check before an upgrade *)

Section Properties.
Import Sql DataStore.

(** C1, as amended: a call that returns gives at most [limit] rows when
    [limit] is not negative, and a count that is the number of joined rows
    passing the filters of the call, whatever the window; and when the same
    call for offset 0 and a limit that is not smaller than the count
    returns, it returns that count and as many rows, of which the page is
    the window [start], [limit]. *)
Theorem page_size_and_total_count self start limit user_id name guests
  deactivated order_by direction approved not_user_types rows count :
  get_users_paginate self start limit user_id name guests deactivated
    order_by direction approved not_user_types = inr (rows, count) ->
  (0 <= limit -> Z.of_nat (List.length rows) <= limit)
  /\ count =
     Z.of_nat (List.length
       (filter (row_passes self user_id name guests deactivated approved
                  not_user_types)
          (from_clause (db_pool self))))
  /\ (forall limit' all count',
        get_users_paginate self 0 limit' user_id name guests deactivated
          order_by direction approved not_user_types = inr (all, count') ->
        count <= limit' ->
        count' = count
        /\ Z.of_nat (List.length all) = count
        /\ rows = (if limit <? 0 then skipn (Z.to_nat start) all
                   else firstn (Z.to_nat limit)
                          (skipn (Z.to_nat start) all))).
Proof.
  intros H.
  apply returned in H. destruct H as (rs & P & -> & -> & I).
  split; [|split; [reflexivity|]].
  - intros L. rewrite length_map. revert P. unfold page_rows.
    destruct (resolve_order order_by); [|discriminate].
    intros P. apply ordered_page_window in P. destruct P as (P & _).
    revert P. now apply limit_offset_length.
  - intros limit' all count' H' B.
    apply returned in H'. destruct H' as (rs' & P' & -> & -> & _).
    split; [reflexivity|].
    revert P P'. unfold page_rows.
    destruct (resolve_order order_by) as [it|]; [|discriminate].
    set (l := filter _ _) in *. intros W W'.
    apply ordered_page_window in W, W'. destruct W as (W & _), W' as (W' & _).
    rewrite limit_offset_all in W' by (rewrite sorted_length; exact B).
    injection W' as <-. split.
    + now rewrite length_map, sorted_length.
    + apply limit_offset_window in W. rewrite W.
      destruct (limit <? 0); now rewrite ?skipn_map, ?firstn_map.
Qed.

(** The second of three rows, by creation time, on Postgres: one row for
    the limit 1, and the count 3. *)
Lemma page_size_and_total_count_witness :
  get_users_paginate (Sample.store PostgresEngine) 1 1 None None true true
    "creation_ts" FORWARDS true None
  = inr ([user_dict PostgresEngine Sample.alice_row], 3)
  /\ Z.of_nat (List.length [user_dict PostgresEngine Sample.alice_row]) <= 1
  /\ 3 = Z.of_nat (List.length
            (filter (row_passes (Sample.store PostgresEngine) None None true
                       true true None)
               (from_clause Sample.db))).
Proof.
  pose proof (page_size_and_total_count (Sample.store PostgresEngine) 1 1 None
                None true true "creation_ts" FORWARDS true None _ _ eq_refl)
    as (H1 & H2 & _).
  split; [reflexivity|]. split; [apply H1; lia | exact H2].
Defined.

(** C1, as stated, fails for a negative limit on SQLite. *)
Lemma negative_limit_returns_every_row :
  exists rows count,
    get_users_paginate (Sample.store Sqlite3Engine) 0 (-1) None None true true
      "name" FORWARDS true None = inr (rows, count)
    /\ ~ (Z.of_nat (List.length rows) <= -1).
Proof.
  eexists. eexists. split; [reflexivity|]. cbn. lia.
Qed.




(** C3, at the failing input: the list [""; ""] asks to exclude the users
    without a type and nothing else, as [""] does.  For [""] the call lists
    the two users that have a type.  For [""; ""] the code takes the general
    branch with no literal tag left, the clause is [NOT u.user_type IN ()],
    which holds for every row, and the call lists all three users, among
    them the one without a type. *)
Theorem repeated_sentinel_excludes_nothing :
  u_user_type Sample.bob = None
  /\ (forall eng,
        get_users_paginate (Sample.store eng) 0 10 None None true true "name"
          FORWARDS true (Some [""])
        = inr (map (user_dict eng) [Sample.alice_row; Sample.carol_row], 2))
  /\ (forall eng,
        get_users_paginate (Sample.store eng) 0 10 None None true true "name"
          FORWARDS true (Some [""; ""])
        = inr (map (user_dict eng)
                 [Sample.alice_row; Sample.bob_row; Sample.carol_row], 3))
  /\ (forall eng,
        added_filters (user_type_filter (Sample.store eng) (Some [""; ""]))
        = [Not (InList (Col Col_user_type) [])]
        /\ passes eng (user_type_filter (Sample.store eng) (Some [""; ""]))
             Sample.bob_row = true).
Proof.
  split; [reflexivity|].
  split; [intros []; reflexivity|].
  split; [intros []; reflexivity|].
  intros []; split; reflexivity.
Qed.

(** C4, as amended: with [approved=False] the call lists exactly the users
    whose approval status is an explicit false: its result is that of the
    call with [approved=True] on the [users] table cut down to those rows,
    and every row it returns carries the engine's false as [approved]. *)
Theorem approved_false_lists_the_unapproved self start limit user_id name guests
  deactivated order_by direction not_user_types :
  get_users_paginate self start limit user_id name guests deactivated order_by
    direction false not_user_types
  = get_users_paginate (restrict_users unapproved self) start limit user_id name
      guests deactivated order_by direction true not_user_types
  /\ (forall rows count d,
        get_users_paginate self start limit user_id name guests deactivated
          order_by direction false not_user_types = inr (rows, count) ->
        In d rows ->
        Py.dict_get d "approved"
        = Some (py_of_sqlval (bool_cell (database_engine self) false))).
Proof.
  assert (E : get_users_paginate self start limit user_id name guests
                deactivated order_by direction false not_user_types
              = get_users_paginate (restrict_users unapproved self) start limit
                  user_id name guests deactivated order_by direction true
                  not_user_types).
  { apply listing_restrict. intros r. unfold row_passes.
    change (user_type_filter (restrict_users unapproved self))
      with (user_type_filter self).
    rewrite !passes_flags.
    destruct (passes _ (name_filter _ _ _) r), (passes _ (user_type_filter _ _) r),
      (guests || _), (deactivated || _), (unapproved (row_u r)); reflexivity. }
  split; [exact E|].
  intros rows count d H Hd. rewrite E in H.
  destruct (restricted_row _ _ _ _ _ _ _ _ _ _ _ _ _ _ _ H Hd) as (r & -> & _ & U).
  destruct (user_dict_flags (database_engine self) r) as (_ & _ & _ & _ & A).
  rewrite A. unfold unapproved in U.
  now destruct (u_approved (row_u r)) as [[]|].
Qed.

Lemma approved_false_lists_the_unapproved_witness :
  get_users_paginate (Sample.store Sqlite3Engine) 0 10 None None true true
    "name" FORWARDS false None
  = inr ([user_dict Sqlite3Engine Sample.alice_row], 1)
  /\ Py.dict_get (user_dict Sqlite3Engine Sample.alice_row) "approved"
     = Some (Py.PyInt 0).
Proof.
  split; [reflexivity|].
  exact (proj2 (approved_false_lists_the_unapproved (Sample.store Sqlite3Engine)
                  0 10 None None true true "name" FORWARDS None)
           _ _ _ eq_refl (or_introl eq_refl)).
Defined.

(** C4, as stated, fails: the row with no approval status is dropped and
    the row with an explicit false is the one that stays. *)
Lemma null_approval_is_dropped :
  u_approved Sample.bob = None
  /\ u_approved Sample.alice = Some false
  /\ get_users_paginate (Sample.store PostgresEngine) 0 10 None None true true
       "name" FORWARDS true None
     = inr (map (user_dict PostgresEngine)
              [Sample.alice_row; Sample.bob_row; Sample.carol_row], 3)
  /\ get_users_paginate (Sample.store PostgresEngine) 0 10 None None true true
       "name" FORWARDS false None
     = inr (map (user_dict PostgresEngine) [Sample.alice_row], 1).
Proof. repeat split. Qed.

(** C5: the rows of a page come from joined rows sorted by the requested
    column and direction and then by handle, ascending: of two rows with the
    same value in the sort column the earlier has the smaller or equal
    handle, whatever the column and direction; and the order leaves only
    rows with the same handle undecided. *)
Theorem ties_in_handle_order self start limit user_id name guests deactivated
  order_by direction approved not_user_types rows count :
  get_users_paginate self start limit user_id name guests deactivated order_by
    direction approved not_user_types = inr (rows, count) ->
  exists it rs,
    resolve_order order_by = Some it
    /\ rows = map (user_dict (database_engine self)) rs
    /\ (forall i j ri rj,
          (i < j)%nat -> nth_error rs i = Some ri -> nth_error rs j = Some rj ->
          eval_item (database_engine self) ri it
          = eval_item (database_engine self) rj it ->
          String.leb (u_name (row_u ri)) (u_name (row_u rj)) = true)
    /\ (forall r1 r2,
          row_compare (database_engine self) it (order_of direction) r1 r2 = Eq ->
          u_name (row_u r1) = u_name (row_u r2)).
Proof.
  intros H. apply returned in H. destruct H as (rs & P & -> & _ & _).
  unfold page_rows in P.
  destruct (resolve_order order_by) as [it|]; [|discriminate].
  apply ordered_page_window in P. destruct P as (P & _).
  exists it, rs. split; [reflexivity|]. split; [reflexivity|]. split.
  - intros i j ri rj Hij Hi Hj K.
    set (eng := database_engine self) in *. set (o := order_of direction) in *.
    assert (S : StronglySorted (fun a b => row_leb eng it o a b = true) rs).
    { apply (limit_offset_sorted _ _ _ _ _ _ P).
      apply sort_by_sorted;
        [apply row_leb_total | apply row_leb_trans]. }
    pose proof (sorted_nth _ _ _ _ _ _ S Hij Hi Hj) as L.
    unfold row_leb, row_compare in L. rewrite K, sql_compare_refl in L.
    replace (directed o Eq) with Eq in L by now destruct o.
    rewrite sql_compare_name in L. exact L.
  - intros r1 r2. unfold row_compare.
    destruct (directed _ _); try discriminate.
    rewrite sql_compare_name. apply String.compare_eq_iff.
Qed.

Lemma ties_in_handle_order_witness :
  get_users_paginate (Sample.store PostgresEngine) 0 10 None None true true
    "displayname" BACKWARDS true None
  = inr (map (user_dict PostgresEngine)
           [Sample.bob_row; Sample.carol_row; Sample.alice_row], 3)
  /\ exists it rs,
       resolve_order "displayname" = Some it
       /\ map (user_dict PostgresEngine)
            [Sample.bob_row; Sample.carol_row; Sample.alice_row]
          = map (user_dict PostgresEngine) rs
       /\ (forall i j ri rj,
             (i < j)%nat -> nth_error rs i = Some ri -> nth_error rs j = Some rj ->
             eval_item PostgresEngine ri it = eval_item PostgresEngine rj it ->
             String.leb (u_name (row_u ri)) (u_name (row_u rj)) = true)
       /\ (forall r1 r2,
             row_compare PostgresEngine it DESC r1 r2 = Eq ->
             u_name (row_u r1) = u_name (row_u r2)).
Proof.
  split; [reflexivity|].
  exact (ties_in_handle_order (Sample.store PostgresEngine) 0 10 None None true
           true "displayname" BACKWARDS true None _ _ eq_refl).
Defined.

(** C6, as amended: in every returned row [erased] is a Python boolean, and
    it is [True] exactly when [erased_users] has a row for the handle; the
    flags [is_guest], [admin], [deactivated], [shadow_banned] and [approved]
    are the values of the user's columns as the engine hands them back. *)
Theorem erased_is_a_boolean self start limit user_id name guests deactivated
  order_by direction approved not_user_types rows count d :
  get_users_paginate self start limit user_id name guests deactivated order_by
    direction approved not_user_types = inr (rows, count) ->
  In d rows ->
  exists x b,
    In x (users (db_pool self))
    /\ Py.dict_get d "name" = Some (Py.PyStr (u_name x))
    /\ Py.dict_get d "erased" = Some (Py.PyBool b)
    /\ (b = true <->
        exists e, In e (erased_users (db_pool self)) /\ eu_user_id e = u_name x)
    /\ Py.dict_get d "is_guest" = Some (Py.PyInt (u_is_guest x))
    /\ Py.dict_get d "admin" = Some (Py.PyInt (u_admin x))
    /\ Py.dict_get d "deactivated" = Some (Py.PyInt (u_deactivated x))
    /\ Py.dict_get d "shadow_banned"
       = Some (py_of_sqlval (bool_cell (database_engine self) (u_shadow_banned x)))
    /\ Py.dict_get d "approved"
       = Some (match u_approved x with
               | Some a => py_of_sqlval (bool_cell (database_engine self) a)
               | None => Py.PyNone
               end).
Proof.
  intros H Hd. destruct (returned_row _ _ _ _ _ _ _ _ _ _ _ _ _ _ H Hd)
    as (r & -> & Hr & _).
  exists (row_u r), (Py.is_some (row_eu r)).
  apply from_clause_in in Hr. destruct Hr as (Hu & Hr).
  split; [exact Hu|]. split; [apply user_dict_name|].
  split; [apply user_dict_erased|]. split; [|apply user_dict_flags].
  destruct (row_eu r) as [e|]; simpl.
  - split; [intros _; now exists e | reflexivity].
  - split; [discriminate|]. intros (e & He & E). now apply Hr in He.
Qed.

Lemma erased_is_a_boolean_witness :
  In (user_dict Sqlite3Engine Sample.carol_row)
    (map (user_dict Sqlite3Engine)
       [Sample.alice_row; Sample.bob_row; Sample.carol_row])
  /\ Py.dict_get (user_dict Sqlite3Engine Sample.carol_row) "erased"
     = Some (Py.PyBool true)
  /\ exists x b,
       In x (users Sample.db)
       /\ Py.dict_get (user_dict Sqlite3Engine Sample.carol_row) "name"
          = Some (Py.PyStr (u_name x))
       /\ Py.dict_get (user_dict Sqlite3Engine Sample.carol_row) "erased"
          = Some (Py.PyBool b)
       /\ (b = true <->
           exists e, In e (erased_users Sample.db) /\ eu_user_id e = u_name x)
       /\ Py.dict_get (user_dict Sqlite3Engine Sample.carol_row) "is_guest"
          = Some (Py.PyInt (u_is_guest x))
       /\ Py.dict_get (user_dict Sqlite3Engine Sample.carol_row) "admin"
          = Some (Py.PyInt (u_admin x))
       /\ Py.dict_get (user_dict Sqlite3Engine Sample.carol_row) "deactivated"
          = Some (Py.PyInt (u_deactivated x))
       /\ Py.dict_get (user_dict Sqlite3Engine Sample.carol_row) "shadow_banned"
          = Some (py_of_sqlval (bool_cell Sqlite3Engine (u_shadow_banned x)))
       /\ Py.dict_get (user_dict Sqlite3Engine Sample.carol_row) "approved"
          = Some (match u_approved x with
                  | Some a => py_of_sqlval (bool_cell Sqlite3Engine a)
                  | None => Py.PyNone
                  end).
Proof.
  assert (I : In (user_dict Sqlite3Engine Sample.carol_row)
                (map (user_dict Sqlite3Engine)
                   [Sample.alice_row; Sample.bob_row; Sample.carol_row]))
    by (right; right; left; reflexivity).
  split; [exact I|]. split; [reflexivity|].
  exact (erased_is_a_boolean (Sample.store Sqlite3Engine) 0 10 None None true
           true "name" FORWARDS true None _ _ _ eq_refl I).
Defined.

(** C6, as stated, fails: on SQLite the guest flag and the approval status
    of a returned row are the integers the engine stores. *)
Lemma flags_stay_integers :
  exists rows count d,
    get_users_paginate (Sample.store Sqlite3Engine) 0 10 None None true true
      "name" FORWARDS true None = inr (rows, count)
    /\ In d rows
    /\ Py.dict_get d "is_guest" = Some (Py.PyInt 0)
    /\ Py.dict_get d "approved" = Some (Py.PyInt 0).
Proof.
  eexists. eexists. eexists. split; [reflexivity|].
  split; [left; reflexivity|]. split; reflexivity.
Qed.

(** C7: with a non-empty [name] the one clause that the two search terms
    add is the name clause, with the lower-cased name in its two patterns,
    whatever [user_id] is: a row passes it exactly when its handle is like
    [@%<name>%:%] or its lower-cased display name is like [%<name>%].  The
    call gives the result of the call without [user_id]; its count is the
    number of joined rows that satisfy the name clause and the other
    filters, and every row it returns satisfies the name clause. *)
Theorem name_overrides_user_id self start limit user_id name guests deactivated
  order_by direction approved not_user_types :
  Py.str_given name = true ->
  added_filters (name_filter self user_id name)
  = [Or (Like (Col Col_name) Hole) (Like (Lower (Col Col_displayname)) Hole)]
  /\ added_args (name_filter self user_id name)
     = [AStr ("@%" ++ str_lower self (Py.str_of name) ++ "%:%");
        AStr ("%" ++ str_lower self (Py.str_of name) ++ "%")]
  /\ (forall r,
        passes (database_engine self) (name_filter self user_id name) r
        = name_clause (database_engine self) (str_lower self (Py.str_of name)) r)
  /\ get_users_paginate self start limit user_id name guests deactivated
       order_by direction approved not_user_types
     = get_users_paginate self start limit None name guests deactivated
         order_by direction approved not_user_types
  /\ forall rows count,
       get_users_paginate self start limit user_id name guests deactivated
         order_by direction approved not_user_types = inr (rows, count) ->
       count =
       Z.of_nat (List.length
         (filter
            (fun r =>
               name_clause (database_engine self)
                 (str_lower self (Py.str_of name)) r
               && passes (database_engine self)
                    (flag_filters guests deactivated approved) r
               && passes (database_engine self)
                    (user_type_filter self not_user_types) r)
            (from_clause (db_pool self))))
       /\ forall d, In d rows ->
          exists r,
            d = user_dict (database_engine self) r
            /\ In r (from_clause (db_pool self))
            /\ name_clause (database_engine self)
                 (str_lower self (Py.str_of name)) r = true.
Proof.
  intros G.
  assert (N : forall r,
             passes (database_engine self) (name_filter self user_id name) r
             = name_clause (database_engine self)
                 (str_lower self (Py.str_of name)) r)
    by (intros r; now apply passes_name).
  split; [unfold name_filter; now rewrite G|].
  split; [unfold name_filter; now rewrite G|].
  split; [exact N|].
  split.
  - apply listing_ext. intros r. unfold row_passes.
    now rewrite !passes_name by exact G.
  - intros rows count H. split.
    + apply returned in H. destruct H as (_ & _ & _ & -> & _).
      f_equal. f_equal. apply filter_ext. intros r. unfold row_passes.
      now rewrite N.
    + intros d Hd.
      destruct (returned_row _ _ _ _ _ _ _ _ _ _ _ _ _ _ H Hd) as (r & -> & Hr & K).
      exists r. split; [reflexivity|]. split; [exact Hr|].
      rewrite <- N. unfold row_passes in K.
      apply andb_true_iff in K. destruct K as (K & _).
      apply andb_true_iff in K. now destruct K.
Qed.

(** [bob]'s handle contains the user id asked for, but only [alice]
    satisfies the name clause. *)
Lemma name_overrides_user_id_witness :
  Py.str_given (Some "ali") = true
  /\ get_users_paginate (Sample.store PostgresEngine) 0 10 (Some "bob")
       (Some "ali") true true "name" FORWARDS true None
     = inr ([user_dict PostgresEngine Sample.alice_row], 1)
  /\ name_clause PostgresEngine "ali" Sample.bob_row = false
  /\ get_users_paginate (Sample.store PostgresEngine) 0 10 (Some "bob")
       (Some "ali") true true "name" FORWARDS true None
     = get_users_paginate (Sample.store PostgresEngine) 0 10 None (Some "ali")
         true true "name" FORWARDS true None.
Proof.
  split; [reflexivity|]. split; [reflexivity|]. split; [reflexivity|].
  exact (proj1 (proj2 (proj2 (proj2
           (name_overrides_user_id (Sample.store PostgresEngine) 0 10
              (Some "bob") (Some "ali") true true "name" FORWARDS true None
              eq_refl))))).
Defined.

(** C8: the check raises exactly when the [users] table has a row and the
    domain of the handle it reads is not the configured server name; it
    returns for an empty table and for a matching domain; and the exception
    for a differing domain carries a message that contains the configured
    server name. *)
Theorem upgrade_check_compares_domains get_domain_from_id cur eng server_name :
  ((exists e,
      check_database_before_upgrade get_domain_from_id cur eng server_name
      = inl e)
   <-> exists x rest,
         users cur = x :: rest
         /\ get_domain_from_id (u_name x) <> inr server_name)
  /\ (check_database_before_upgrade get_domain_from_id cur eng server_name
      = inr tt
      <-> users cur = []
          \/ exists x rest,
               users cur = x :: rest
               /\ get_domain_from_id (u_name x) = inr server_name)
  /\ (forall x rest user_domain,
        users cur = x :: rest ->
        get_domain_from_id (u_name x) = inr user_domain ->
        user_domain <> server_name ->
        check_database_before_upgrade get_domain_from_id cur eng server_name
        = inl (Py.Exception (not_native server_name)))
  /\ exists before after, not_native server_name = before ++ server_name ++ after.
Proof.
  assert (M : forall x rest,
             users cur = x :: rest ->
             (get_domain_from_id (u_name x) = inr server_name
              /\ check_database_before_upgrade get_domain_from_id cur eng
                   server_name = inr tt)
             \/ (get_domain_from_id (u_name x) <> inr server_name
                 /\ exists e,
                      check_database_before_upgrade get_domain_from_id cur eng
                        server_name = inl e)).
  { intros x rest E. rewrite (check_first _ _ _ _ _ _ E).
    destruct (get_domain_from_id (u_name x)) as [e|user_domain].
    - right. split; [discriminate | now exists e].
    - destruct (String.eqb_spec user_domain server_name) as [->|N].
      + now left.
      + right. split; [congruence | eauto]. }
  split; [|split; [|split]].
  - split.
    + intros (e & H). destruct (users cur) as [|x rest] eqn:E.
      * rewrite check_empty in H by exact E. discriminate.
      * exists x, rest. split; [reflexivity|].
        destruct (M x rest eq_refl) as [(_ & K)|(K & _)]; [congruence | exact K].
    + intros (x & rest & E & N).
      destruct (M x rest E) as [(K & _)|(_ & K)]; [contradiction | exact K].
  - split.
    + intros H. destruct (users cur) as [|x rest] eqn:E; [now left|].
      right. exists x, rest. split; [reflexivity|].
      destruct (M x rest eq_refl) as [(K & _)|(_ & e & K)]; [exact K | congruence].
    + intros [E|(x & rest & E & K)]; [now apply check_empty|].
      destruct (M x rest E) as [(_ & R)|(N & _)]; [exact R | contradiction].
  - intros x rest user_domain E D N. rewrite (check_first _ _ _ _ _ _ E), D.
    destruct (String.eqb_spec user_domain server_name); [contradiction | reflexivity].
  - now exists "Found users in database not native to ",
      ("!" ++ newline
       ++ "You cannot change a synapse server_name after it's been configured").
Qed.

(** The three cases the specification lists for the check. *)
Lemma upgrade_check_examples :
  check_database_before_upgrade Sample.domain_of Sample.empty PostgresEngine
    "other.org" = inr tt
  /\ check_database_before_upgrade Sample.domain_of Sample.example_org
       PostgresEngine "other.org"
     = inl (Py.Exception (not_native "other.org"))
  /\ check_database_before_upgrade Sample.domain_of Sample.example_org
       PostgresEngine "example.org" = inr tt.
Proof.
  pose proof (upgrade_check_compares_domains Sample.domain_of Sample.example_org
                PostgresEngine "other.org") as (_ & _ & H & _).
  split; [reflexivity|]. split; [|reflexivity].
  apply (H _ _ "example.org" eq_refl eq_refl). discriminate.
Defined.

(** C9: for an [order_by] that is not a value of [UserSortOrder] the
    transaction raises [ValueError] with no clause in [filters], no parameter
    in [args] and no statement executed; so does the call. *)
Theorem invalid_order_by_fails_first self start limit user_id name guests
  deactivated order_by direction approved not_user_types st :
  ~ In order_by (UserSortOrder_values self) ->
  exists msg,
    get_users_paginate_txn self start limit user_id name guests deactivated
      order_by direction approved not_user_types st
    = (inl (Py.ValueError msg),
       {| filters := []; args := []; executed := executed st |})
    /\ get_users_paginate self start limit user_id name guests deactivated
         order_by direction approved not_user_types
       = inl (Py.ValueError msg).
Proof.
  intros H.
  assert (E : existsb (String.eqb order_by) (UserSortOrder_values self) = false).
  { destruct (existsb _ _) eqn:X; [|reflexivity].
    apply existsb_exists in X. destruct X as (v & Hv & Ev).
    apply String.eqb_eq in Ev. now subst v. }
  eexists. unfold get_users_paginate, get_users_paginate_txn, UserSortOrder.
  rewrite E. split; reflexivity.
Qed.

Lemma invalid_order_by_fails_first_witness :
  ~ In "password" (UserSortOrder_values (Sample.store Sqlite3Engine))
  /\ exists msg,
       get_users_paginate_txn (Sample.store Sqlite3Engine) 0 10 None
         (Some "ali") false false "password" FORWARDS false (Some ["bot"]) fresh
       = (inl (Py.ValueError msg),
          {| filters := []; args := []; executed := [] |})
       /\ get_users_paginate (Sample.store Sqlite3Engine) 0 10 None (Some "ali")
            false false "password" FORWARDS false (Some ["bot"])
          = inl (Py.ValueError msg).
Proof.
  assert (N : ~ In "password" (UserSortOrder_values (Sample.store Sqlite3Engine))).
  { simpl. intros H.
    repeat (destruct H as [H|H]; [discriminate H|]). exact H. }
  split; [exact N|].
  exact (invalid_order_by_fails_first (Sample.store Sqlite3Engine) 0 10 None
           (Some "ali") false false "password" FORWARDS false (Some ["bot"])
           fresh N).
Defined.

(** C10, as amended: the [creation_ts] of a returned row is 1000 times the
    [creation_ts] stored for its handle as long as that product is a signed
    64-bit integer, under the key [creation_ts] of a dictionary that has the
    columns of the select list as its keys.  A row whose product is not is
    returned on SQLite only, and its [creation_ts] is the floating-point
    product. *)
Theorem creation_ts_in_milliseconds self start limit user_id name guests
  deactivated order_by direction approved not_user_types rows count d :
  get_users_paginate self start limit user_id name guests deactivated order_by
    direction approved not_user_types = inr (rows, count) ->
  In d rows ->
  exists x,
    In x (users (db_pool self))
    /\ Py.dict_get d "name" = Some (Py.PyStr (u_name x))
    /\ (int64 (u_creation_ts x * 1000) = true ->
        Py.dict_get d "creation_ts" = Some (Py.PyInt (u_creation_ts x * 1000)))
    /\ (int64 (u_creation_ts x * 1000) = false ->
        database_engine self = Sqlite3Engine
        /\ Py.dict_get d "creation_ts"
           = Some (Py.PyFloat (real_times (u_creation_ts x) 1000)))
    /\ map fst d = map fst select_list.
Proof.
  intros H Hd.
  destruct (returned_row_fits _ _ _ _ _ _ _ _ _ _ _ _ _ _ H Hd)
    as (r & -> & Hr & F).
  exists (row_u r). apply from_clause_in in Hr. destruct Hr as (Hr & _).
  split; [exact Hr|]. split; [apply user_dict_name|].
  rewrite user_dict_creation_ts.
  split; [|split; [|apply user_dict_keys]].
  - intros I. unfold times. now rewrite I.
  - intros I. split.
    + destruct (database_engine self); [reflexivity|].
      specialize (F eq_refl). unfold in_milliseconds in F. congruence.
    + unfold times. now rewrite I.
Qed.

Lemma creation_ts_in_milliseconds_witness :
  In (user_dict Sqlite3Engine Sample.bob_row) [user_dict Sqlite3Engine Sample.bob_row]
  /\ u_creation_ts Sample.bob = 1700000000
  /\ Py.dict_get (user_dict Sqlite3Engine Sample.bob_row) "creation_ts"
     = Some (Py.PyInt 1700000000000)
  /\ exists x,
       In x (users Sample.db)
       /\ Py.dict_get (user_dict Sqlite3Engine Sample.bob_row) "name"
          = Some (Py.PyStr (u_name x))
       /\ (int64 (u_creation_ts x * 1000) = true ->
           Py.dict_get (user_dict Sqlite3Engine Sample.bob_row) "creation_ts"
           = Some (Py.PyInt (u_creation_ts x * 1000)))
       /\ (int64 (u_creation_ts x * 1000) = false ->
           Sqlite3Engine = Sqlite3Engine
           /\ Py.dict_get (user_dict Sqlite3Engine Sample.bob_row) "creation_ts"
              = Some (Py.PyFloat (real_times (u_creation_ts x) 1000)))
       /\ map fst (user_dict Sqlite3Engine Sample.bob_row) = map fst select_list.
Proof.
  split; [now left|]. split; [reflexivity|]. split; [reflexivity|].
  exact (creation_ts_in_milliseconds (Sample.store Sqlite3Engine) 1 1 None None
           true true "name" FORWARDS true None _ _ _ eq_refl (or_introl eq_refl)).
Defined.

(** C10, as stated, fails for a [creation_ts] whose product with 1000 is
    not a 64-bit integer: SQLite returns the row with the floating-point
    number 2^63, which is not the product, and Postgres raises. *)
Lemma late_creation_ts_is_not_multiplied :
  In Sample.dave (users Sample.far_future)
  /\ (exists d,
        get_users_paginate (Sample.store_of Sqlite3Engine Sample.far_future) 0 10
          None None true true "name" FORWARDS true None = inr ([d], 1)
        /\ Py.dict_get d "name" = Some (Py.PyStr (u_name Sample.dave))
        /\ Py.dict_get d "creation_ts" = Some (Py.PyFloat (2 ^ 63))
        /\ Py.dict_get d "creation_ts"
           <> Some (Py.PyInt (u_creation_ts Sample.dave * 1000)))
  /\ get_users_paginate (Sample.store_of PostgresEngine Sample.far_future) 0 10
       None None true true "name" FORWARDS true None
     = inl (Py.DatabaseError "bigint out of range").
Proof.
  split; [now left|]. split; [|reflexivity].
  eexists. split; [reflexivity|]. split; [reflexivity|].
  split; [reflexivity | discriminate].
Qed.

End Properties.

(** * Further properties *)

Section MoreListing.
Import Sql DataStore Listing.


Lemma passes_nothing_given eng self user_id name r :
  Py.str_given name = false -> Py.str_given user_id = false ->
  passes eng (name_filter self user_id name) r = true.
Proof.
  intros N U. unfold passes, added_filters, added_args, name_filter.
  now rewrite N, U.
Qed.




(** X2: [guests=False] lists exactly the users whose guest flag is 0, and
    [deactivated=False] exactly those whose deactivated flag is 0: each call
    gives the result of the call that includes them on the [users] table cut
    down to those rows. *)
Theorem flags_false_cut_the_table self start limit user_id name guests
  deactivated order_by direction approved not_user_types :
  get_users_paginate self start limit user_id name false deactivated order_by
    direction approved not_user_types
  = get_users_paginate (restrict_users not_guest self) start limit user_id name
      true deactivated order_by direction approved not_user_types
  /\ get_users_paginate self start limit user_id name guests false order_by
       direction approved not_user_types
     = get_users_paginate (restrict_users not_deactivated self) start limit
         user_id name guests true order_by direction approved not_user_types.
Proof.
  split; apply listing_restrict; intros r; unfold row_passes;
    rewrite !passes_flags; unfold not_guest, not_deactivated;
    destruct (passes _ (name_filter _ _ _) r), (passes _ (user_type_filter _ _) r),
      (u_is_guest (row_u r) =? 0), (u_deactivated (row_u r) =? 0),
      guests, deactivated, (approved || _); reflexivity.
Qed.

(** X3: an empty string as [name] or [user_id], and an empty list as
    [not_user_types], count as not given. *)
Theorem empty_terms_are_not_given self start limit user_id name guests
  deactivated order_by direction approved not_user_types :
  get_users_paginate self start limit user_id (Some "") guests deactivated
    order_by direction approved not_user_types
  = get_users_paginate self start limit user_id None guests deactivated
      order_by direction approved not_user_types
  /\ get_users_paginate self start limit (Some "") name guests deactivated
       order_by direction approved not_user_types
     = get_users_paginate self start limit None name guests deactivated
         order_by direction approved not_user_types
  /\ get_users_paginate self start limit user_id name guests deactivated
       order_by direction approved (Some [])
     = get_users_paginate self start limit user_id name guests deactivated
         order_by direction approved None.
Proof.
  split; [reflexivity|]. split; [|reflexivity].
  unfold get_users_paginate, get_users_paginate_txn, name_filter.
  destruct (Py.str_given name); reflexivity.
Qed.

(** X4: the two search terms are used only in their lower-cased form: two
    calls whose names have the same lower-cased form, and whose user ids
    have, give the same result. *)
Theorem terms_are_lower_cased self start limit user_id user_id' name name'
  guests deactivated order_by direction approved not_user_types :
  Py.str_given name = Py.str_given name' ->
  Py.str_given user_id = Py.str_given user_id' ->
  str_lower self (Py.str_of name) = str_lower self (Py.str_of name') ->
  str_lower self (Py.str_of user_id) = str_lower self (Py.str_of user_id') ->
  get_users_paginate self start limit user_id name guests deactivated
    order_by direction approved not_user_types
  = get_users_paginate self start limit user_id' name' guests deactivated
      order_by direction approved not_user_types.
Proof.
  intros G1 G2 L1 L2.
  unfold get_users_paginate, get_users_paginate_txn, name_filter.
  now rewrite G1, G2, L1, L2.
Qed.

Lemma terms_are_lower_cased_witness :
  get_users_paginate (Sample.store PostgresEngine) 0 10 None (Some "ALICE")
    true true "name" FORWARDS true None
  = inr ([user_dict PostgresEngine Sample.alice_row], 1)
  /\ get_users_paginate (Sample.store PostgresEngine) 0 10 None (Some "ALICE")
       true true "name" FORWARDS true None
     = get_users_paginate (Sample.store PostgresEngine) 0 10 None (Some "Alice")
         true true "name" FORWARDS true None.
Proof.
  split; [reflexivity|].
  exact (terms_are_lower_cased (Sample.store PostgresEngine) 0 10 None None
           (Some "ALICE") (Some "Alice") true true "name" FORWARDS true None
           eq_refl eq_refl eq_refl eq_refl).
Defined.

(** X24: what a list of excluded types excludes.  The list [""] leaves the
    users that have a type; a list with the empty string and with literal
    tags leaves the users that have a type other than those tags; a list of
    literal tags alone leaves the users that have no type or a type other
    than those tags; and a list of two or more empty strings excludes
    nobody. *)
Theorem excluded_user_types self start limit user_id name guests deactivated
  order_by direction approved (tags : list string) :
  get_users_paginate self start limit user_id name guests deactivated order_by
    direction approved (Some [""])
  = get_users_paginate (restrict_users has_user_type self) start limit user_id
      name guests deactivated order_by direction approved None
  /\ (In "" tags -> literal_tags tags <> [] ->
      get_users_paginate self start limit user_id name guests deactivated
        order_by direction approved (Some tags)
      = get_users_paginate (restrict_users (type_not_in (literal_tags tags)) self)
          start limit user_id name guests deactivated order_by direction
          approved None)
  /\ (tags <> [] -> ~ In "" tags ->
      get_users_paginate self start limit user_id name guests deactivated
        order_by direction approved (Some tags)
      = get_users_paginate (restrict_users (null_or_type_not_in tags) self)
          start limit user_id name guests deactivated order_by direction
          approved None)
  /\ (literal_tags tags = [] -> (2 <= List.length tags)%nat ->
      get_users_paginate self start limit user_id name guests deactivated
        order_by direction approved (Some tags)
      = get_users_paginate self start limit user_id name guests deactivated
          order_by direction approved None).
Proof.
  assert (E : forall l, existsb (fun t => (t =? "")%string) l = true <-> In "" l).
  { intros l. rewrite existsb_exists. split.
    - intros (t & Ht & Et). apply String.eqb_eq in Et. now subst t.
    - intros H. now exists "". }
  split; [|split; [|split]].
  - apply listing_restrict. intros r. unfold row_passes.
    now rewrite passes_only_sentinel, passes_no_types, andb_true_r.
  - intros S L. apply listing_restrict. intros r. unfold row_passes.
    rewrite passes_no_types, andb_true_r. f_equal.
    rewrite passes_with_sentinel.
    + unfold type_not_in. destruct (u_user_type (row_u r)); [reflexivity|].
      now destruct (literal_tags tags).
    + destruct tags as [|t [|t' tags]]; try reflexivity.
      simpl. destruct (String.eqb_spec t ""); [|reflexivity].
      subst t. now contradiction L.
    + intros ->. contradiction S.
    + now apply E.
  - intros N S. apply listing_restrict. intros r. unfold row_passes.
    rewrite passes_no_types, andb_true_r. f_equal.
    apply passes_without_sentinel; [exact N|].
    destruct (existsb _ tags) eqn:X; [|reflexivity]. now apply E in X.
  - intros L T. apply listing_ext. intros r. unfold row_passes.
    rewrite passes_no_types. f_equal.
    rewrite passes_with_sentinel.
    + rewrite L. now destruct (u_user_type (row_u r)).
    + destruct tags as [|t [|t' tags]]; simpl in T; try lia. reflexivity.
    + intros ->. simpl in T. lia.
    + destruct tags as [|t tags]; [simpl in T; lia|].
      simpl. unfold literal_tags in L. simpl in L.
      destruct (t =? "")%string; [reflexivity | discriminate L].
Qed.

(** The three requests the specification lists, and the request [""; ""],
    on the sample store: [bob] has no type, [alice] is a bot, [carol] is a
    support user. *)
Lemma excluded_user_types_examples :
  get_users_paginate (Sample.store Sqlite3Engine) 0 10 None None true true
    "name" FORWARDS true (Some [""])
  = inr (map (user_dict Sqlite3Engine) [Sample.alice_row; Sample.carol_row], 2)
  /\ get_users_paginate (Sample.store Sqlite3Engine) 0 10 None None true true
       "name" FORWARDS true (Some [""; "bot"])
     = inr (map (user_dict Sqlite3Engine) [Sample.carol_row], 1)
  /\ get_users_paginate (Sample.store Sqlite3Engine) 0 10 None None true true
       "name" FORWARDS true (Some ["bot"])
     = inr (map (user_dict Sqlite3Engine) [Sample.bob_row; Sample.carol_row], 2)
  /\ get_users_paginate (Sample.store Sqlite3Engine) 0 10 None None true true
       "name" FORWARDS true (Some [""; ""])
     = inr (map (user_dict Sqlite3Engine)
              [Sample.alice_row; Sample.bob_row; Sample.carol_row], 3).
Proof.
  pose proof (excluded_user_types (Sample.store Sqlite3Engine) 0 10 None None
                true true "name" FORWARDS true [""; "bot"]) as (H1 & H2 & _).
  pose proof (excluded_user_types (Sample.store Sqlite3Engine) 0 10 None None
                true true "name" FORWARDS true ["bot"]) as (_ & _ & H3 & _).
  pose proof (excluded_user_types (Sample.store Sqlite3Engine) 0 10 None None
                true true "name" FORWARDS true [""; ""]) as (_ & _ & _ & H4).
  split; [rewrite H1; reflexivity|]. split; [|split].
  - rewrite H2; [reflexivity | now left | discriminate].
  - rewrite H3; [reflexivity | discriminate |].
    intros [H|[]]. discriminate H.
  - rewrite H4; [reflexivity | reflexivity | simpl; lia].
Defined.

End MoreListing.

Section Pages.
Import Sql DataStore Listing.

Lemma firstn_plus {A : Type} (a b : nat) (l : list A) :
  firstn (a + b) l = (firstn a l ++ firstn b (skipn a l))%list.
Proof.
  revert l. induction a as [|a IH]; intros l; [reflexivity|].
  destruct l as [|x l]; simpl; [now rewrite firstn_nil | now rewrite IH].
Qed.

Lemma window_plus {A : Type} (s a b : Z) (l : list A) :
  0 <= s -> 0 <= a -> 0 <= b ->
  firstn (Z.to_nat (a + b)) (skipn (Z.to_nat s) l)
  = (firstn (Z.to_nat a) (skipn (Z.to_nat s) l)
     ++ firstn (Z.to_nat b) (skipn (Z.to_nat (s + a)) l))%list.
Proof.
  intros S A0 B. rewrite !Z2Nat.inj_add by lia.
  rewrite firstn_plus, skipn_skipn.
  now rewrite (Nat.add_comm (Z.to_nat a)).
Qed.

Lemma select_raises_less eng (a b : Z) rows :
  0 <= a -> 0 <= b ->
  select_raises eng (a + b) rows = false ->
  select_raises eng a rows = false.
Proof.
  intros A B. destruct eng; [reflexivity|]. unfold select_raises.
  destruct (0 <? a) eqn:E; [|reflexivity].
  replace (0 <? a + b) with true by lia. exact (fun H => H).
Qed.

(** X5: a page splits into consecutive pages: when the call for
    [limit1 + limit2] rows at [start] returns, so do the calls for [limit1]
    rows at [start] and for [limit2] rows at [start + limit1], with the same
    count, and their rows one after the other are the rows of the first. *)
Theorem consecutive_pages_join self start limit1 limit2 user_id name guests
  deactivated order_by direction approved not_user_types rows count :
  0 <= start -> 0 <= limit1 -> 0 <= limit2 ->
  start + limit1 < 2 ^ 63 ->
  get_users_paginate self start (limit1 + limit2) user_id name guests
    deactivated order_by direction approved not_user_types = inr (rows, count) ->
  exists rows1 rows2,
    get_users_paginate self start limit1 user_id name guests deactivated
      order_by direction approved not_user_types = inr (rows1, count)
    /\ get_users_paginate self (start + limit1) limit2 user_id name guests
         deactivated order_by direction approved not_user_types
       = inr (rows2, count)
    /\ rows = (rows1 ++ rows2)%list.
Proof.
  intros S L1 L2 B H.
  pose proof (returned_order _ _ _ _ _ _ _ _ _ _ _ _ _ H) as O.
  apply returned in H. destruct H as (rs & P & -> & -> & I).
  apply andb_true_iff in I. destruct I as (I1 & I2).
  assert (J1 : int64 limit1 && int64 start = true).
  { rewrite I2, andb_true_r. unfold int64 in *. lia. }
  assert (J2 : int64 limit2 && int64 (start + limit1) = true).
  { unfold int64 in *. lia. }
  rewrite !get_users_paginate_eq, O, J1, J2.
  revert P. unfold page_rows.
  destruct (resolve_order order_by) as [it|]; [|discriminate].
  set (l := filter _ _). intros P.
  apply ordered_page_window in P. destruct P as (W & N).
  rewrite limit_offset_returns in W by lia. injection W as <-.
  rewrite !ordered_page_returns; try lia.
  - eexists. eexists. split; [reflexivity|]. split; [reflexivity|].
    now rewrite window_plus, map_app by lia.
  - apply (select_raises_less _ limit2 limit1); [lia | lia |].
    now rewrite Z.add_comm.
  - now apply (select_raises_less _ limit1 limit2).
Qed.

Lemma consecutive_pages_join_witness :
  exists rows1 rows2,
    get_users_paginate (Sample.store PostgresEngine) 0 1 None None true true
      "name" FORWARDS true None = inr (rows1, 3)
    /\ get_users_paginate (Sample.store PostgresEngine) (0 + 1) 2 None None true
         true "name" FORWARDS true None = inr (rows2, 3)
    /\ map (user_dict PostgresEngine)
         [Sample.alice_row; Sample.bob_row; Sample.carol_row]
       = (rows1 ++ rows2)%list.
Proof.
  refine (consecutive_pages_join (Sample.store PostgresEngine) 0 1 2 None None
            true true "name" FORWARDS true None _ 3 _ _ _ _ _).
  - lia.
  - lia.
  - lia.
  - reflexivity.
  - reflexivity.
Defined.

End Pages.

Section Statements.
Import Sql DataStore Listing.




Lemma left_join_covers {A B : Type} (on : A -> B -> bool) (l : list A)
  (r : list B) (a : A) :
  In a l -> exists b, In (a, b) (left_join on l r).
Proof.
  intros H. unfold left_join.
  destruct (filter (on a) r) as [|m ms] eqn:F.
  - exists None. apply in_flat_map. exists a. split; [exact H|].
    rewrite F. now left.
  - exists (Some m). apply in_flat_map. exists a. split; [exact H|].
    rewrite F. now left.
Qed.

Lemma left_join_length {A B : Type} (on : A -> B -> bool) (l : list A)
  (r : list B) :
  (List.length l <= List.length (left_join on l r))%nat.
Proof.
  unfold left_join. induction l as [|a l IH]; [apply Nat.le_refl|].
  cbn [flat_map]. rewrite length_app. cbn [List.length].
  destruct (filter (on a) r) as [|m ms]; [|rewrite length_map];
    cbn [List.length]; lia.
Qed.

Lemma from_clause_covers db x :
  In x (users db) -> exists r, In r (from_clause db) /\ row_u r = x.
Proof.
  intros H. unfold from_clause.
  destruct (left_join_covers (fun a b => (u_name a =? p_full_user_id b)%string)
              (users db) (profiles db) x H) as (q & Hq).
  destruct (left_join_covers
              (fun up e => (u_name (fst up) =? eu_user_id e)%string)
              _ (erased_users db) (x, q) Hq) as (e & He).
  exists {| row_u := x; row_p := q; row_eu := e |}. split; [|reflexivity].
  apply in_map_iff. now exists (x, q, e).
Qed.

Lemma from_clause_length db :
  (List.length (users db) <= List.length (from_clause db))%nat.
Proof.
  unfold from_clause. rewrite length_map.
  eapply Nat.le_trans; [|apply left_join_length]. apply left_join_length.
Qed.

Lemma filter_all {A : Type} (f : A -> bool) (l : list A) :
  (forall x, f x = true) -> filter f l = l.
Proof.
  intros H. induction l as [|x l IH]; simpl; [reflexivity|].
  now rewrite H, IH.
Qed.

(** X7: the call that filters nothing lists every user, with or without a
    profile and erased or not: when the limit is not below the count, every
    row of [users] has a row in the result, and the count is not below the
    number of users. *)
Theorem unfiltered_listing_has_every_user self limit order_by direction rows
  count :
  list_all self 0 limit order_by direction = inr (rows, count) ->
  count <= limit ->
  (forall x, In x (users (db_pool self)) ->
     exists d, In d rows /\ Py.dict_get d "name" = Some (Py.PyStr (u_name x)))
  /\ Z.of_nat (List.length (users (db_pool self))) <= count.
Proof.
  unfold list_all. intros H L.
  apply returned in H. destruct H as (rs & P & -> & -> & _).
  rewrite filter_all in * by reflexivity.
  split.
  - intros x Hx. destruct (from_clause_covers _ _ Hx) as (r & Hr & <-).
    exists (user_dict (database_engine self) r).
    split; [|apply user_dict_name]. apply in_map.
    unfold page_rows in P.
    destruct (resolve_order order_by) as [it|]; [|discriminate].
    rewrite filter_all in P by reflexivity.
    apply ordered_page_window in P. destruct P as (P & _).
    rewrite limit_offset_all in P by (rewrite sorted_length; exact L).
    injection P as <-.
    apply (Permutation_in _ (Permutation_sym (sort_by_perm _ _))). exact Hr.
  - pose proof (from_clause_length (db_pool self)). lia.
Qed.

Lemma unfiltered_listing_has_every_user_witness :
  list_all (Sample.store PostgresEngine) 0 5 "creation_ts" BACKWARDS
  = inr (map (user_dict PostgresEngine)
           [Sample.bob_row; Sample.alice_row; Sample.carol_row], 3)
  /\ 3 <= 5
  /\ Z.of_nat (List.length (users (db_pool (Sample.store PostgresEngine)))) <= 3.
Proof.
  split; [reflexivity|]. split; [lia|].
  exact (proj2 (unfiltered_listing_has_every_user (Sample.store PostgresEngine)
                  5 "creation_ts" BACKWARDS _ 3 eq_refl ltac:(lia))).
Defined.

End Statements.

Section Reorder.
Import Sql DataStore Listing.

Lemma whole_listing self limit user_id name guests deactivated order_by
  direction approved not_user_types rows count :
  get_users_paginate self 0 limit user_id name guests deactivated order_by
    direction approved not_user_types = inr (rows, count) ->
  count <= limit ->
  count = Z.of_nat (List.length
            (filter (row_passes self user_id name guests deactivated approved
                       not_user_types)
               (from_clause (db_pool self))))
  /\ Permutation rows
       (map (user_dict (database_engine self))
          (filter (row_passes self user_id name guests deactivated approved
                     not_user_types)
             (from_clause (db_pool self)))).
Proof.
  intros H L. apply returned in H. destruct H as (rs & P & -> & -> & _).
  split; [reflexivity|]. apply Permutation_map.
  unfold page_rows in P.
  destruct (resolve_order order_by) as [it|]; [|discriminate].
  apply ordered_page_window in P. destruct P as (P & _).
  rewrite limit_offset_all in P by (rewrite sorted_length; exact L).
  injection P as <-. apply sort_by_perm.
Qed.

(** X8: the sort column and the direction only reorder the listing: two
    calls with the same filters that return the whole listing (offset 0,
    limit not below the count) return the same rows up to order, and the
    same count. *)
Theorem order_only_reorders self limit user_id name guests deactivated
  order_by1 direction1 order_by2 direction2 approved not_user_types
  rows1 count1 rows2 count2 :
  get_users_paginate self 0 limit user_id name guests deactivated order_by1
    direction1 approved not_user_types = inr (rows1, count1) ->
  get_users_paginate self 0 limit user_id name guests deactivated order_by2
    direction2 approved not_user_types = inr (rows2, count2) ->
  count1 <= limit ->
  count1 = count2 /\ Permutation rows1 rows2.
Proof.
  intros H1 H2 L.
  assert (E : count1 = count2).
  { apply returned in H1. apply returned in H2.
    destruct H1 as (? & _ & _ & -> & _). now destruct H2 as (? & _ & _ & -> & _). }
  split; [exact E|].
  destruct (whole_listing _ _ _ _ _ _ _ _ _ _ _ _ H1 L) as (_ & P1).
  destruct (whole_listing _ _ _ _ _ _ _ _ _ _ _ _ H2) as (_ & P2); [lia|].
  eapply perm_trans; [exact P1 | apply Permutation_sym, P2].
Qed.

Lemma order_only_reorders_witness :
  get_users_paginate (Sample.store Sqlite3Engine) 0 10 None None true true
    "name" FORWARDS true None
  = inr (map (user_dict Sqlite3Engine)
           [Sample.alice_row; Sample.bob_row; Sample.carol_row], 3)
  /\ get_users_paginate (Sample.store Sqlite3Engine) 0 10 None None true true
       "creation_ts" BACKWARDS true None
     = inr (map (user_dict Sqlite3Engine)
              [Sample.bob_row; Sample.alice_row; Sample.carol_row], 3)
  /\ Permutation
       (map (user_dict Sqlite3Engine)
          [Sample.alice_row; Sample.bob_row; Sample.carol_row])
       (map (user_dict Sqlite3Engine)
          [Sample.bob_row; Sample.alice_row; Sample.carol_row]).
Proof.
  split; [reflexivity|]. split; [reflexivity|].
  exact (proj2 (order_only_reorders (Sample.store Sqlite3Engine) 10 None None
                  true true "name" FORWARDS "creation_ts" BACKWARDS true None
                  _ 3 _ 3 eq_refl eq_refl ltac:(lia))).
Defined.

End Reorder.

Section DictFacts.
Import TestUtils.
Context {K V : Type} (eqb : K -> K -> bool).
Hypothesis eqb_eq : forall a b, eqb a b = true <-> a = b.

Lemma dict_eqb_refl (k : K) : eqb k k = true.
Proof. now apply eqb_eq. Qed.

Lemma dict_eqb_neq (a b : K) : a <> b -> eqb a b = false.
Proof.
  intros N. destruct (eqb a b) eqn:E; [|reflexivity].
  apply eqb_eq in E. contradiction.
Qed.

Lemma get_set_same (d : list (K * V)) (k : K) (v : V) :
  get eqb (set eqb d k v) k = Some v.
Proof.
  induction d as [|[k' v'] d IH]; simpl.
  - now rewrite dict_eqb_refl.
  - destruct (eqb k' k) eqn:E; simpl; now rewrite E.
Qed.

Lemma get_set_other (d : list (K * V)) (k k' : K) (v : V) :
  k' <> k -> get eqb (set eqb d k v) k' = get eqb d k'.
Proof.
  intros N. induction d as [|[k0 v0] d IH]; simpl.
  - rewrite dict_eqb_neq; [reflexivity | congruence].
  - destruct (eqb k0 k) eqn:E; simpl.
    + apply eqb_eq in E. subst k0.
      rewrite dict_eqb_neq by congruence. reflexivity.
    + now rewrite IH.
Qed.

Lemma get_in (d : list (K * V)) (k : K) (v : V) :
  get eqb d k = Some v -> In (k, v) d.
Proof.
  induction d as [|[k' v'] d IH]; simpl; [discriminate|].
  destruct (eqb k' k) eqn:E.
  - apply eqb_eq in E. intros H. injection H as ->. subst. now left.
  - intros H. right. now apply IH.
Qed.

Lemma get_key (d : list (K * V)) (k : K) :
  In k (map fst d) -> get eqb d k <> None.
Proof.
  induction d as [|[k' v'] d IH]; simpl; [contradiction|].
  intros [->|H].
  - now rewrite dict_eqb_refl.
  - destruct (eqb k' k); [discriminate | now apply IH].
Qed.

Lemma get_none (d : list (K * V)) (k : K) :
  get eqb d k = None -> ~ In k (map fst d).
Proof. intros H I. now apply get_key in I. Qed.

(** The keys after an assignment: the old ones, and the new one at the end
    if it was not there. *)
Lemma keys_set (d : list (K * V)) (k : K) (v : V) :
  map fst (set eqb d k v)
  = match get eqb d k with
    | Some _ => map fst d
    | None => (map fst d ++ [k])%list
    end.
Proof.
  induction d as [|[k' v'] d IH]; simpl; [reflexivity|].
  destruct (eqb k' k) eqn:E; simpl; [reflexivity|].
  rewrite IH. now destruct (get eqb d k).
Qed.

Lemma nodup_keys_set (d : list (K * V)) (k : K) (v : V) :
  NoDup (map fst d) -> NoDup (map fst (set eqb d k v)).
Proof.
  intros H. rewrite keys_set. destruct (get eqb d k) eqn:G; [exact H|].
  apply get_none in G.
  apply (Permutation_NoDup (l := k :: map fst d)).
  - apply Permutation_cons_append.
  - now constructor.
Qed.

Lemma values_set (d : list (K * V)) (k : K) (v x : V) :
  In x (map snd (set eqb d k v)) -> x = v \/ In x (map snd d).
Proof.
  induction d as [|[k' v'] d IH]; simpl.
  - intros [H|[]]. now left.
  - destruct (eqb k' k); simpl.
    + intros [H|H]; [now left | right; now right].
    + intros [H|H]; [right; now left|].
      destruct (IH H) as [E|I]; [now left | right; now right].
Qed.

Lemma nodup_values_set (d : list (K * V)) (k : K) (v : V) :
  NoDup (map snd d) -> ~ In v (map snd d) -> NoDup (map snd (set eqb d k v)).
Proof.
  induction d as [|[k' v'] d IH]; simpl; intros H N.
  - repeat constructor. intros [].
  - inversion H as [|? ? Hv Hd]; subst.
    destruct (eqb k' k); simpl.
    + constructor; [|exact Hd]. intros I. apply N. now right.
    + constructor.
      * intros I. apply values_set in I. destruct I as [E|I].
        -- apply N. now left.
        -- contradiction.
      * apply IH; [exact Hd|]. intros I. apply N. now right.
Qed.

(** With one entry per key and per value, a value has one key. *)
Lemma get_injective (d : list (K * V)) (k1 k2 : K) (v : V) :
  NoDup (map snd d) ->
  get eqb d k1 = Some v -> get eqb d k2 = Some v -> k1 = k2.
Proof.
  induction d as [|[k' v'] d IH]; simpl; [discriminate|].
  intros H. inversion H as [|? ? Hv Hd]; subst.
  destruct (eqb k' k1) eqn:E1, (eqb k' k2) eqn:E2.
  - apply eqb_eq in E1, E2. congruence.
  - intros H1 H2. injection H1 as ->. apply get_in in H2.
    exfalso. apply Hv. apply in_map_iff. now exists (k2, v).
  - intros H1 H2. injection H2 as ->. apply get_in in H1.
    exfalso. apply Hv. apply in_map_iff. now exists (k1, v).
  - now apply IH.
Qed.

(** The value a key loses when it is assigned anew is gone from the values. *)
Lemma values_set_replaced (d : list (K * V)) (k : K) (v old : V) :
  NoDup (map fst d) -> NoDup (map snd d) ->
  get eqb d k = Some old -> old <> v ->
  ~ In old (map snd (set eqb d k v)).
Proof.
  induction d as [|[k' v'] d IH]; simpl; [discriminate|].
  intros Hk Hv. inversion Hk as [|? ? Hk1 Hk2]; subst.
  inversion Hv as [|? ? Hv1 Hv2]; subst.
  destruct (eqb k' k) eqn:E; simpl.
  - intros H N. injection H as ->. intros [I|I]; [congruence | contradiction].
  - intros H N [I|I].
    + subst v'. apply get_in in H. apply Hv1.
      apply in_map_iff. now exists (k, old).
    + now apply (IH Hk2 Hv2 H N).
Qed.

End DictFacts.

Section MemoryStore.
Import TestUtils TestUtils.MemoryDataStore.

Lemma in_users (self : t) (user_id : string) :
  existsb (String.eqb user_id) (map snd (tokens_to_users self)) = true
  <-> In user_id (map snd (tokens_to_users self)).
Proof.
  rewrite existsb_exists. split.
  - intros (u & Hu & E). apply String.eqb_eq in E. now subst u.
  - intros H. exists user_id. split; [exact H | apply String.eqb_refl].
Qed.

Lemma register_free (self : t) (user_id token password_hash : string) :
  ~ In user_id (map snd (tokens_to_users self)) ->
  register self user_id token password_hash
  = (inr tt,
     with_tokens self (set String.eqb (tokens_to_users self) token user_id)).
Proof.
  intros N. unfold register.
  destruct (existsb _ _) eqn:E; [|reflexivity]. now apply in_users in E.
Qed.

Lemma register_taken (self : t) (user_id token password_hash : string) :
  In user_id (map snd (tokens_to_users self)) ->
  register self user_id token password_hash
  = (inl (StoreError 400 "User in use."), self).
Proof. intros I. unfold register. apply in_users in I. now rewrite I. Qed.

(** X9: a user that is not registered can register with any token; the
    token then resolves to the user and every other token resolves as
    before; from then on the user is in use: registering it again, with the
    same or another token, raises [StoreError 400] and changes nothing. *)
Theorem register_once (self : t) (user_id token password_hash : string) :
  ~ In user_id (map snd (tokens_to_users self)) ->
  fst (register self user_id token password_hash) = inr tt
  /\ get_user_by_token (snd (register self user_id token password_hash)) token
     = inr user_id
  /\ (forall token',
        token' <> token ->
        get_user_by_token (snd (register self user_id token password_hash)) token'
        = get_user_by_token self token')
  /\ (forall token' password_hash',
        register (snd (register self user_id token password_hash)) user_id
          token' password_hash'
        = (inl (StoreError 400 "User in use."),
           snd (register self user_id token password_hash))).
Proof.
  intros N. rewrite (register_free _ _ _ _ N). cbn [fst snd].
  split; [reflexivity|]. split; [|split].
  - unfold get_user_by_token, with_tokens. cbn [tokens_to_users].
    now rewrite (get_set_same String.eqb String.eqb_eq).
  - intros token' D. unfold get_user_by_token, with_tokens.
    cbn [tokens_to_users].
    now rewrite (get_set_other String.eqb String.eqb_eq) by exact D.
  - intros token' password_hash'. apply register_taken.
    unfold with_tokens. cbn [tokens_to_users].
    apply in_map_iff. exists (token, user_id). split; [reflexivity|].
    apply (get_in String.eqb String.eqb_eq).
    apply (get_set_same String.eqb String.eqb_eq).
Qed.

Lemma register_once_witness :
  ~ In "@alice:x" (map snd (tokens_to_users new))
  /\ get_user_by_token (snd (register new "@alice:x" "t1" "hash")) "t1"
     = inr "@alice:x".
Proof.
  assert (N : ~ In "@alice:x" (map snd (tokens_to_users new))) by (intros []).
  split; [exact N|].
  exact (proj1 (proj2 (register_once new "@alice:x" "t1" "hash" N))).
Defined.

Lemma register_keeps_unique (self : t) (user_id token password_hash : string) :
  NoDup (map fst (tokens_to_users self)) /\ NoDup (map snd (tokens_to_users self)) ->
  NoDup (map fst (tokens_to_users (snd (register self user_id token password_hash))))
  /\ NoDup (map snd (tokens_to_users (snd (register self user_id token password_hash)))).
Proof.
  intros (Hk & Hv). unfold register.
  destruct (existsb _ _) eqn:E; cbn [snd]; [now split|].
  unfold with_tokens. cbn [tokens_to_users]. split.
  - now apply (nodup_keys_set String.eqb String.eqb_eq).
  - apply nodup_values_set; [exact Hv|]. intros I. apply in_users in I. congruence.
Qed.

Lemma register_all_unique (self : t) (l : list (string * string * string)) :
  NoDup (map fst (tokens_to_users self)) /\ NoDup (map snd (tokens_to_users self)) ->
  NoDup (map fst (tokens_to_users (register_all self l)))
  /\ NoDup (map snd (tokens_to_users (register_all self l))).
Proof.
  revert self. induction l as [|[[u tk] p] l IH]; intros self H; [exact H|].
  apply IH. now apply register_keeps_unique.
Qed.

(** X10: whatever registrations were run on a new store, failed ones
    included, no two tokens resolve to the same user. *)
Theorem one_token_per_user (l : list (string * string * string))
  (token1 token2 user_id : string) :
  get_user_by_token (register_all new l) token1 = inr user_id ->
  get_user_by_token (register_all new l) token2 = inr user_id ->
  token1 = token2.
Proof.
  unfold get_user_by_token. intros H1 H2.
  destruct (register_all_unique new l) as (_ & Hv).
  { split; constructor. }
  destruct (get String.eqb _ token1) as [u1|] eqn:G1; [|discriminate].
  destruct (get String.eqb _ token2) as [u2|] eqn:G2; [|discriminate].
  injection H1 as ->. injection H2 as ->.
  exact (get_injective String.eqb String.eqb_eq _ _ _ _ Hv G1 G2).
Qed.

Lemma one_token_per_user_witness :
  get_user_by_token
    (register_all new [("@a:x", "t1", "h"); ("@b:x", "t2", "h"); ("@a:x", "t3", "h")])
    "t1" = inr "@a:x"
  /\ "t1" = "t1".
Proof.
  split; [reflexivity|].
  exact (one_token_per_user
           [("@a:x", "t1", "h"); ("@b:x", "t2", "h"); ("@a:x", "t3", "h")]
           "t1" "t1" "@a:x" eq_refl eq_refl).
Defined.

(** X11: a token can be taken over: when another user registers with a
    token that is in use, the token resolves to the new user and the user
    it resolved to is no longer registered, so that it can register again. *)
Theorem token_taken_over (l : list (string * string * string))
  (old user_id token password_hash : string) :
  get_user_by_token (register_all new l) token = inr old ->
  ~ In user_id (map snd (tokens_to_users (register_all new l))) ->
  get_user_by_token
    (snd (register (register_all new l) user_id token password_hash)) token
  = inr user_id
  /\ forall token' password_hash',
       fst (register
              (snd (register (register_all new l) user_id token password_hash))
              old token' password_hash')
       = inr tt.
Proof.
  intros G N.
  destruct (register_all_unique new l) as (Hk & Hv).
  { split; constructor. }
  set (s := register_all new l) in *.
  rewrite (register_free _ _ _ _ N). cbn [snd]. split.
  - unfold get_user_by_token, with_tokens. cbn [tokens_to_users].
    now rewrite (get_set_same String.eqb String.eqb_eq).
  - intros token' password_hash'. rewrite register_free; [reflexivity|].
    unfold with_tokens. cbn [tokens_to_users].
    unfold get_user_by_token in G.
    destruct (get String.eqb (tokens_to_users s) token) as [o|] eqn:E;
      [|discriminate].
    injection G as ->.
    apply (values_set_replaced String.eqb String.eqb_eq _ _ _ _ Hk Hv E).
    intros ->. apply N. apply in_map_iff. exists (token, user_id).
    split; [reflexivity|]. exact (get_in String.eqb String.eqb_eq _ _ _ E).
Qed.

Lemma token_taken_over_witness :
  get_user_by_token (register_all new [("@a:x", "t1", "h")]) "t1" = inr "@a:x"
  /\ get_user_by_token
       (snd (register (register_all new [("@a:x", "t1", "h")]) "@b:x" "t1" "h"))
       "t1" = inr "@b:x".
Proof.
  split; [reflexivity|].
  refine (proj1 (token_taken_over [("@a:x", "t1", "h")] "@a:x" "@b:x" "t1" "h"
                   eq_refl _)).
  simpl. intros [H|[]]. discriminate H.
Defined.

(** X12: the first [store_room] of a room id wins: it stores the room that
    [get_room] then returns, leaves every other room as it was, and any
    later [store_room] of that id raises [StoreError 409] and changes
    nothing. *)
Theorem store_room_once (self : t) (room_id creator1 : string) (public1 : bool) :
  get_room self room_id = None ->
  fst (store_room self room_id creator1 public1) = inr tt
  /\ get_room (snd (store_room self room_id creator1 public1)) room_id
     = Some {| MemoryDataStore.room_id := room_id; is_public := public1;
               creator := creator1 |}
  /\ (forall other,
        other <> room_id ->
        get_room (snd (store_room self room_id creator1 public1)) other
        = get_room self other)
  /\ (forall creator2 public2,
        store_room (snd (store_room self room_id creator1 public1)) room_id
          creator2 public2
        = (inl (StoreError 409 "Conflicting room!"),
           snd (store_room self room_id creator1 public1))).
Proof.
  intros N.
  assert (E : store_room self room_id creator1 public1
              = (inr tt,
                 with_rooms self
                   (set String.eqb (rooms self) room_id
                      {| MemoryDataStore.room_id := room_id;
                         is_public := public1; creator := creator1 |}))).
  { unfold store_room. unfold get_room in N. now rewrite N. }
  rewrite E. cbn [fst snd]. unfold get_room, with_rooms. cbn [rooms].
  split; [reflexivity|]. split; [|split].
  - apply (get_set_same String.eqb String.eqb_eq).
  - intros other D. exact (get_set_other String.eqb String.eqb_eq _ _ _ _ D).
  - intros creator2 public2. unfold store_room. cbn [rooms].
    now rewrite (get_set_same String.eqb String.eqb_eq).
Qed.

Lemma store_room_once_witness :
  get_room new "!r:x" = None
  /\ store_room (snd (store_room new "!r:x" "@a:x" true)) "!r:x" "@b:x" false
     = (inl (StoreError 409 "Conflicting room!"),
        snd (store_room new "!r:x" "@a:x" true)).
Proof.
  split; [reflexivity|].
  exact (proj2 (proj2 (proj2 (store_room_once new "!r:x" "@a:x" true eq_refl)))
           "@b:x" false).
Defined.

End MemoryStore.

Section MemoryEvents.
Import TestUtils TestUtils.MemoryDataStore.

Lemma key_eqb_eq (a b : state_key_t) : key_eqb a b = true <-> a = b.
Proof.
  destruct a as [[a1 a2] a3], b as [[b1 b2] b3]. unfold key_eqb. cbn [fst snd].
  rewrite !andb_true_iff, !String.eqb_eq. split.
  - intros ((-> & ->) & ->). reflexivity.
  - intros E. injection E as -> -> ->. auto.
Qed.

(** X13: [persist_event] raises exactly for an event of the membership type
    that lacks [state_key] or [membership], and then stores nothing; any
    other event is appended to [events]. *)
Theorem persist_event_outcome (member_type : string) (self : t) (ev : event) :
  ((exists msg,
      persist_event member_type self ev = (inl (AttributeError msg), self))
   <-> ev_type ev = member_type
       /\ (ev_state_key ev = None \/ ev_membership ev = None))
  /\ (fst (persist_event member_type self ev) = inr tt
      \/ exists msg,
           persist_event member_type self ev = (inl (AttributeError msg), self))
  /\ (fst (persist_event member_type self ev) = inr tt ->
      events (snd (persist_event member_type self ev))
      = (events self ++ [ev])%list).
Proof.
  unfold persist_event.
  destruct (String.eqb_spec (ev_type ev) member_type) as [E|E].
  - destruct (ev_state_key ev) as [k|]; [destruct (ev_membership ev) as [m|]|].
    + split; [|split; [now left | reflexivity]]. split.
      * intros (msg & H). discriminate H.
      * intros (_ & [H|H]); discriminate H.
    + split; [|split; [right; eauto | discriminate]]. split; eauto.
    + split; [|split; [right; eauto | discriminate]]. split; eauto.
  - split; [|split; [now left | reflexivity]]. split.
    + intros (msg & H). discriminate H.
    + intros (H & _). contradiction.
Qed.

Lemma persist_event_outcome_witness :
  fst (persist_event "m.room.member" new
         {| ev_type := "m.room.message"; ev_room_id := "!r:x";
            ev_state_key := None; ev_membership := None; ev_body := "hi" |})
  = inr tt
  /\ events (snd (persist_event "m.room.member" new
                    {| ev_type := "m.room.message"; ev_room_id := "!r:x";
                       ev_state_key := None; ev_membership := None;
                       ev_body := "hi" |}))
     = ([] ++ [{| ev_type := "m.room.message"; ev_room_id := "!r:x";
                  ev_state_key := None; ev_membership := None;
                  ev_body := "hi" |}])%list.
Proof.
  split; [reflexivity|].
  exact (proj2 (proj2 (persist_event_outcome "m.room.member" new
                         {| ev_type := "m.room.message"; ev_room_id := "!r:x";
                            ev_state_key := None; ev_membership := None;
                            ev_body := "hi" |})) eq_refl).
Defined.

Lemma persist_member (member_type : string) (self : t) (ev : event) user m :
  ev_type ev = member_type ->
  ev_state_key ev = Some user ->
  ev_membership ev = Some m ->
  persist_event member_type self ev
  = (inr tt,
     {| tokens_to_users := tokens_to_users self;
        paths_to_content := paths_to_content self;
        members :=
          set String.eqb (members self) (ev_room_id ev)
            (set String.eqb (room_members self (ev_room_id ev)) user ev);
        rooms := rooms self;
        current_state :=
          set key_eqb (current_state self) (ev_room_id ev, ev_type ev, user) ev;
        events := (events self ++ [ev])%list |}).
Proof.
  intros T K M. unfold persist_event. rewrite T, K, M.
  now rewrite String.eqb_refl.
Qed.

(** X14: a membership event becomes the membership of its user in its
    room, replacing the one before; the membership of every other user or
    room stays as it was. *)
Theorem member_event_is_stored (member_type : string) (self : t) (ev : event)
  (user m : string) :
  ev_type ev = member_type ->
  ev_state_key ev = Some user ->
  ev_membership ev = Some m ->
  get_room_member (snd (persist_event member_type self ev)) user (ev_room_id ev)
  = Some ev
  /\ forall user' room',
       (user' <> user \/ room' <> ev_room_id ev) ->
       get_room_member (snd (persist_event member_type self ev)) user' room'
       = get_room_member self user' room'.
Proof.
  intros T K M. rewrite (persist_member _ _ _ _ _ T K M). cbn [snd].
  unfold get_room_member, room_members. cbn [members]. split.
  - rewrite (get_set_same String.eqb String.eqb_eq).
    apply (get_set_same String.eqb String.eqb_eq).
  - intros user' room' D.
    destruct (String.eqb_spec room' (ev_room_id ev)) as [->|N].
    + rewrite (get_set_same String.eqb String.eqb_eq).
      destruct D as [D|D]; [|contradiction].
      exact (get_set_other String.eqb String.eqb_eq _ _ _ _ D).
    + now rewrite (get_set_other String.eqb String.eqb_eq _ _ _ _ N).
Qed.

Lemma member_event_is_stored_witness :
  get_room_member
    (snd (persist_event "m.room.member" new
            {| ev_type := "m.room.member"; ev_room_id := "!r:x";
               ev_state_key := Some "@a:x"; ev_membership := Some "join";
               ev_body := "" |})) "@a:x" "!r:x"
  = Some {| ev_type := "m.room.member"; ev_room_id := "!r:x";
            ev_state_key := Some "@a:x"; ev_membership := Some "join";
            ev_body := "" |}.
Proof.
  exact (proj1 (member_event_is_stored "m.room.member" new
                  {| ev_type := "m.room.member"; ev_room_id := "!r:x";
                     ev_state_key := Some "@a:x"; ev_membership := Some "join";
                     ev_body := "" |} "@a:x" "join" eq_refl eq_refl eq_refl)).
Defined.

(** X15: after an event with a [state_key] is persisted,
    [get_current_state] for its room, type and key gives that event alone,
    and the state under every other room, non-empty type and key is as
    before. *)
Theorem state_event_is_current (member_type : string) (self : t) (ev : event)
  (k : string) :
  ev_state_key ev = Some k ->
  ev_type ev <> "" ->
  fst (persist_event member_type self ev) = inr tt ->
  get_current_state (snd (persist_event member_type self ev)) (ev_room_id ev)
    (Some (ev_type ev)) k
  = StateEvents [ev]
  /\ forall room' type' k',
       type' <> "" ->
       (room', type', k') <> (ev_room_id ev, ev_type ev, k) ->
       get_current_state (snd (persist_event member_type self ev)) room'
         (Some type') k'
       = get_current_state self room' (Some type') k'.
Proof.
  intros K T. unfold persist_event. rewrite K.
  destruct (ev_type ev =? member_type)%string;
    [destruct (ev_membership ev) as [m|]; [|discriminate]|];
    intros _; cbn [snd]; unfold get_current_state; cbn [current_state].
  all: split;
    [ assert (G : Py.str_given (Some (ev_type ev)) = true)
        by (destruct (ev_type ev); [contradiction | reflexivity]);
      rewrite G; cbn [Py.str_of];
      now rewrite (get_set_same key_eqb key_eqb_eq)
    | intros room' type' k' T' D;
      assert (G : Py.str_given (Some type') = true)
        by (destruct type'; [contradiction | reflexivity]);
      rewrite G; cbn [Py.str_of];
      now rewrite (get_set_other key_eqb key_eqb_eq _ _ _ _ D) ].
Qed.

Lemma state_event_is_current_witness :
  get_current_state
    (snd (persist_event "m.room.member" new
            {| ev_type := "m.room.topic"; ev_room_id := "!r:x";
               ev_state_key := Some ""; ev_membership := None;
               ev_body := "topic" |})) "!r:x" (Some "m.room.topic") ""
  = StateEvents [{| ev_type := "m.room.topic"; ev_room_id := "!r:x";
                    ev_state_key := Some ""; ev_membership := None;
                    ev_body := "topic" |}].
Proof.
  refine (proj1 (state_event_is_current "m.room.member" new
                   {| ev_type := "m.room.topic"; ev_room_id := "!r:x";
                      ev_state_key := Some ""; ev_membership := None;
                      ev_body := "topic" |} "" eq_refl _ eq_refl)).
  discriminate.
Defined.

Lemma rooms_where_spec ms rs user_id membership_list :
  (forall r, In r rs -> In r (map fst ms)) ->
  ((exists r,
      In r rs
      /\ match get String.eqb (match get String.eqb ms r with
                               | Some m => m
                               | None => []
                               end) user_id with
         | Some e => ev_membership e = None
         | None => True
         end) ->
   exists msg, rooms_where ms rs user_id membership_list = inl (AttributeError msg))
  /\ ((forall r, In r rs ->
         exists e m,
           get String.eqb (match get String.eqb ms r with
                           | Some m => m
                           | None => []
                           end) user_id = Some e
           /\ ev_membership e = Some m) ->
      exists l,
        rooms_where ms rs user_id membership_list = inr l
        /\ forall r,
             In r l <->
             In r rs
             /\ exists e m,
                  get String.eqb (match get String.eqb ms r with
                                  | Some m => m
                                  | None => []
                                  end) user_id = Some e
                  /\ ev_membership e = Some m
                  /\ In m membership_list).
Proof.
  induction rs as [|r rs IH]; intros Hk.
  - split.
    + intros (r & [] & _).
    + intros _. exists []. split; [reflexivity|]. intros r. split; [intros []|].
      now intros ([] & _).
  - assert (Hk' : forall x, In x rs -> In x (map fst ms))
      by (intros x Hx; apply Hk; now right).
    destruct (IH Hk') as (IH1 & IH2). clear IH.
    assert (Hr : get String.eqb ms r <> None).
    { apply (get_key String.eqb String.eqb_eq). apply Hk. now left. }
    cbn [rooms_where].
    destruct (get String.eqb ms r) as [mr|] eqn:G; [|contradiction].
    split.
    + intros (x & [<-|Hx] & B).
      * rewrite G in B. destruct (get String.eqb mr user_id) as [e|]; eauto.
        rewrite B. eauto.
      * destruct (get String.eqb mr user_id) as [e|]; eauto.
        destruct (ev_membership e); eauto.
        destruct (IH1 (ex_intro _ x (conj Hx B))) as (msg & ->). eauto.
    + intros A.
      destruct (A r (or_introl eq_refl)) as (e & m & Ge & Me).
      rewrite G in Ge. rewrite Ge, Me.
      destruct (IH2 (fun x Hx => A x (or_intror Hx))) as (l & -> & L).
      eexists. split; [reflexivity|]. intros x.
      assert (X : existsb (String.eqb m) membership_list = true
                  <-> In m membership_list).
      { rewrite existsb_exists. split.
        - intros (y & Hy & E). apply String.eqb_eq in E. now subst y.
        - intros H. exists m. split; [exact H | apply String.eqb_refl]. }
      destruct (existsb (String.eqb m) membership_list) eqn:Ex.
      * split.
        -- intros [<-|Hx].
           ++ split; [now left|]. exists e, m. rewrite G.
              repeat split; try assumption. now apply X.
           ++ apply L in Hx. destruct Hx as (Hx & R). split; [now right | exact R].
        -- intros ([<-|Hx] & R); [now left|]. right. apply L. now split.
      * split.
        -- intros Hx. apply L in Hx. destruct Hx as (Hx & R).
           split; [now right | exact R].
        -- intros ([<-|Hx] & e' & m' & Ge' & Me' & Im).
           ++ rewrite G in Ge'. rewrite Ge in Ge'. injection Ge' as <-.
              rewrite Me in Me'. injection Me' as <-.
              apply X in Im. discriminate Im.
           ++ apply L. split; [exact Hx|]. now exists e', m'.
Qed.

(** X16: [get_rooms_for_user_where_membership_is] raises [AttributeError]
    as soon as the store has members for a room in which the user has no
    membership event; when the user has one in every such room, the result
    is the rooms in which its membership is one of the list. *)
Theorem rooms_of_user_need_membership_everywhere (self : t) (user_id : string)
  (membership_list : list string) :
  ((exists r,
      In r (map fst (members self)) /\ get_room_member self user_id r = None) ->
   exists msg,
     get_rooms_for_user_where_membership_is self user_id membership_list
     = inl (AttributeError msg))
  /\ ((forall r, In r (map fst (members self)) ->
         exists e m,
           get_room_member self user_id r = Some e /\ ev_membership e = Some m) ->
      exists l,
        get_rooms_for_user_where_membership_is self user_id membership_list
        = inr l
        /\ forall r,
             In r l <->
             In r (map fst (members self))
             /\ exists e m,
                  get_room_member self user_id r = Some e
                  /\ ev_membership e = Some m
                  /\ In m membership_list).
Proof.
  unfold get_rooms_for_user_where_membership_is, get_room_member, room_members.
  destruct (rooms_where_spec (members self) (map fst (members self)) user_id
              membership_list (fun r H => H)) as (A & B).
  split; [|exact B].
  intros (r & Hr & N). apply A. exists r. split; [exact Hr|]. now rewrite N.
Qed.

Lemma rooms_of_user_need_membership_everywhere_witness :
  (exists r,
     In r (map fst (members
             (persist_all "m.room.member" new
                [{| ev_type := "m.room.member"; ev_room_id := "!r1:x";
                    ev_state_key := Some "@a:x"; ev_membership := Some "join";
                    ev_body := "" |};
                 {| ev_type := "m.room.member"; ev_room_id := "!r2:x";
                    ev_state_key := Some "@b:x"; ev_membership := Some "join";
                    ev_body := "" |}])))
     /\ get_room_member
          (persist_all "m.room.member" new
             [{| ev_type := "m.room.member"; ev_room_id := "!r1:x";
                 ev_state_key := Some "@a:x"; ev_membership := Some "join";
                 ev_body := "" |};
              {| ev_type := "m.room.member"; ev_room_id := "!r2:x";
                 ev_state_key := Some "@b:x"; ev_membership := Some "join";
                 ev_body := "" |}]) "@a:x" r = None)
  /\ exists msg,
       get_rooms_for_user_where_membership_is
         (persist_all "m.room.member" new
            [{| ev_type := "m.room.member"; ev_room_id := "!r1:x";
                ev_state_key := Some "@a:x"; ev_membership := Some "join";
                ev_body := "" |};
             {| ev_type := "m.room.member"; ev_room_id := "!r2:x";
                ev_state_key := Some "@b:x"; ev_membership := Some "join";
                ev_body := "" |}]) "@a:x" ["join"]
       = inl (AttributeError msg).
Proof.
  assert (H : exists r,
     In r (map fst (members
             (persist_all "m.room.member" new
                [{| ev_type := "m.room.member"; ev_room_id := "!r1:x";
                    ev_state_key := Some "@a:x"; ev_membership := Some "join";
                    ev_body := "" |};
                 {| ev_type := "m.room.member"; ev_room_id := "!r2:x";
                    ev_state_key := Some "@b:x"; ev_membership := Some "join";
                    ev_body := "" |}])))
     /\ get_room_member
          (persist_all "m.room.member" new
             [{| ev_type := "m.room.member"; ev_room_id := "!r1:x";
                 ev_state_key := Some "@a:x"; ev_membership := Some "join";
                 ev_body := "" |};
              {| ev_type := "m.room.member"; ev_room_id := "!r2:x";
                 ev_state_key := Some "@b:x"; ev_membership := Some "join";
                 ev_body := "" |}]) "@a:x" r = None).
  { exists "!r2:x". split; [right; left; reflexivity | reflexivity]. }
  split; [exact H|].
  exact (proj1 (rooms_of_user_need_membership_everywhere _ "@a:x" ["join"]) H).
Defined.

End MemoryEvents.

Section Clock.
Import TestUtils TestUtils.MockClock.

Lemma advance_all_time (l : list Z) (self : t) :
  time (advance_all self l) = time self + fold_right Z.add 0 l.
Proof.
  revert self. induction l as [|s l IH]; intros self; simpl.
  - unfold advance_all. simpl. lia.
  - unfold advance_all in *. simpl. rewrite IH. unfold time, advance_time, self_now.
    simpl. lia.
Qed.

(** X17: a clock starts at 1000 and [advance_time] adds up: after any run
    of calls a new clock reads 1000 plus the sum of the seconds given, and
    [time_msec] is 1000 times that; negative seconds move it back. *)
Theorem clock_adds_up (l : list Z) :
  time (advance_all new l) = 1000 + fold_right Z.add 0 l
  /\ time_msec (advance_all new l) = 1000 * (1000 + fold_right Z.add 0 l).
Proof.
  unfold time_msec. rewrite advance_all_time.
  change (time new) with 1000. split; lia.
Qed.

End Clock.

Section MockCalls.
Import TestUtils TestUtils.DeferredMockCallable.
Context {V R : Type} (v_eqb : V -> V -> bool) (repr : V -> string)
  (self_repr : string).



Lemma answer_again (es es' : list expectation) (args : args_t)
  (kwargs : kwargs_t) (r : R) :
  answer v_eqb es args kwargs = Some (inr r, es') ->
  answer v_eqb es' args kwargs = Some (inl AlreadyCalledError, es').
Proof.
  revert es'. induction es as [|e es IH]; intros es'; [discriminate|].
  cbn [answer]. destruct (matches v_eqb e args kwargs) eqn:M.
  - destruct e as [[c x] d]. cbn [fst snd]. destruct d; try discriminate.
    intros H. injection H as <- <-. cbn [answer].
    unfold matches in *. cbn [fst snd] in *. now rewrite M.
  - destruct (answer v_eqb es args kwargs) as [[r' es'']|]; [|discriminate].
    intros H. injection H as -> <-. cbn [answer]. rewrite M.
    now rewrite (IH es'' eq_refl).
Qed.

(** X19: an expectation is met once: after a call has returned the result
    of an expectation, the same call again raises [AlreadyCalledError],
    even if a second expectation of that call is pending. *)
Theorem expectation_met_once (self : t) (args : args_t) (kwargs : kwargs_t)
  (r : R) :
  fst (call v_eqb repr self_repr self args kwargs) = inr r ->
  fst (call v_eqb repr self_repr
         (snd (call v_eqb repr self_repr self args kwargs)) args kwargs)
  = inl AlreadyCalledError.
Proof.
  unfold call at 1 3. destruct (expectations self) as [|e es] eqn:E;
    [discriminate|].
  destruct (answer v_eqb (e :: es) args kwargs) as [[r' es']|] eqn:A;
    [|discriminate].
  cbn [fst snd]. intros ->.
  pose proof (answer_again _ _ _ _ _ A) as A'.
  unfold call. cbn [expectations].
  destruct es' as [|e' es'']; [discriminate A'|]. now rewrite A'.
Qed.








End MockCalls.

Section MockCallsExamples.
Import TestUtils TestUtils.DeferredMockCallable.

Lemma expectation_met_once_witness :
  fst (call Z.eqb Examples.repr "<mock>" Examples.mock [1] []) = inr "first"
  /\ fst (call Z.eqb Examples.repr "<mock>"
            (snd (call Z.eqb Examples.repr "<mock>" Examples.mock [1] []))
            [1] [])
     = inl AlreadyCalledError.
Proof.
  split; [reflexivity|].
  exact (expectation_met_once Z.eqb Examples.repr "<mock>" Examples.mock [1] []
           "first" eq_refl).
Defined.


End MockCallsExamples.

Section HttpResource.
Import TestUtils TestUtils.MockHttpResource.
Context {Content Query Response : Type}.
Variable parse_qs : string -> option Query.
Variable cs_error : string -> Response.

Lemma split_plain (c : ascii) (s : string) :
  has_char c s = false -> split c s = [s].
Proof.
  induction s as [|x s IH]; simpl; [reflexivity|].
  rewrite orb_false_iff. intros (-> & H). now rewrite (IH H).
Qed.

Lemma split_at (c : ascii) (p q : string) :
  has_char c p = false ->
  split c (p ++ String c q) = p :: split c q.
Proof.
  induction p as [|x p IH]; simpl.
  - intros _. now rewrite Ascii.eqb_refl.
  - rewrite orb_false_iff. intros (-> & H). now rewrite (IH H).
Qed.

Lemma dispatch_unhandled (cbs : list (callback Content Query Response))
  (http_method : string) (req : request Content Query) :
  existsb (fun cb => handles cb http_method (path req)) cbs = false ->
  dispatch cs_error cbs http_method req
  = inl (KeyError ("No event can handle " ++ path req)).
Proof.
  induction cbs as [|[[m p] f] cbs IH]; [reflexivity|].
  cbn [existsb dispatch]. unfold handles at 1. cbn [fst snd].
  destruct (http_method =? m)%string; cbn [negb andb orb]; [|exact IH].
  destruct (p (path req)); [discriminate | exact IH].
Qed.

Lemma dispatch_app_handled (cbs more : list (callback Content Query Response))
  (http_method : string) (req : request Content Query) :
  existsb (fun cb => handles cb http_method (path req)) cbs = true ->
  dispatch cs_error (cbs ++ more) http_method req
  = dispatch cs_error cbs http_method req.
Proof.
  induction cbs as [|[[m p] f] cbs IH]; [discriminate|].
  cbn [existsb dispatch app]. unfold handles at 1. cbn [fst snd].
  destruct (http_method =? m)%string; cbn [negb andb orb]; [|exact IH].
  destruct (p (path req)); [reflexivity | exact IH].
Qed.

Lemma dispatch_app_unhandled (cbs more : list (callback Content Query Response))
  (http_method : string) (req : request Content Query) :
  existsb (fun cb => handles cb http_method (path req)) cbs = false ->
  dispatch cs_error (cbs ++ more) http_method req
  = dispatch cs_error more http_method req.
Proof.
  induction cbs as [|[[m p] f] cbs IH]; [reflexivity|].
  cbn [existsb dispatch app]. unfold handles at 1. cbn [fst snd].
  destruct (http_method =? m)%string; cbn [negb andb orb]; [|exact IH].
  destruct (p (path req)); [discriminate | exact IH].
Qed.

(** X21: the callbacks are tried in the order they were registered, and
    the first of the request's method whose pattern matches decides: a
    callback registered later changes nothing for a request that one
    registered before handles, and decides alone for a request that none of
    them handles; with no callback for a request [trigger] raises
    [KeyError] naming the path. *)
Theorem registration_order_decides (self : t Content Query Response)
  (method : string) (path_pattern : string -> option (list string))
  (f : request Content Query -> list string -> result (Z * Response))
  (http_method path : string) (content : Content) :
  (existsb (fun cb => handles cb http_method
                        (MockHttpResource.path
                           (request_of parse_qs self path content)))
     (callbacks self) = true ->
   trigger parse_qs cs_error (register_path self method path_pattern f)
     http_method path content
   = trigger parse_qs cs_error self http_method path content)
  /\ (existsb (fun cb => handles cb http_method
                           (MockHttpResource.path
                              (request_of parse_qs self path content)))
        (callbacks self) = false ->
      trigger parse_qs cs_error self http_method path content
      = inl (KeyError ("No event can handle "
                       ++ MockHttpResource.path
                            (request_of parse_qs self path content)))
      /\ trigger parse_qs cs_error (register_path self method path_pattern f)
           http_method path content
         = dispatch cs_error [(method, path_pattern, f)] http_method
             (request_of parse_qs self path content)).
Proof.
  unfold trigger, register_path. cbn [callbacks].
  change (request_of parse_qs
            {| callbacks := (callbacks self ++ [(method, path_pattern, f)])%list;
               prefix := prefix self |} path content)
    with (request_of parse_qs self path content).
  split.
  - apply dispatch_app_handled.
  - intros H. split; [now apply dispatch_unhandled|].
    now apply dispatch_app_unhandled.
Qed.

Lemma dispatch_never_code_message (cbs : list (callback Content Query Response))
  (http_method : string) (req : request Content Query) (code : Z) (msg : string) :
  dispatch cs_error cbs http_method req <> inl (CodeMessageException code msg).
Proof.
  induction cbs as [|[[m p] f] cbs IH]; [discriminate|].
  cbn [dispatch]. destruct (negb _); [exact IH|].
  destruct (p (path req)); [|exact IH].
  destruct (f req l) as [[]|[c r]]; discriminate.
Qed.

(** X22: [trigger] never raises [CodeMessageException]: when the callback
    that handles the request raises one, the caller gets its code with the
    error object made from its message. *)
Theorem code_message_becomes_response (self : t Content Query Response)
  (http_method path : string) (content : Content) (code : Z) (msg : string) :
  trigger parse_qs cs_error self http_method path content
  <> inl (CodeMessageException code msg)
  /\ forall before pattern f after groups,
       callbacks self = (before ++ (http_method, pattern, f) :: after)%list ->
       existsb (fun cb => handles cb http_method
                            (MockHttpResource.path
                               (request_of parse_qs self path content)))
         before = false ->
       pattern (MockHttpResource.path (request_of parse_qs self path content))
       = Some groups ->
       f (request_of parse_qs self path content) groups
       = inl (CodeMessageException code msg) ->
       trigger parse_qs cs_error self http_method path content
       = inr (code, cs_error msg).
Proof.
  split; [apply dispatch_never_code_message|].
  intros before pattern f after groups C B P F. unfold trigger. rewrite C.
  rewrite (dispatch_app_unhandled _ _ _ _ B). cbn [dispatch].
  now rewrite String.eqb_refl, P, F.
Qed.

(** X23: the query string is cut off before the patterns are tried: for a
    path with one [?], the callbacks get the part before it as the path and
    the parsed rest as [args]; a path without [?] is passed on whole, and
    so is one whose query [parse_qs] rejects.  The prefix comes first in
    all cases. *)
Theorem query_string_is_cut (self : t Content Query Response)
  (p q : string) (content : Content) :
  has_char "?" (prefix self ++ p) = false ->
  request_of parse_qs self p content
  = {| MockHttpResource.content := content;
       MockHttpResource.path := prefix self ++ p;
       args := None |}
  /\ (has_char "?" q = false ->
      request_of parse_qs self (p ++ String "?" q) content
      = match parse_qs q with
        | Some a =>
            {| MockHttpResource.content := content;
               MockHttpResource.path := prefix self ++ p;
               args := Some a |}
        | None =>
            {| MockHttpResource.content := content;
               MockHttpResource.path := prefix self ++ p ++ String "?" q;
               args := None |}
        end).
Proof.
  intros H. unfold request_of, take_query. cbn [MockHttpResource.path MockHttpResource.content].
  split.
  - now rewrite (split_plain _ _ H).
  - intros Q. rewrite <- append_assoc, (split_at _ _ _ H), (split_plain _ _ Q).
    cbn [nth_error nth]. now destruct (parse_qs q).
Qed.

End HttpResource.

Section HttpResourceExamples.
Import TestUtils TestUtils.MockHttpResource.

Lemma registration_order_decides_witness :
  existsb (fun cb => handles cb "GET"
                       (path (request_of Examples.parse_qs Examples.resource
                                "/users" "")))
    (callbacks Examples.resource) = true
  /\ trigger Examples.parse_qs Examples.cs_error
       (register_path Examples.resource "GET" (Examples.exactly "/api/users")
          (Examples.ok_handler "other"))
       "GET" "/users" ""
     = trigger Examples.parse_qs Examples.cs_error Examples.resource "GET"
         "/users" "".
Proof.
  split; [reflexivity|].
  exact (proj1 (registration_order_decides Examples.parse_qs Examples.cs_error
                  Examples.resource "GET" (Examples.exactly "/api/users")
                  (Examples.ok_handler "other") "GET" "/users" "") eq_refl).
Defined.

Lemma code_message_becomes_response_witness :
  trigger Examples.parse_qs Examples.cs_error Examples.resource "PUT"
    "/users?x=1" "body"
  = inr (403, "error: Forbidden").
Proof.
  exact (proj2 (code_message_becomes_response Examples.parse_qs
                  Examples.cs_error Examples.resource "PUT" "/users?x=1" "body"
                  403 "Forbidden")
           [("GET", Examples.exactly "/api/users", Examples.ok_handler "users")]
           (Examples.exactly "/api/users") Examples.failing_handler [] []
           eq_refl eq_refl eq_refl eq_refl).
Defined.

Lemma query_string_is_cut_witness :
  has_char "?" (prefix Examples.resource ++ "/users") = false
  /\ request_of Examples.parse_qs Examples.resource "/users?x=1" "body"
     = {| content := "body"; path := "/api/users"; args := Some "x=1" |}.
Proof.
  split; [reflexivity|].
  exact (proj2 (query_string_is_cut Examples.parse_qs Examples.resource "/users"
                  "x=1" "body" eq_refl) eq_refl).
Defined.

End HttpResourceExamples.
